(** * Matrix_cpp: text codec and addressing of [Matrix2D] and [Matrix4D]

    A shallow embedding of [src/Matrix/Matrix2D.hpp] and
    [src/Matrix/Matrix4D.hpp].  The two class templates read and write
    matrices through the C++ stream library and inherit from the class
    template [Matrix<T>] of [Matrix.hpp].

    - [std::string] is [list ascii]; [size_t] counters are [nat].
    - [std::ifstream] and [std::istringstream] are the record [istream]:
      the characters not yet read and the two state bits the code tests.
    - a thrown [std::runtime_error] is a constructor of [runtime_error],
      one per message of the source.
    - an access to a [std::vector] outside its bounds is undefined
      behaviour; the offset tables and the data buffer are accessed through
      checked operations that return [None] there.
    - the element type [T] is a parameter, with its stream operators
      ([Element]); [int] is one instance, a type of decimal numbers that
      [std::setprecision] rounds is another.
    - [Matrix.hpp] is not part of the sources at hand: what the two classes
      use of it is collected in [MatrixBase]. *)

From Stdlib Require Import String Ascii.
From Stdlib Require Import List Bool Arith Lia ZArith.
From Stdlib Require DecimalString DecimalNat DecimalZ DecimalPos DecimalFacts.
Import ListNotations.

Set Implicit Arguments.

(** ** Characters and strings *)

Definition str (s : string) : list ascii := list_ascii_of_string s.

Definition newline : ascii := "010"%char.
Definition comma : ascii := ","%char.
Definition space : ascii := " "%char.
Definition NUL : ascii := "000"%char.

(** [std::isspace] in the "C" locale: space, \t, \n, \v, \f, \r. *)
Definition isspace (c : ascii) : bool :=
  let n := nat_of_ascii c in (n =? 32) || ((9 <=? n) && (n <=? 13)).

Definition isdigit (c : ascii) : bool :=
  let n := nat_of_ascii c in (48 <=? n) && (n <=? 57).

(** [str[i]] on a const [std::string]: the character at [i], and the null
    character at [i = str.size()]. *)
Definition char_at (s : list ascii) (i : nat) : ascii := nth i s NUL.

(** [str.find(c, pos) == std::string::npos]. *)
Definition find_is_npos (c : ascii) (pos : nat) (s : list ascii) : bool :=
  negb (existsb (Ascii.eqb c) (skipn pos s)).

(** Lines of a text file, each followed by a line terminator. *)
Definition unlines (ls : list (list ascii)) : list ascii :=
  concat (map (fun l => l ++ [newline]) ls).

(** ** Input streams *)

Record istream : Type := mk_istream {
  buf : list ascii;      (* the characters not yet extracted *)
  eofbit : bool;
  failbit : bool
}.

Definition open_stream (content : list ascii) : istream :=
  mk_istream content false false.

Definition good (s : istream) : bool := negb (eofbit s) && negb (failbit s).

Definition setstate_fail (s : istream) : istream :=
  mk_istream (buf s) (eofbit s) true.

Definition setstate_eof (s : istream) : istream :=
  mk_istream (buf s) true (failbit s).

(** The characters up to the first line terminator, and what follows it
    ([None]: no terminator before the end). *)
Fixpoint split_line (s : list ascii) : list ascii * option (list ascii) :=
  match s with
  | [] => ([], None)
  | c :: r =>
      if Ascii.eqb c newline then ([], Some r)
      else let '(l, rest) := split_line r in (c :: l, rest)
  end.

(** [std::getline(file, str)].  On a stream that is not good the sentry
    fails: [failbit] is set and [str] is left as it was.  Otherwise [str] is
    erased and filled up to the terminator, which is extracted and dropped;
    reaching the end sets [eofbit], and extracting nothing at all sets
    [failbit]. *)
Definition getline (f : istream) (old : list ascii) : istream * list ascii :=
  if good f then
    match split_line (buf f) with
    | (l, Some rest) => (mk_istream rest false false, l)
    | (l, None) =>
        (mk_istream [] true (match l with [] => true | _ => false end), l)
    end
  else (setstate_fail f, old).

(** [file.peek()]: [None] is [EOF]. *)
Definition peek (f : istream) : istream * option ascii :=
  if good f then
    match buf f with
    | [] => (setstate_eof f, None)
    | c :: _ => (f, Some c)
    end
  else (setstate_fail f, None).

(** ** Errors *)

(** The messages of the [std::runtime_error]s the two classes throw. *)
Inductive runtime_error : Type :=
| CannotOpen              (* "error! cannot open %s" *)
| ReadError               (* "error! while reading %s" *)
| EmptyLine               (* "error! while reading %s (empty line)" *)
| VariableDimensions      (* "format error! slice have variable dimensions in %s" *)
| VariableDimensions333   (* "format error! slice have variable dimensions 333 in %s" *)
| FirstLineNotHeader      (* "format error! first line is not a slice header in %s" *)
| IncompatibleDataTypes   (* "format error! could not read a line in %s (incompatible data types)" *)
| VariableColumns.        (* "error! variable number of columns in %s" *)

(** The error kinds of the specification. *)
Inductive error_kind : Type := FileOpenError | FormatError | DimensionMismatchError.

Definition kind_of (e : runtime_error) : error_kind :=
  match e with
  | CannotOpen => FileOpenError
  | VariableDimensions | VariableDimensions333 | VariableColumns => DimensionMismatchError
  | ReadError | EmptyLine | FirstLineNotHeader | IncompatibleDataTypes => FormatError
  end.

(** The outcome of a call: a value, a thrown error, or undefined behaviour
    (a vector accessed outside its bounds). *)
Inductive result (A : Type) : Type :=
| Ok (a : A)
| Throw (e : runtime_error)
| Undefined.
Arguments Ok {A} a.
Arguments Throw {A} e.
Arguments Undefined {A}.

(** ** Element types *)

(** What the classes need of [T]: the value [0], [operator>>] and
    [operator<<].  [read_value] is the conversion [operator>>] runs once
    the leading white space is skipped, on the characters left: the value
    (or [None] when the conversion fails), the characters it leaves, and
    whether it reached the end of the stream.  [write_value p x] is what
    [stream << x] emits under [std::fixed] and [std::setprecision(p)],
    before padding. *)
Class Element (T : Type) : Type := {
  zero : T;
  read_value : list ascii -> option T * list ascii * bool;
  write_value : nat -> T -> list ascii;
  read_progress : forall b v r e,
    read_value b = (Some v, r, e) -> length r < length b
}.

Fixpoint skipws (s : list ascii) : list ascii :=
  match s with
  | c :: r => if isspace c then skipws r else s
  | [] => []
  end.

(** [stream >> x]: the new stream state and the value stored, if any. *)
Definition extract {T} `{Element T} (s : istream) : istream * option T :=
  if good s then
    match skipws (buf s) with
    | [] => (mk_istream [] true true, None)
    | b =>
        let '(v, r, e) := read_value b in
        (mk_istream r e (match v with Some _ => false | None => true end), v)
    end
  else (setstate_fail s, None).

(** [while(buffer_ss >> buffer_T) { buffer_vec.push_back(buffer_T) ; }]:
    the values pushed and the final stream state.  Every successful
    extraction consumes a character, so [fuel] above the length of the
    buffer is never used up. *)
Fixpoint extract_loop {T} `{Element T} (fuel : nat) (s : istream) (acc : list T)
  : istream * list T :=
  match fuel with
  | O => (s, acc)
  | S fuel' =>
      match extract s with
      | (s', Some v) => extract_loop fuel' s' (acc ++ [v])
      | (s', None) => (s', acc)
      end
  end.

Definition extract_all {T} `{Element T} (line : list ascii) : istream * list T :=
  extract_loop (S (length line)) (open_stream line) [].

(** ** The element type [int] *)

Module IntElement.

Definition INT_MIN : Z := - 2 ^ 31.
Definition INT_MAX : Z := 2 ^ 31 - 1.

Definition in_range (z : Z) : bool := (INT_MIN <=? z)%Z && (z <=? INT_MAX)%Z.

(** The longest prefix of digits, and the rest. *)
Fixpoint span_digits (s : list ascii) : list ascii * list ascii :=
  match s with
  | c :: r =>
      if isdigit c then let '(ds, rest) := span_digits r in (c :: ds, rest)
      else ([], s)
  | [] => ([], [])
  end.

(** [std::num_get] for [int] in base 10: an optional sign, then digits up
    to the first character that is not one.  No digit, or a value outside
    the range of [int], fails the conversion. *)
Definition read_int (b : list ascii) : option Z * list ascii * bool :=
  let '(neg, b1) :=
    match b with
    | c :: r =>
        if Ascii.eqb c "-" then (true, r)
        else if Ascii.eqb c "+" then (false, r)
        else (false, b)
    | [] => (false, [])
    end in
  let '(ds, rest) := span_digits b1 in
  let eof := match rest with [] => true | _ => false end in
  match ds with
  | [] => (None, rest, eof)
  | _ :: _ =>
      match DecimalString.NilEmpty.uint_of_string (string_of_list_ascii ds) with
      | Some u =>
          let v := Z.of_int (if neg then Decimal.Neg u else Decimal.Pos u) in
          if in_range v then (Some v, rest, eof) else (None, rest, eof)
      | None => (None, rest, eof)
      end
  end.

(** [stream << x] for an [int]: decimal digits, with a leading [-] below
    zero; the precision is not used. *)
Definition write_int (precision : nat) (z : Z) : list ascii :=
  list_ascii_of_string (DecimalString.NilZero.string_of_int (Z.to_int z)).

Lemma span_digits_length s ds rest :
  span_digits s = (ds, rest) -> length s = length ds + length rest.
Proof.
  revert ds rest; induction s as [|c r IH]; simpl; intros ds rest E.
  - inversion E; reflexivity.
  - destruct (isdigit c).
    + destruct (span_digits r) as [ds' rest'] eqn:Er.
      inversion E; subst; simpl. f_equal. now apply IH.
    + inversion E; subst; reflexivity.
Qed.

Lemma read_int_progress b v r e :
  read_int b = (Some v, r, e) -> length r < length b.
Proof.
  unfold read_int; intros E.
  destruct b as [|c b'].
  - simpl in E. discriminate.
  - destruct (Ascii.eqb c "-"); [|destruct (Ascii.eqb c "+")].
    all: match type of E with
         | context [span_digits ?x] =>
             destruct (span_digits x) as [ds rest] eqn:Es;
             apply span_digits_length in Es
         end.
    all: destruct ds as [|d ds]; [discriminate|].
    all: destruct (DecimalString.NilEmpty.uint_of_string _); [|discriminate].
    all: match type of E with
         | context [in_range ?x] => destruct (in_range x)
         end; inversion E; subst; simpl in *; lia.
Qed.

#[global] Instance int_Element : Element Z := {|
  zero := 0%Z;
  read_value := read_int;
  write_value := write_int;
  read_progress := read_int_progress
|}.

End IntElement.

(** ** An element type with decimals

    Numbers with six decimals, held as a count of millionths.  The type
    stands for the element types whose [operator<<] obeys [std::fixed] and
    [std::setprecision], as the floating-point types do: the text written
    holds [precision] decimals of the value and no more. *)

Module DecimalElement.


Definition unit : Z := 10 ^ 6.








End DecimalElement.

Example extract_all_example :
  extract_all (T := Z) (str "1 2  -3 ") = (mk_istream [] true true, [1; 2; -3]%Z).
Proof. vm_compute. reflexivity. Qed.

Example extract_all_bad_token :
  extract_all (T := Z) (str "1 x 3")
  = (mk_istream (str "x 3") false true, [1]%Z).
Proof. vm_compute. reflexivity. Qed.

(** ** Vectors *)

(** [v[i]] read with a default, for the vectors whose size the code fixes
    ([dim], [_dim], [_dim_prod]). *)
Definition vget (v : list nat) (i : nat) : nat := nth i v 0.

(** [v[i] = x] inside the bounds of [v]. *)
Fixpoint vset {A : Type} (v : list A) (i : nat) (x : A) : list A :=
  match v, i with
  | [], _ => []
  | _ :: r, O => x :: r
  | a :: r, S i' => a :: vset r i' x
  end.

(** [v[i] = x] checked: [None] outside the bounds. *)
Definition vset_checked {A : Type} (v : list A) (i : nat) (x : A) : option (list A) :=
  if i <? length v then Some (vset v i x) else None.

(** What a loop body does next. *)
Inductive flow (A : Type) : Type :=
| Next (a : A)                 (* falls through, or [continue] *)
| Break (a : A)
| Raise (e : runtime_error).
Arguments Next {A} a.
Arguments Break {A} a.
Arguments Raise {A} e.

(** [while(getline(file, buffer_str)) { body }].  The body sees the stream
    as [getline] left it, the line read and the variables it updates.  An
    iteration whose [getline] succeeds extracts at least one character, so
    [fuel] above the number of characters left is never used up
    ([while_getline_fuel]). *)
Fixpoint while_getline {St : Type} (fuel : nat)
  (body : istream -> list ascii -> St -> flow St)
  (file : istream) (buffer_str : list ascii) (st : St)
  : result (istream * list ascii * St) :=
  match fuel with
  | O => Undefined
  | S fuel' =>
      let '(file', line) := getline file buffer_str in
      if failbit file' then Ok (file', line, st)      (* the condition is false *)
      else
        match body file' line st with
        | Next st' => while_getline fuel' body file' line st'
        | Break st' => Ok (file', line, st')
        | Raise e => Throw e
        end
  end.

(** ** Matrix4D: the grammar of the text format *)

(** [Matrix4D<T>::is_header_3d].  The conjunction of the source reads
    [str[1]] only after [str[0]] was a comma, so it never reads past
    [str.size()]. *)
Definition is_header_3d (s : list ascii) : bool :=
  Ascii.eqb (char_at s 0) comma &&
  Ascii.eqb (char_at s 1) comma &&
  find_is_npos comma 2 s.

(** [Matrix4D<T>::is_header_4d]. *)
Definition is_header_4d (s : list ascii) : bool :=
  Ascii.eqb (char_at s 0) comma &&
  Ascii.eqb (char_at s 1) comma &&
  Ascii.eqb (char_at s 2) comma &&
  find_is_npos comma 3 s.

(** ** Matrix4D: reading one 3D slice *)

Section Slice.
Context {T : Type} `{Element T}.

(** The local variables of [get_3d_slice], with its two output arguments
    [data] and [dim]. *)
Record slice_locals : Type := mk_slice {
  found_4d_header : bool;
  dim : list nat;
  data : list T;
  n_line : nat;
  n_line_data : nat;
  row_len : nat;
  col_len : nat;
  row_len_cur : nat;
  col_len_cur : nat
}.

(** The body of the [while(getline(file, buffer_str))] loop, from the
    empty-line check on. *)
Definition slice_line (buffer_str : list ascii) (l : slice_locals) : flow slice_locals :=
  if length buffer_str =? 0 then Raise EmptyLine
  else if is_header_4d buffer_str then
    Break (mk_slice true (dim l) (data l) (n_line l) (n_line_data l)
             (row_len l) (col_len l) (row_len_cur l) (col_len_cur l))
  else if is_header_3d buffer_str then
    if vget (dim l) 2 =? 1 then
      Next (mk_slice (found_4d_header l) (vset (dim l) 2 (S (vget (dim l) 2))) (data l)
              (S (n_line l)) (n_line_data l)
              (row_len l) (col_len_cur l) (row_len_cur l) 0)
    else if negb (col_len_cur l =? col_len l) then Raise VariableDimensions
    else
      Next (mk_slice (found_4d_header l) (vset (dim l) 2 (S (vget (dim l) 2))) (data l)
              (S (n_line l)) (n_line_data l)
              (row_len l) (col_len l) (row_len_cur l) 0)
  else if n_line l =? 0 then Raise FirstLineNotHeader
  else
    let '(buffer_ss, buffer_vec) := extract_all buffer_str in
    (* one [row_len_cur++] for each value pushed *)
    let row_len_cur' := length buffer_vec in
    if failbit buffer_ss && negb (eofbit buffer_ss) then Raise IncompatibleDataTypes
    else
      let update row_len' :=
        Next (mk_slice (found_4d_header l)
                (vset (vset (dim l) 0 row_len_cur') 1 (S (col_len_cur l)))
                (data l ++ buffer_vec)
                (S (n_line l)) (S (n_line_data l))
                row_len' (col_len l) row_len_cur' (S (col_len_cur l))) in
      (* check that number of column is constant *)
      if n_line_data l =? 0 then update row_len_cur'
      else if negb (row_len_cur' =? row_len l) then Raise VariableDimensions
      else update (row_len l).

(** The whole body of the loop: the stream check comes first. *)
Definition slice_body (file : istream) (buffer_str : list ascii) (l : slice_locals)
  : flow slice_locals :=
  if failbit file then Raise ReadError else slice_line buffer_str l.

(** [Matrix4D<T>::get_3d_slice(file_name, file, data, dim)]: the stream as
    it is left, the data with the values read pushed back, the dimensions
    read, and the flag returned. *)
Definition get_3d_slice (file : istream) (data0 : list T)
  : result (istream * list T * list nat * bool) :=
  let l0 := mk_slice false [0; 0; 0] data0 0 0 0 0 0 0 in
  match while_getline (S (length (buf file))) slice_body file [] l0 with
  | Ok (file', _, l) =>
      (* check dimensions of last slice *)
      if negb (col_len_cur l =? vget (dim l) 1) then Throw VariableDimensions333
      else Ok (file', data l, dim l, found_4d_header l)
  | Throw e => Throw e
  | Undefined => Undefined
  end.

End Slice.

(** ** The base class [Matrix<T>]

    [Matrix.hpp] is not among the sources.  [Matrix2D] and [Matrix4D] read
    and write its fields [_dim], [_data], [_dim_size], [_data_size] and
    [_dim_prod] directly, and call three of its members whose bodies are
    not at hand; each is taken as a function of the dimensions:
    - [Matrix_dim d]: the field [_dim] the constructor [Matrix<T>(d, value)]
      leaves;
    - [get_dim dim]: what [get_dim()] returns on an object whose [_dim] is
      [dim];
    - [compute_dim_product dim]: the field [_dim_prod] that
      [compute_dim_product()] leaves on an object whose [_dim] is [dim]. *)
Record MatrixBase : Type := mk_base {
  Matrix_dim : list nat -> list nat;
  get_dim : list nat -> list nat;
  compute_dim_product : list nat -> list nat
}.

(** ** Matrix4D *)

Section Matrix4D.
Context {T : Type} `{Element T}.
Variable base : MatrixBase.

(** The fields of a [Matrix4D<T>]: those of [Matrix<T>] and the four
    offset tables. *)
Record Matrix4D : Type := mk_Matrix4D {
  _dim : list nat;
  _data : list T;
  _dim_size : nat;
  _data_size : nat;
  _dim_prod : list nat;
  _dim1_offsets : list nat;
  _dim2_offsets : list nat;
  _dim3_offsets : list nat;
  _dim4_offsets : list nat
}.

(** [for(size_t i=0; i<n; i++) { table[i] = i * stride ; }], from index
    [i] with [n] iterations left; [None] when a write is out of bounds. *)
Fixpoint fill_offsets (n i stride : nat) (table : list nat) : option (list nat) :=
  match n with
  | O => Some table
  | S n' =>
      match vset_checked table i (i * stride) with
      | Some table' => fill_offsets n' (S i) stride table'
      | None => None
      end
  end.

(** [compute_dim1_offsets]: [_dim1_offsets[i] = i * _dim_prod[1]] for
    [i < _dim[1]]. *)
Definition compute_dim1_offsets (m : Matrix4D) : option Matrix4D :=
  match fill_offsets (vget (_dim m) 1) 0 (vget (_dim_prod m) 1) (_dim1_offsets m) with
  | Some t =>
      Some (mk_Matrix4D (_dim m) (_data m) (_dim_size m) (_data_size m) (_dim_prod m)
              t (_dim2_offsets m) (_dim3_offsets m) (_dim4_offsets m))
  | None => None
  end.

(** [compute_dim2_offsets]: [_dim2_offsets[i] = i * _dim_prod[0]] for
    [i < _dim[0]]. *)
Definition compute_dim2_offsets (m : Matrix4D) : option Matrix4D :=
  match fill_offsets (vget (_dim m) 0) 0 (vget (_dim_prod m) 0) (_dim2_offsets m) with
  | Some t =>
      Some (mk_Matrix4D (_dim m) (_data m) (_dim_size m) (_data_size m) (_dim_prod m)
              (_dim1_offsets m) t (_dim3_offsets m) (_dim4_offsets m))
  | None => None
  end.

(** [compute_dim3_offsets]: [_dim3_offsets[i] = i * _dim_prod[2]] for
    [i < _dim[2]]. *)
Definition compute_dim3_offsets (m : Matrix4D) : option Matrix4D :=
  match fill_offsets (vget (_dim m) 2) 0 (vget (_dim_prod m) 2) (_dim3_offsets m) with
  | Some t =>
      Some (mk_Matrix4D (_dim m) (_data m) (_dim_size m) (_data_size m) (_dim_prod m)
              (_dim1_offsets m) (_dim2_offsets m) t (_dim4_offsets m))
  | None => None
  end.

(** [compute_dim4_offsets]: [_dim4_offsets[i] = i * _dim_prod[3]] for
    [i < _dim[3]]. *)
Definition compute_dim4_offsets (m : Matrix4D) : option Matrix4D :=
  match fill_offsets (vget (_dim m) 3) 0 (vget (_dim_prod m) 3) (_dim4_offsets m) with
  | Some t =>
      Some (mk_Matrix4D (_dim m) (_data m) (_dim_size m) (_data_size m) (_dim_prod m)
              (_dim1_offsets m) (_dim2_offsets m) (_dim3_offsets m) t)
  | None => None
  end.

(** The four calls that end every constructor and [load]. *)
Definition compute_offsets (m : Matrix4D) : option Matrix4D :=
  match compute_dim1_offsets m with
  | Some m1 =>
      match compute_dim2_offsets m1 with
      | Some m2 =>
          match compute_dim3_offsets m2 with
          | Some m3 => compute_dim4_offsets m3
          | None => None
          end
      | None => None
      end
  | None => None
  end.

(** [std::vector<size_t>(n)]: [n] zeros. *)
Definition vector_of_size (n : nat) : list nat := repeat 0 n.

(** The assignments [this->_dimK_offsets = std::vector<size_t>(...)] that
    end the file constructor and [load]. *)
Definition allocate_offsets (m : Matrix4D) : Matrix4D :=
  mk_Matrix4D (_dim m) (_data m) (_dim_size m) (_data_size m) (_dim_prod m)
    (vector_of_size (vget (_dim m) 1))
    (vector_of_size (vget (_dim m) 0))
    (vector_of_size (vget (_dim m) 2))
    (vector_of_size (vget (_dim m) 3)).

(** The fields the [do ... while(found_4d_header)] loop of the file
    constructor updates. *)
Record ctor_locals : Type := mk_ctor {
  this_dim : list nat;
  this_data : list T;
  this_data_size : nat
}.

(** The [do ... while(found_4d_header)] loop of the file constructor.  A
    call of [get_3d_slice] that returns [true] has read a line, so [fuel]
    above the number of characters left is never used up. *)
Fixpoint slices_loop (fuel : nat) (file : istream) (buffer_str : list ascii)
  (found : bool) (m : ctor_locals) : result (istream * ctor_locals) :=
  match fuel with
  | O => Undefined
  | S fuel' =>
      if failbit file then Throw ReadError
      else if length buffer_str =? 0 then Throw EmptyLine
      else if found then
        (* buffer_t.clear() ; dim.clear() ; get_3d_slice(...) *)
        match get_3d_slice file [] with
        | Ok (file', buffer_t, dim, found') =>
            let data' := this_data m ++ buffer_t in
            let size' := this_data_size m + length buffer_t in
            let continue dim' :=
              let m' := mk_ctor (vset dim' 3 (S (vget dim' 3))) data' size' in
              if found' then slices_loop fuel' file' buffer_str found' m'
              else Ok (file', m') in
            if vget (this_dim m) 3 =? 0 then
              continue (vset (vset (vset (this_dim m) 0 (vget dim 0)) 1 (vget dim 1))
                          2 (vget dim 2))
            else if negb (vget dim 0 =? vget (this_dim m) 0)
                 || negb (vget dim 1 =? vget (this_dim m) 1)
                 || negb (vget dim 2 =? vget (this_dim m) 2)
            then Throw VariableDimensions
            else continue (this_dim m)
        | Throw e => Throw e
        | Undefined => Undefined
        end
      else if negb found && negb (eofbit file) then Throw ReadError
      else Ok (file, m)
  end.

(** [Matrix4D<T>::Matrix4D(const std::string& file_address)]; the file is
    given by its content, [None] when it cannot be opened. *)
Definition Matrix4D_from_file (content : option (list ascii)) : result Matrix4D :=
  let this := mk_Matrix4D [0; 0; 0; 0] [] 4 0 (repeat 0 4) [] [] [] [] in
  match content with
  | None => Throw CannotOpen
  | Some text =>
      (* read 1st line *)
      let '(file, buffer_str) := getline (open_stream text) [] in
      if length buffer_str =? 0 then
        let '(file1, c) := peek file in
        match c with
        | None => if eofbit file1 then Ok this else Throw EmptyLine
        | Some _ => Throw EmptyLine
        end
      else if failbit file then Throw ReadError
      else
        let found_4d_header := is_header_4d buffer_str in
        match slices_loop (S (length (buf file))) file buffer_str found_4d_header
                (mk_ctor (_dim this) (_data this) (_data_size this)) with
        | Ok (_, l) =>
            let m := mk_Matrix4D (this_dim l) (this_data l) 4 (this_data_size l)
                       (compute_dim_product base (this_dim l)) [] [] [] [] in
            match compute_offsets (allocate_offsets m) with
            | Some m' => Ok m'
            | None => Undefined
            end
        | Throw e => Throw e
        | Undefined => Undefined
        end
  end.

(** *** Element access *)

(** [convert_to_offset(dim1, dim2, dim3, dim4)]: the sum of the four table
    entries; [None] when an index is outside its table. *)
Definition convert_to_offset (m : Matrix4D) (dim1 dim2 dim3 dim4 : nat) : option nat :=
  match nth_error (_dim1_offsets m) dim1, nth_error (_dim2_offsets m) dim2,
        nth_error (_dim3_offsets m) dim3, nth_error (_dim4_offsets m) dim4 with
  | Some o1, Some o2, Some o3, Some o4 => Some (o1 + o2 + o3 + o4)
  | _, _, _, _ => None
  end.

(** [operator()(dim1, dim2, dim3, dim4)], read: the element of [_data] at the
    offset; [None] when the offset is outside the buffer. *)
Definition at_ (m : Matrix4D) (dim1 dim2 dim3 dim4 : nat) : option T :=
  match convert_to_offset m dim1 dim2 dim3 dim4 with
  | Some o => nth_error (_data m) o
  | None => None
  end.

(** An assignment through the reference the non-const
    [operator()(dim1, dim2, dim3, dim4)] returns: the element of [_data] at
    the offset is replaced; [None] outside the tables or the buffer. *)
Definition assign (m : Matrix4D) (dim1 dim2 dim3 dim4 : nat) (value : T)
  : option Matrix4D :=
  match convert_to_offset m dim1 dim2 dim3 dim4 with
  | Some o =>
      match vset_checked (_data m) o value with
      | Some data' =>
          Some (mk_Matrix4D (_dim m) data' (_dim_size m) (_data_size m) (_dim_prod m)
                  (_dim1_offsets m) (_dim2_offsets m)
                  (_dim3_offsets m) (_dim4_offsets m))
      | None => None
      end
  | None => None
  end.

(** *** The other constructors and [load] *)

(** The base constructor [Matrix<T>(dim, value)] as the derived classes
    rely on it: [_dim] and [_dim_prod] are those of [base], and every slot
    of the buffer holds [value]. *)
Definition Matrix_ctor (dim : list nat) (value : T) : Matrix4D :=
  let d := Matrix_dim base dim in
  let n := fold_left Nat.mul d 1 in
  mk_Matrix4D d (repeat value n) (length d) n (compute_dim_product base d) [] [] [] [].

(** [Matrix4D<T>::Matrix4D(dim1, dim2, dim3, dim4, value)]: the tables are
    allocated with [dim1], [dim2], [dim3] and [dim4] entries, then filled. *)
Definition Matrix4D_ctor (dim1 dim2 dim3 dim4 : nat) (value : T) : option Matrix4D :=
  let b := Matrix_ctor [dim1; dim2; dim3; dim4] value in
  compute_offsets
    (mk_Matrix4D (_dim b) (_data b) (_dim_size b) (_data_size b) (_dim_prod b)
       (vector_of_size dim1) (vector_of_size dim2)
       (vector_of_size dim3) (vector_of_size dim4)).

(** [Matrix4D<T>::Matrix4D(dim1, dim2, dim3, dim4)]. *)
Definition Matrix4D_ctor0 (dim1 dim2 dim3 dim4 : nat) : option Matrix4D :=
  Matrix4D_ctor dim1 dim2 dim3 dim4 zero.

(** [Matrix4D<T>::Matrix4D(const Matrix4D& other)]. *)
Definition Matrix4D_copy (other : Matrix4D) : Matrix4D :=
  mk_Matrix4D (_dim other) (_data other) (_dim_size other) (_data_size other)
    (_dim_prod other)
    (_dim1_offsets other) (_dim2_offsets other)
    (_dim3_offsets other) (_dim4_offsets other).

(** [Matrix4D<T>::load(file_address)], on the object as
    [Matrix<T>::load(file_address, 4)] left it. *)
Definition Matrix4D_load (loaded : Matrix4D) : option Matrix4D :=
  compute_offsets (allocate_offsets loaded).

(** *** Writing *)

(** [stream << n] for a [size_t]. *)
Definition write_size_t (n : nat) : list ascii :=
  list_ascii_of_string (DecimalString.NilZero.string_of_uint (Nat.to_uint n)).

(** A field of [std::setw(width)] under [std::ios::left] and the default
    fill character. *)
Definition setw_left (width : nat) (s : list ascii) : list ascii :=
  s ++ repeat space (width - length s).

(** Conversions between [size_t] and [int], and [std::multiplies<int>] on
    two [size_t]: the arguments are converted to [int], multiplied there
    (two's complement wrap-around) and the product converted back. *)
Definition wrap_int (z : Z) : Z := ((z + 2 ^ 31) mod 2 ^ 32 - 2 ^ 31)%Z.

Definition size_t_of_int (z : Z) : nat := Z.to_nat (z mod 2 ^ 64).

Definition multiplies_int (a b : nat) : nat :=
  size_t_of_int (wrap_int (wrap_int (Z.of_nat a) * wrap_int (Z.of_nat b))).

(** [for(size_t i=i0; ...; i++) body], with [n] iterations left. *)
Fixpoint for_loop {St : Type} (n i : nat) (body : nat -> St -> option St) (s : St)
  : option St :=
  match n with
  | O => Some s
  | S n' =>
      match body i s with
      | Some s' => for_loop n' (S i) body s'
      | None => None
      end
  end.

(** The innermost statement of [print]:
    [stream << std::setw(width) << operator()(dim2,dim1,dim3,dim4) << sep],
    and [n++].  The state is the text written so far and [n]. *)
Definition print_value (m : Matrix4D) (precision width : nat) (sep : ascii)
  (dim4 dim3 dim2 dim1 : nat) (s : list ascii * nat) : option (list ascii * nat) :=
  match at_ m dim2 dim1 dim3 dim4 with
  | Some x =>
      Some (fst s ++ setw_left width (write_value precision x) ++ [sep], S (snd s))
  | None => None
  end.

Definition print_row (m : Matrix4D) (precision width : nat) (sep : ascii)
  (dim : list nat) (n_tot : nat) (dim4 dim3 dim2 : nat) (s : list ascii * nat)
  : option (list ascii * nat) :=
  match for_loop (vget dim 1) 0 (print_value m precision width sep dim4 dim3 dim2) s with
  | Some (out, n) =>
      (* avoids terminal eol *)
      if n <? n_tot then Some (out ++ [newline], n) else Some (out, n)
  | None => None
  end.

Definition print_slice_3d (m : Matrix4D) (precision width : nat) (sep : ascii)
  (dim : list nat) (n_tot : nat) (dim4 dim3 : nat) (s : list ascii * nat)
  : option (list ascii * nat) :=
  for_loop (vget dim 0) 0 (print_row m precision width sep dim n_tot dim4 dim3)
    (fst s ++ str ",," ++ write_size_t dim3 ++ [newline], snd s).

Definition print_slice_4d (m : Matrix4D) (precision width : nat) (sep : ascii)
  (dim : list nat) (n_tot : nat) (dim4 : nat) (s : list ascii * nat)
  : option (list ascii * nat) :=
  for_loop (vget dim 2) 0 (print_slice_3d m precision width sep dim n_tot dim4)
    (fst s ++ str ",,," ++ write_size_t dim4 ++ [newline], snd s).

(** [Matrix4D<T>::print(stream, precision, width, sep)]: the characters
    sent to the stream; [None] when an element access is out of bounds. *)
Definition print (m : Matrix4D) (precision width : nat) (sep : ascii)
  : option (list ascii) :=
  if (vget (_dim m) 0 =? 0) || (vget (_dim m) 1 =? 0)
     || (vget (_dim m) 2 =? 0) || (vget (_dim m) 3 =? 0)
  then Some []
  else
    let dim := get_dim base (_dim m) in
    let n_tot := fold_left multiplies_int dim 1 in
    match for_loop (vget dim 3) 0 (print_slice_4d m precision width sep dim n_tot)
            ([], 0) with
    | Some (out, _) => Some out
    | None => None
    end.

(** [print(stream)] with the default arguments, as [operator<<] calls it. *)
Definition print_default (m : Matrix4D) : option (list ascii) := print m 4 8 space.

End Matrix4D.

(** ** Matrix2D *)

Module M2D.
Section Matrix2D.
Context {T : Type} `{Element T}.
Variable base : MatrixBase.

(** The fields of a [Matrix2D<T>], all inherited from [Matrix<T>]. *)
Record Matrix2D : Type := mk_Matrix2D {
  _dim : list nat;
  _data : list T;
  _dim_size : nat;
  _data_size : nat;
  _dim_prod : list nat
}.

(** The checked access [Matrix<T>::get(const std::vector<size_t>& coord)
    const] of the base class: the element, or [None] when it throws
    [std::out_of_range]. *)
Variable Matrix_get : Matrix2D -> list nat -> option T.

(** How a call that may throw [std::out_of_range] ends. *)
Inductive outcome (A : Type) : Type :=
| Returns (a : A)
| ThrowsOutOfRange.
Arguments Returns {A} a.
Arguments ThrowsOutOfRange {A}.

(** [Matrix2D<T>::get(row, col)]. *)
Definition get (m : Matrix2D) (row col : nat) : outcome T :=
  match Matrix_get m [row; col] with
  | Some x => Returns x
  | None => ThrowsOutOfRange
  end.

(** [Matrix2D<T>::set(row, col, value)]: the object after the call, and how
    the call ends.  The body is [try { this->get({row, col}) ; }] with the
    exception thrown again. *)
Definition set (m : Matrix2D) (row col : nat) (value : T) : Matrix2D * outcome unit :=
  match Matrix_get m [row; col] with
  | Some _ => (m, Returns tt)
  | None => (m, ThrowsOutOfRange)
  end.

(** The variables the reading loop of the file constructor updates. *)
Record ctor_locals : Type := mk_ctor {
  i : nat;
  row_len : nat;
  this_dim : list nat;
  this_data : list T;
  this_data_size : nat
}.

(** The body of [while(getline(file, buffer_str))] in the file
    constructor. *)
Definition read_body (file : istream) (buffer_str : list ascii) (l : ctor_locals)
  : flow ctor_locals :=
  (* check stream status and read content *)
  if eofbit file then Break l
  else if length buffer_str =? 0 then Raise EmptyLine
  else if failbit file then Raise ReadError
  else if length buffer_str =? 0 then Next l          (* continue *)
  else
    (* parse line *)
    let '(_, buffer_vec) := extract_all buffer_str in
    let update row_len' :=
      Next (mk_ctor (S (i l)) row_len'
              (vset (this_dim l) 1 (S (vget (this_dim l) 1)))
              (this_data l ++ buffer_vec)
              (this_data_size l + length buffer_vec)) in
    (* check that number of column is constant *)
    if i l =? 0 then update (length buffer_vec)
    else if negb (length buffer_vec =? row_len l) then Raise VariableColumns
    else update (row_len l).

(** [Matrix2D<T>::Matrix2D(const std::string& file_address)]; the file is
    given by its content, [None] when it cannot be opened. *)
Definition Matrix2D_from_file (content : option (list ascii)) : result Matrix2D :=
  match content with
  | None => Throw CannotOpen
  | Some text =>
      let l0 := mk_ctor 0 0 [0; 0] [] 0 in
      match while_getline (S (length text)) read_body (open_stream text) [] l0 with
      | Ok (_, _, l) =>
          let dim := vset (this_dim l) 0 (row_len l) in
          Ok (mk_Matrix2D dim (this_data l) 2 (this_data_size l)
                (compute_dim_product base dim))
      | Throw e => Throw e
      | Undefined => Undefined
      end
  end.

(** *** Writing *)

(** What [operator<<] calls of the base class: [get_data_size()] and the
    checked access by offset [get(size_t)] ([None] when it throws
    [std::out_of_range]). *)
Variable Matrix_get_data_size : Matrix2D -> nat.
Variable Matrix_get_at : Matrix2D -> nat -> option T.

(** One iteration of the loop of [operator<<]:
    [stream << m.get(i) << ' '], then [std::endl] when [i != 0] and
    [(i+1) % dim[1] == 0].  The remainder is computed only when [i != 0];
    a remainder by zero is undefined ([None]). *)
Definition write_element (m : Matrix2D) (precision : nat) (dim : list nat) (i : nat)
  (out : list ascii) : option (outcome (list ascii)) :=
  match Matrix_get_at m i with
  | Some x =>
      let out' := out ++ write_value precision x ++ [space] in
      if negb (i =? 0) then
        if vget dim 1 =? 0 then None
        else if (i + 1) mod vget dim 1 =? 0 then Some (Returns (out' ++ [newline]))
        else Some (Returns out')
      else Some (Returns out')
  | None => Some ThrowsOutOfRange
  end.

(** [for(size_t i=i0; i<n_data; i++)], with [n] iterations left. *)
Fixpoint write_loop (m : Matrix2D) (precision : nat) (dim : list nat) (n i : nat)
  (out : list ascii) : option (outcome (list ascii)) :=
  match n with
  | O => Some (Returns out)
  | S n' =>
      match write_element m precision dim i out with
      | Some (Returns out') => write_loop m precision dim n' (S i) out'
      | r => r
      end
  end.

(** [operator << (std::ostream& stream, const Matrix2D<T>& m)] on a stream
    in [std::fixed] format with the given precision (the operator sets no
    format; for [int] elements the format does not matter): the characters
    sent to the stream. *)
Definition operator_lshift (m : Matrix2D) (precision : nat)
  : option (outcome (list ascii)) :=
  let n_data := Matrix_get_data_size m in
  let dim := get_dim base (_dim m) in
  write_loop m precision dim n_data 0 [].

(** *** Unchecked access and [transpose] *)

(** [Matrix<T>::convert_to_offset(coord)] of the base class. *)
Variable Matrix_convert_to_offset : Matrix2D -> list nat -> nat.

(** [operator()(row, col)], read: the coordinates are passed as
    [{col, row}]; [None] when the offset is outside the buffer. *)
Definition at_ (m : Matrix2D) (row col : nat) : option T :=
  nth_error (_data m) (Matrix_convert_to_offset m [col; row]).

(** An assignment through the reference [operator()(row, col)] returns. *)
Definition assign (m : Matrix2D) (row col : nat) (value : T) : option Matrix2D :=
  match vset_checked (_data m) (Matrix_convert_to_offset m [col; row]) value with
  | Some data' =>
      Some (mk_Matrix2D (_dim m) data' (_dim_size m) (_data_size m) (_dim_prod m))
  | None => None
  end.

(** [Matrix2D<T>::Matrix2D(nrow, ncol, value)]: the base constructor
    [Matrix<T>({nrow, ncol}, value)], every slot holding [value]. *)
Definition Matrix2D_ctor (nrow ncol : nat) (value : T) : Matrix2D :=
  let d := Matrix_dim base [nrow; ncol] in
  let n := fold_left Nat.mul d 1 in
  mk_Matrix2D d (repeat value n) (length d) n (compute_dim_product base d).

(** The inner loop of [transpose]:
    [for(size_t j=j0; j<nrow; j++) { m2(i,j) = m(j,i) ; }], with [n]
    iterations left. *)
Fixpoint transpose_row (m : Matrix2D) (i : nat) (n j : nat) (m2 : Matrix2D)
  : option Matrix2D :=
  match n with
  | O => Some m2
  | S n' =>
      match at_ m j i with
      | Some x =>
          match assign m2 i j x with
          | Some m2' => transpose_row m i n' (S j) m2'
          | None => None
          end
      | None => None
      end
  end.

(** The outer loop, [for(size_t i=i0; i<ncol; i++)]. *)
Fixpoint transpose_rows (m : Matrix2D) (nrow : nat) (n i : nat) (m2 : Matrix2D)
  : option Matrix2D :=
  match n with
  | O => Some m2
  | S n' =>
      match transpose_row m i nrow 0 m2 with
      | Some m2' => transpose_rows m nrow n' (S i) m2'
      | None => None
      end
  end.

(** [transpose(m)]; [None] when an access leaves the buffer. *)
Definition transpose (m : Matrix2D) : option Matrix2D :=
  let dim := get_dim base (_dim m) in
  let nrow := vget dim 0 in
  let ncol := vget dim 1 in
  transpose_rows m nrow ncol 0 (Matrix2D_ctor ncol nrow zero).

End Matrix2D.
Arguments Returns {A} a.
Arguments ThrowsOutOfRange {A}.
End M2D.

(** ** A base class the two classes fit

    [Matrix2D] and [Matrix4D] keep the size the caller names first (the
    rows) in [_dim[1]] and the one named second (the columns) in [_dim[0]]:
    the file readers count the values of a line in [_dim[0]] and the lines
    in [_dim[1]], [Matrix2D::operator()(row, col)] builds the coordinates
    [{col, row}], and [Matrix4D::print] bounds the first argument of
    [operator()] by [get_dim()[0]] while that argument indexes a table of
    [_dim[1]] entries.  The values a line holds are contiguous in [_data],
    so [_dim[0]] is the fastest axis.  [exchanging_base] is a base class
    that does this. *)

Definition swap_coord (d : list nat) : list nat :=
  match d with
  | a :: b :: r => b :: a :: r
  | _ => d
  end.

(** [acc; acc * d0; acc * d0 * d1; ...]. *)
Fixpoint cumulative_products (acc : nat) (d : list nat) : list nat :=
  match d with
  | [] => []
  | x :: r => acc :: cumulative_products (acc * x) r
  end.

Definition exchanging_base : MatrixBase :=
  mk_base swap_coord swap_coord (cumulative_products 1).

(** The three facts about the base class that results on the axis layout
    assume. *)
Definition ctor_exchanges (base : MatrixBase) : Prop :=
  forall d1 d2 d3 d4, Matrix_dim base [d1; d2; d3; d4] = [d2; d1; d3; d4].


Definition strides_from_first_axis (base : MatrixBase) : Prop :=
  forall d0 d1 d2 d3,
    compute_dim_product base [d0; d1; d2; d3] = [1; d0; d0 * d1; d0 * d1 * d2].

(** * Properties *)

(** ** Streams and lines *)

Lemma newline_eqb_false c : c <> newline -> Ascii.eqb c newline = false.
Proof. intros Hc. now apply Ascii.eqb_neq. Qed.

Lemma split_line_no_newline l : ~ In newline l -> split_line l = (l, None).
Proof.
  induction l as [|c r IH]; simpl; intros Hn; [reflexivity|].
  rewrite newline_eqb_false by (intros ->; apply Hn; now left).
  rewrite IH by (intros Hr; apply Hn; now right). reflexivity.
Qed.

Lemma split_line_app l rest :
  ~ In newline l -> split_line (l ++ newline :: rest) = (l, Some rest).
Proof.
  induction l as [|c r IH]; simpl; intros Hn.
  - reflexivity.
  - rewrite newline_eqb_false by (intros ->; apply Hn; now left).
    rewrite IH by (intros Hr; apply Hn; now right). reflexivity.
Qed.

Lemma split_line_length s l o :
  split_line s = (l, o) ->
  match o with
  | Some r => length s = S (length l + length r)
  | None => s = l
  end.
Proof.
  revert l o; induction s as [|c r IH]; simpl; intros l o E.
  - inversion E; reflexivity.
  - destruct (Ascii.eqb c newline).
    + inversion E; reflexivity.
    + destruct (split_line r) as [l' o'] eqn:Er. inversion E; subst.
      specialize (IH _ _ eq_refl). destruct o; simpl; [lia | now f_equal].
Qed.

Lemma getline_line l rest old :
  ~ In newline l ->
  getline (open_stream (l ++ newline :: rest)) old = (open_stream rest, l).
Proof.
  intros Hn. unfold getline, open_stream; simpl.
  rewrite split_line_app by assumption. reflexivity.
Qed.

Lemma getline_last l old :
  ~ In newline l -> l <> [] ->
  getline (open_stream l) old = (mk_istream [] true false, l).
Proof.
  intros Hn Hl. unfold getline, open_stream; simpl.
  rewrite split_line_no_newline by assumption.
  destruct l; [contradiction | reflexivity].
Qed.

Lemma getline_at_end f old :
  eofbit f = true -> getline f old = (setstate_fail f, old).
Proof. intros He. unfold getline, good. rewrite He. reflexivity. Qed.

(** A [getline] that succeeds extracts at least one character. *)
Lemma getline_shrinks f old f' l :
  getline f old = (f', l) -> failbit f' = false ->
  length (buf f') < length (buf f).
Proof.
  unfold getline. destruct (good f).
  - destruct (split_line (buf f)) as [l' o] eqn:Es.
    apply split_line_length in Es. destruct o as [r|].
    + intros E _. inversion E; subst; simpl. lia.
    + intros E Hf. rewrite Es. injection E as E1 E2. rewrite <- E1 in *. simpl in *.
      destruct l' as [|c l0]; [discriminate | simpl; lia].
  - intros E Hf. inversion E; subst. discriminate.
Qed.

(** The fuel of the line loop does not matter once it exceeds the number of
    characters left: the loop is the one of the source, which ends. *)
Lemma while_getline_fuel (St : Type) (body : istream -> list ascii -> St -> flow St) :
  forall n m f s st,
    length (buf f) < n -> length (buf f) < m ->
    while_getline n body f s st = while_getline m body f s st.
Proof.
  induction n as [|n IH]; intros m f s st Hn Hm; [lia|].
  destruct m as [|m]; [lia|]. simpl.
  destruct (getline f s) as [f' line] eqn:Eg.
  destruct (failbit f') eqn:Ef; [reflexivity|].
  pose proof (getline_shrinks _ _ Eg Ef) as Hs.
  destruct (body f' line st); try reflexivity.
  apply IH; lia.
Qed.

Lemma while_getline_S (St : Type) (body : istream -> list ascii -> St -> flow St)
  n f s st :
  while_getline (S n) body f s st =
  let '(f', line) := getline f s in
  if failbit f' then Ok (f', line, st)
  else
    match body f' line st with
    | Next st' => while_getline n body f' line st'
    | Break st' => Ok (f', line, st')
    | Raise e => Throw e
    end.
Proof. reflexivity. Qed.

(** The loop unfolded once. *)
Lemma while_getline_step (St : Type) (body : istream -> list ascii -> St -> flow St)
  f s st :
  while_getline (S (length (buf f))) body f s st =
  let '(f', line) := getline f s in
  if failbit f' then Ok (f', line, st)
  else
    match body f' line st with
    | Next st' => while_getline (S (length (buf f'))) body f' line st'
    | Break st' => Ok (f', line, st')
    | Raise e => Throw e
    end.
Proof.
  rewrite while_getline_S.
  destruct (getline f s) as [f' line] eqn:Eg.
  destruct (failbit f') eqn:Ef; [reflexivity|].
  pose proof (getline_shrinks _ _ Eg Ef) as Hs.
  destruct (body f' line st); try reflexivity.
  apply while_getline_fuel; lia.
Qed.

(** The line loop never runs out of fuel. *)
Lemma while_getline_defined (St : Type) (body : istream -> list ascii -> St -> flow St) :
  forall n f s st, length (buf f) < n -> while_getline n body f s st <> Undefined.
Proof.
  induction n as [|n IH]; intros f s st Hn; [lia|]. simpl.
  destruct (getline f s) as [f' line] eqn:Eg.
  destruct (failbit f') eqn:Ef; [discriminate|].
  pose proof (getline_shrinks _ _ Eg Ef) as Hs.
  destruct (body f' line st); try discriminate.
  apply IH; lia.
Qed.

(** ** The header recognizers (claim C8) *)

(** The header classes as the specification words them: [n] leading
    commas followed by an integer token, with no comma after. *)
Definition is_integer_token (t : list ascii) : bool :=
  match t with
  | [] => false
  | _ :: _ => forallb isdigit t
  end.

Definition spec_header (n : nat) (s : list ascii) : Prop :=
  exists t, s = repeat comma n ++ t /\ is_integer_token t = true.

Lemma find_is_npos_true c pos s :
  find_is_npos c pos s = true <-> ~ In c (skipn pos s).
Proof.
  unfold find_is_npos. rewrite negb_true_iff. split.
  - intros E Hin. apply not_true_iff_false in E. apply E.
    apply existsb_exists. exists c. split; [assumption | apply Ascii.eqb_refl].
  - intros Hn. apply not_true_iff_false. intros E.
    apply existsb_exists in E. destruct E as [x [Hx Ex]].
    apply Ascii.eqb_eq in Ex. subst x. contradiction.
Qed.

Lemma is_header_3d_iff s :
  is_header_3d s = true <-> exists rest, s = comma :: comma :: rest /\ ~ In comma rest.
Proof.
  unfold is_header_3d, char_at. rewrite !andb_true_iff, find_is_npos_true, !Ascii.eqb_eq.
  split.
  - intros [[H0 H1] Hn]. destruct s as [|a [|b rest]]; simpl in *; try discriminate.
    subst a b. exists rest. split; [reflexivity | assumption].
  - intros [rest [-> Hn]]. simpl. repeat split; assumption.
Qed.

Lemma is_header_4d_iff s :
  is_header_4d s = true <->
  exists rest, s = comma :: comma :: comma :: rest /\ ~ In comma rest.
Proof.
  unfold is_header_4d, char_at. rewrite !andb_true_iff, find_is_npos_true, !Ascii.eqb_eq.
  split.
  - intros [[[H0 H1] H2] Hn].
    destruct s as [|a [|b [|c rest]]]; simpl in *; try discriminate.
    subst a b c. exists rest. split; [reflexivity | assumption].
  - intros [rest [-> Hn]]. simpl. repeat split; assumption.
Qed.

Lemma digits_have_no_comma t : forallb isdigit t = true -> ~ In comma t.
Proof.
  intros Hd Hin. rewrite forallb_forall in Hd. apply Hd in Hin. discriminate.
Qed.

(** C8, as the code has it: [is_header_3d] holds exactly of the lines whose
    first two characters are commas and that hold no comma from index 2 on,
    [is_header_4d] exactly of those whose first three characters are commas
    and that hold no comma from index 3 on.  What follows the commas is not
    examined: a line of the form the specification describes is recognized,
    and so is one with nothing, or with something else than an integer,
    after the commas. *)
Theorem header_recognizers_check_commas_only :
  forall s,
    (is_header_3d s = true <->
     exists rest, s = comma :: comma :: rest /\ ~ In comma rest) /\
    (is_header_4d s = true <->
     exists rest, s = comma :: comma :: comma :: rest /\ ~ In comma rest) /\
    (spec_header 2 s -> is_header_3d s = true) /\
    (spec_header 3 s -> is_header_4d s = true).
Proof.
  intros s. split; [apply is_header_3d_iff|]. split; [apply is_header_4d_iff|].
  split; intros [t [-> Ht]].
  - apply is_header_3d_iff. exists t. split; [reflexivity|].
    destruct t; [discriminate | now apply digits_have_no_comma].
  - apply is_header_4d_iff. exists t. split; [reflexivity|].
    destruct t; [discriminate | now apply digits_have_no_comma].
Qed.

(** C8 as stated fails: the lines [,,] and [,,abc] hold no integer token
    after the commas, and [is_header_3d] classifies both as headers; so
    does [is_header_4d] for [,,,]. *)
Lemma header_without_integer_is_recognized :
  (is_header_3d (str ",,") = true /\ ~ spec_header 2 (str ",,")) /\
  (is_header_3d (str ",,abc") = true /\ ~ spec_header 2 (str ",,abc")) /\
  (is_header_4d (str ",,,") = true /\ ~ spec_header 3 (str ",,,")).
Proof.
  repeat split; try reflexivity.
  all: intros [t [E Ht]]; simpl in E; inversion E; subst t; discriminate.
Qed.

(** ** The offset tables *)

(** The table [compute_dimK_offsets] leaves: entry [k] is [k * stride]. *)
Definition offsets_table (n stride : nat) : list nat :=
  map (fun k => k * stride) (seq 0 n).

Lemma vset_length (A : Type) (v : list A) i x : length (vset v i x) = length v.
Proof.
  revert i; induction v as [|a r IH]; intros [|i]; simpl; auto.
Qed.

Lemma vset_app (A : Type) (pre suf : list A) a x :
  vset (pre ++ a :: suf) (length pre) x = pre ++ x :: suf.
Proof. induction pre as [|b pre IH]; simpl; [reflexivity | now rewrite IH]. Qed.

Lemma fill_offsets_app stride :
  forall n i pre suf,
    length pre = i -> length suf = n ->
    fill_offsets n i stride (pre ++ suf)
    = Some (pre ++ map (fun k => k * stride) (seq i n)).
Proof.
  induction n as [|n IH]; intros i pre suf Hp Hs.
  - destruct suf; [|discriminate]. reflexivity.
  - destruct suf as [|a suf]; [discriminate|]. simpl in Hs. simpl.
    unfold vset_checked.
    assert (Hlt : (i <? length (pre ++ a :: suf)) = true).
    { apply Nat.ltb_lt. rewrite length_app. simpl. lia. }
    rewrite Hlt. subst i. rewrite vset_app.
    change (pre ++ length pre * stride :: suf)
      with (pre ++ [length pre * stride] ++ suf).
    rewrite app_assoc. rewrite IH.
    + rewrite <- app_assoc. reflexivity.
    + rewrite length_app. simpl. lia.
    + lia.
Qed.

Lemma fill_offsets_fresh n stride :
  fill_offsets n 0 stride (vector_of_size n) = Some (offsets_table n stride).
Proof.
  apply fill_offsets_app with (pre := []) (suf := vector_of_size n).
  - reflexivity.
  - apply repeat_length.
Qed.

(** A write past the end of the table: the loop runs into undefined
    behaviour. *)
Lemma fill_offsets_overrun stride :
  forall n i table,
    length table < i + n -> i <= length table ->
    fill_offsets n i stride table = None.
Proof.
  induction n as [|n IH]; intros i table Hlt Hle; [lia|]. simpl.
  unfold vset_checked. destruct (i <? length table) eqn:E.
  - apply Nat.ltb_lt in E. apply IH; rewrite vset_length; lia.
  - reflexivity.
Qed.

Lemma fill_offsets_within stride :
  forall n i table,
    i + n <= length table ->
    exists t, fill_offsets n i stride table = Some t /\ length t = length table.
Proof.
  induction n as [|n IH]; intros i table Hle; simpl.
  - exists table. split; reflexivity.
  - unfold vset_checked.
    assert (E : (i <? length table) = true) by (apply Nat.ltb_lt; lia).
    rewrite E.
    destruct (IH (S i) (vset table i (i * stride))) as [t [Ht Hl]].
    + rewrite vset_length. lia.
    + exists t. split; [exact Ht|]. rewrite Hl. apply vset_length.
Qed.

Lemma offsets_table_length n stride : length (offsets_table n stride) = n.
Proof. unfold offsets_table. now rewrite length_map, length_seq. Qed.

Lemma offsets_table_nth n stride k :
  k < n -> nth_error (offsets_table n stride) k = Some (k * stride).
Proof.
  intros Hk. unfold offsets_table.
  rewrite nth_error_map, nth_error_nth' with (d := 0) by (rewrite length_seq; lia).
  rewrite seq_nth by lia. reflexivity.
Qed.

Section OffsetTables.
Context {T : Type}.

(** Allocating the four tables from [_dim] and filling them never leaves
    their bounds, and gives the tables of the strides in [_dim_prod]. *)
Lemma compute_offsets_allocated (m : Matrix4D (T := T)) :
  compute_offsets (allocate_offsets m)
  = Some (mk_Matrix4D (_dim m) (_data m) (_dim_size m) (_data_size m) (_dim_prod m)
            (offsets_table (vget (_dim m) 1) (vget (_dim_prod m) 1))
            (offsets_table (vget (_dim m) 0) (vget (_dim_prod m) 0))
            (offsets_table (vget (_dim m) 2) (vget (_dim_prod m) 2))
            (offsets_table (vget (_dim m) 3) (vget (_dim_prod m) 3))).
Proof.
  unfold compute_offsets, allocate_offsets.
  unfold compute_dim1_offsets; simpl. rewrite fill_offsets_fresh.
  unfold compute_dim2_offsets; simpl. rewrite fill_offsets_fresh.
  unfold compute_dim3_offsets; simpl. rewrite fill_offsets_fresh.
  unfold compute_dim4_offsets; simpl. rewrite fill_offsets_fresh.
  reflexivity.
Qed.

End OffsetTables.

(** ** Empty files and null matrices (claim C7) *)

Section NullMatrix.
Context {T : Type} `{Element T}.
Variable base : MatrixBase.

(** The object the file constructor returns before it reads any slice. *)
Definition null_matrix : Matrix4D (T := T) :=
  mk_Matrix4D [0; 0; 0; 0] [] 4 0 [0; 0; 0; 0] [] [] [] [].

Definition has_zero_axis (m : Matrix4D (T := T)) : Prop :=
  vget (_dim m) 0 = 0 \/ vget (_dim m) 1 = 0 \/ vget (_dim m) 2 = 0 \/ vget (_dim m) 3 = 0.

Lemma from_empty_file : Matrix4D_from_file base (Some []) = Ok null_matrix.
Proof. reflexivity. Qed.

Lemma from_single_terminator : Matrix4D_from_file base (Some [newline]) = Ok null_matrix.
Proof. reflexivity. Qed.

Lemma print_zero_axis m precision width sep :
  has_zero_axis m -> print base m precision width sep = Some [].
Proof.
  intros Hz. unfold print.
  assert (E : (vget (_dim m) 0 =? 0) || (vget (_dim m) 1 =? 0)
              || (vget (_dim m) 2 =? 0) || (vget (_dim m) 3 =? 0) = true).
  { rewrite !orb_true_iff, !Nat.eqb_eq. unfold has_zero_axis in Hz. tauto. }
  rewrite E. reflexivity.
Qed.

(** C7: the file constructor turns a file of 0 bytes, and a file that is
    one line terminator, into the null matrix (dimensions 0x0x0x0, no
    data), without an error; and [print] on a matrix with a zero axis
    writes nothing at all. *)
Theorem empty_file_and_null_matrix :
  Matrix4D_from_file base (Some []) = Ok null_matrix /\
  Matrix4D_from_file base (Some [newline]) = Ok null_matrix /\
  _dim null_matrix = [0; 0; 0; 0] /\ _data null_matrix = [] /\
  forall m precision width sep,
    has_zero_axis m -> print base m precision width sep = Some [].
Proof.
  split; [apply from_empty_file|]. split; [apply from_single_terminator|].
  split; [reflexivity|]. split; [reflexivity|]. apply print_zero_axis.
Qed.

(** A second terminator, or anything else after the first one, is an
    error: only the two files above parse to the null matrix that way. *)
Lemma from_leading_empty_line c rest :
  Matrix4D_from_file base (Some (newline :: c :: rest)) = Throw EmptyLine.
Proof. reflexivity. Qed.

(** ** A first line that is not a header (claim C4) *)

(** The first line is not a 4D header and a line terminator follows it:
    the constructor throws. *)
Lemma first_line_not_header_terminated line rest :
  line <> [] -> ~ In newline line -> is_header_4d line = false ->
  Matrix4D_from_file base (Some (line ++ newline :: rest)) = Throw ReadError.
Proof.
  intros Hne Hnl Hh. unfold Matrix4D_from_file.
  rewrite getline_line by assumption.
  destruct line as [|c line]; [contradiction|].
  simpl. rewrite Hh. reflexivity.
Qed.

(** The same line as the whole file, with no terminator: [getline] reaches
    the end of the stream, the test [not file.eof()] is false, and the
    constructor returns a null matrix. *)
Lemma first_line_not_header_unterminated line :
  line <> [] -> ~ In newline line -> is_header_4d line = false ->
  Matrix4D_from_file base (Some line)
  = Ok (mk_Matrix4D [0; 0; 0; 0] [] 4 0 (compute_dim_product base [0; 0; 0; 0])
          [] [] [] []).
Proof.
  intros Hne Hnl Hh. unfold Matrix4D_from_file.
  rewrite getline_last by assumption.
  destruct line as [|c line]; [contradiction|].
  simpl. rewrite Hh. reflexivity.
Qed.

End NullMatrix.

(** C7 at the null matrix itself. *)
Lemma empty_file_and_null_matrix_witness :
  Matrix4D_from_file (T := Z) exchanging_base (Some []) = Ok null_matrix /\
  print exchanging_base (null_matrix (T := Z)) 4 8 space = Some [].
Proof.
  destruct (empty_file_and_null_matrix (T := Z) exchanging_base)
    as [H1 [_ [_ [_ H5]]]].
  split; [exact H1|]. apply H5. left. reflexivity.
Defined.

(** C4 at the file that is the single line [1 2 3] with no terminator: the
    constructor does not fail, it returns a matrix with no element. *)
Theorem data_line_alone_is_accepted :
  forall base : MatrixBase,
    Matrix4D_from_file (T := Z) base (Some (str "1 2 3"))
    = Ok (mk_Matrix4D [0; 0; 0; 0] [] 4 0 (compute_dim_product base [0; 0; 0; 0])
            [] [] [] []) /\
    Matrix4D_from_file (T := Z) base (Some (str "1 2 3" ++ [newline]))
    = Throw ReadError.
Proof.
  intros base. split.
  - apply first_line_not_header_unterminated; [discriminate | | reflexivity].
    simpl. intros H. repeat (destruct H as [H|H]; [discriminate|]). exact H.
  - apply first_line_not_header_terminated; [discriminate | | reflexivity].
    simpl. intros H. repeat (destruct H as [H|H]; [discriminate|]). exact H.
Qed.

(** ** The example of the specification (claim C3) *)

(** The seven lines of the example, each followed by a line terminator. *)
Definition spec_example : list ascii :=
  unlines [str ",,,0"; str ",,0"; str "1 2 3"; str "4 5 6";
           str ",,1"; str "7 8 9"; str "10 11 12"].

(** What the constructor reads from the seven lines, whatever the base
    class. *)
Lemma from_file_on_spec_example (base : MatrixBase) :
  exists m : Matrix4D (T := Z),
    Matrix4D_from_file base (Some spec_example) = Ok m /\
    Matrix4D_from_file base (Some (removelast spec_example)) = Ok m /\
    _dim m = [3; 2; 2; 1] /\
    _data m = [1; 2; 3; 4; 5; 6; 7; 8; 9; 10; 11; 12]%Z.
Proof.
  eexists. split; [vm_compute; reflexivity|].
  split; [vm_compute; reflexivity|]. split; reflexivity.
Qed.

(** C3, as the code has it: the constructor succeeds on the seven lines
    (with or without a terminator after the last one); the matrix has the
    dimension vector (3,2,2,1): three values in a row, two rows in a block,
    two blocks, one slice, that is twelve elements and not the six of a
    shape (2,3,1,1); the element at coordinates (0,0,0,0) is 1 and the last
    element of the buffer is 12. *)
Theorem spec_example_is_3_2_2_1 :
  forall (base : MatrixBase) (text : list ascii),
    In text [spec_example; removelast spec_example] ->
    exists m : Matrix4D (T := Z),
      Matrix4D_from_file base (Some text) = Ok m /\
      _dim m = [3; 2; 2; 1] /\
      _data m = [1; 2; 3; 4; 5; 6; 7; 8; 9; 10; 11; 12]%Z /\
      at_ m 0 0 0 0 = Some 1%Z /\
      last (_data m) 0%Z = 12%Z.
Proof.
  intros base text [<- | [<- | []]]; eexists.
  - split; [vm_compute; reflexivity|]. repeat split.
  - split; [vm_compute; reflexivity|]. repeat split.
Qed.

Lemma spec_example_is_3_2_2_1_witness :
  exists m : Matrix4D (T := Z),
    Matrix4D_from_file exchanging_base (Some spec_example) = Ok m /\
    _dim m = [3; 2; 2; 1] /\
    _data m = [1; 2; 3; 4; 5; 6; 7; 8; 9; 10; 11; 12]%Z /\
    at_ m 0 0 0 0 = Some 1%Z /\
    last (_data m) 0%Z = 12%Z.
Proof.
  apply (spec_example_is_3_2_2_1 exchanging_base (text := spec_example)).
  simpl. left. reflexivity.
Defined.

(** C3 as stated fails: whatever the base class, the matrix read from the
    seven lines does not have the dimension vector (2,3,1,1), in that order
    or with rows and columns exchanged, and it does not have the six
    elements of that shape. *)
Lemma spec_example_is_not_2_3_1_1 :
  ~ (exists (base : MatrixBase) (m : Matrix4D (T := Z)),
       Matrix4D_from_file base (Some spec_example) = Ok m /\
       (_dim m = [2; 3; 1; 1] \/ _dim m = [3; 2; 1; 1] \/
        length (_data m) = 2 * 3 * 1 * 1)).
Proof.
  intros [base [m [E Hm]]].
  destruct (from_file_on_spec_example base) as [m' [E' [_ [Hd Hv]]]].
  rewrite E in E'. inversion E'; subst m'.
  rewrite Hd, Hv in Hm. destruct Hm as [Hm | [Hm | Hm]]; discriminate.
Qed.

(** ** Blocks of different row counts (claims C5 and C6) *)

(** A slice of two blocks: the first has two rows, the last has one. *)
Definition ragged_slice : list ascii :=
  unlines [str ",,0"; str "1 2"; str "3 4"; str ",,1"; str "5 6"].

Definition ragged_file : list ascii := unlines [str ",,,0"] ++ ragged_slice.

(** Every data row stores the row count of its block in [dim[1]]: the
    check that ends [get_3d_slice] compares [col_len_cur] with the value it
    was just copied to, and not with [col_len]. *)
Lemma data_row_sets_dim1 {T : Type} `{Element T} line (l l' : slice_locals (T := T)) :
  length (dim l) = 3 ->
  is_header_3d line = false ->
  slice_line line l = Next l' ->
  vget (dim l') 1 = col_len_cur l' /\ length (dim l') = 3.
Proof.
  intros Hd H3. unfold slice_line.
  destruct (length line =? 0); [discriminate|].
  destruct (is_header_4d line); [discriminate|]. rewrite H3.
  destruct (n_line l =? 0); [discriminate|].
  destruct (extract_all line) as [ss vec].
  destruct (failbit ss && negb (eofbit ss)); [discriminate|].
  destruct (dim l) as [|d0 [|d1 [|d2 [|]]]]; try discriminate.
  destruct (n_line_data l =? 0).
  - intros E; inversion E; subst; simpl. split; reflexivity.
  - destruct (negb (length vec =? row_len l)); [discriminate|].
    intros E; inversion E; subst; simpl. split; reflexivity.
Qed.

(** C5 at [ragged_slice]: the row count fixed by the first block is 2, the
    last block has 1 row, and [get_3d_slice] returns normally, with the
    dimensions (2,1,2) for six values. *)
Theorem last_block_row_count_is_not_checked :
  get_3d_slice (T := Z) (open_stream ragged_slice) []
  = Ok (mk_istream [] true true, [1; 2; 3; 4; 5; 6]%Z, [2; 1; 2], false).
Proof. vm_compute. reflexivity. Qed.

(** C6 at [ragged_file]: the constructor returns a matrix whose dimension
    vector (2,1,2,1) stands for four elements and whose buffer holds six. *)
Theorem ragged_blocks_are_accepted :
  forall base : MatrixBase,
    exists m : Matrix4D (T := Z),
      Matrix4D_from_file base (Some ragged_file) = Ok m /\
      _dim m = [2; 1; 2; 1] /\
      _data m = [1; 2; 3; 4; 5; 6]%Z /\
      length (_data m) <> fold_left Nat.mul (_dim m) 1.
Proof.
  intros base. eexists. split; [vm_compute; reflexivity|].
  repeat split. discriminate.
Qed.

(** What the reader does reject, whatever the base class: a block that is
    not the last and differs from the first, ... *)
Example inner_block_mismatch_is_rejected (base : MatrixBase) :
  Matrix4D_from_file (T := Z) base
    (Some (unlines [str ",,,0"; str ",,0"; str "1 2"; str ",,1"; str "3 4"; str "5 6";
                    str ",,2"; str "7 8"]))
  = Throw VariableDimensions.
Proof. vm_compute. reflexivity. Qed.

(** ... a header with no row after it, ... *)
Example trailing_header_is_rejected (base : MatrixBase) :
  Matrix4D_from_file (T := Z) base
    (Some (unlines [str ",,,0"; str ",,0"; str "1 2"; str ",,1"]))
  = Throw VariableDimensions333.
Proof. vm_compute. reflexivity. Qed.

(** ... a row whose number of values differs from the first row's, ... *)
Example row_length_mismatch_is_rejected (base : MatrixBase) :
  Matrix4D_from_file (T := Z) base
    (Some (unlines [str ",,,0"; str ",,0"; str "1 2"; str "3 4 5"]))
  = Throw VariableDimensions.
Proof. vm_compute. reflexivity. Qed.

(** ... and a second slice whose dimensions differ from the first's. *)
Example slice_mismatch_is_rejected (base : MatrixBase) :
  Matrix4D_from_file (T := Z) base
    (Some (unlines [str ",,,0"; str ",,0"; str "1 2"; str ",,,1"; str ",,0"; str "1 2";
                    str "3 4"]))
  = Throw VariableDimensions.
Proof. vm_compute. reflexivity. Qed.

(** ** Matrix2D: [set] (claim C9) *)

(** A checked access in the layout of [exchanging_base], for the coordinates
    [{row, col}]: the column is bounded by [_dim[0]], the row by [_dim[1]]. *)
Definition checked_get {T : Type} (m : M2D.Matrix2D (T := T)) (coord : list nat)
  : option T :=
  match coord with
  | [row; col] =>
      if (col <? vget (M2D._dim m) 0) && (row <? vget (M2D._dim m) 1)
      then nth_error (M2D._data m)
             (col * vget (M2D._dim_prod m) 0 + row * vget (M2D._dim_prod m) 1)
      else None
  | _ => None
  end.

(** C9: [Matrix2D::set(row, col, value)] leaves the matrix as it was,
    whatever the coordinates and the value: it runs the checked access of
    the base class and stores nothing.  On coordinates in range (the
    checked access returns an element [x]) the call returns normally and
    the element at [(row, col)] is still [x]; every element reads as it did
    before the call. *)
Theorem set_stores_nothing :
  forall (T : Type) (Matrix_get : M2D.Matrix2D (T := T) -> list nat -> option T)
         (m : M2D.Matrix2D) (row col : nat) (value : T),
    fst (M2D.set Matrix_get m row col value) = m /\
    (forall x, Matrix_get m [row; col] = Some x ->
       M2D.set Matrix_get m row col value = (m, M2D.Returns tt) /\
       M2D.get Matrix_get (fst (M2D.set Matrix_get m row col value)) row col
       = M2D.Returns x) /\
    (forall r c,
       M2D.get Matrix_get (fst (M2D.set Matrix_get m row col value)) r c
       = M2D.get Matrix_get m r c).
Proof.
  intros T Matrix_get m row col value.
  assert (E : fst (M2D.set Matrix_get m row col value) = m).
  { unfold M2D.set. destruct (Matrix_get m [row; col]); reflexivity. }
  split; [exact E|]. split.
  - intros x Hx. rewrite E. unfold M2D.set, M2D.get. rewrite Hx. split; reflexivity.
  - intros r c. rewrite E. reflexivity.
Qed.

(** C9 on the 2x2 matrix of rows [1 2] and [3 4]: after [set(1, 0, 9)] the
    element at (1, 0) is still 3. *)
Lemma set_stores_nothing_witness :
  let m := M2D.mk_Matrix2D [2; 2] [1; 2; 3; 4]%Z 2 4 [1; 2] in
  M2D.set checked_get m 1 0 9%Z = (m, M2D.Returns tt) /\
  M2D.get checked_get (fst (M2D.set checked_get m 1 0 9%Z)) 1 0 = M2D.Returns 3%Z.
Proof.
  exact (proj1 (proj2 (set_stores_nothing checked_get
                         (M2D.mk_Matrix2D [2; 2] [1; 2; 3; 4]%Z 2 4 [1; 2]) 1 0 9%Z))
           3%Z eq_refl).
Defined.

(** ** Matrix2D: the file constructor (claim C10) *)

Section Matrix2DReader.
Context {T : Type} `{Element T}.
Variable base : MatrixBase.

(** The values [operator>>] extracts from a line. *)
Definition tokens (line : list ascii) : list T := snd (extract_all line).

(** The loop body run on lines that were each followed by a terminator:
    the stream is good after each of them. *)
Fixpoint read_rows (ls : list (list ascii)) (l : M2D.ctor_locals (T := T))
  : result M2D.ctor_locals :=
  match ls with
  | [] => Ok l
  | line :: r =>
      match M2D.read_body (open_stream []) line l with
      | Next l' => read_rows r l'
      | Break l' => Ok l'
      | Raise e => Throw e
      end
  end.

Lemma unlines_cons line ls tail :
  unlines (line :: ls) ++ tail = line ++ newline :: (unlines ls ++ tail).
Proof. unfold unlines. simpl. rewrite <- !app_assoc. reflexivity. Qed.

(** The reading loop on a text: the terminated lines go through the body;
    characters after the last terminator are read by a [getline] that
    reaches the end of the stream, and the body leaves the loop on
    [file.eof()] before it looks at them. *)
Lemma read_loop_on_lines :
  forall ls tail s l,
    Forall (fun x => ~ In newline x) ls -> ~ In newline tail ->
    while_getline (S (length (unlines ls ++ tail))) M2D.read_body
      (open_stream (unlines ls ++ tail)) s l
    = match read_rows ls l with
      | Ok l' =>
          Ok (mk_istream [] true (match tail with [] => true | _ => false end), tail, l')
      | Throw e => Throw e
      | Undefined => Undefined
      end.
Proof.
  induction ls as [|line ls IH]; intros tail s l Hls Htail.
  - simpl unlines. simpl app.
    change (S (length tail)) with (S (length (buf (open_stream tail)))).
    rewrite while_getline_step.
    destruct tail as [|c tail].
    + reflexivity.
    + rewrite getline_last by (assumption || discriminate). reflexivity.
  - inversion Hls as [|? ? Hline Hrest]; subst.
    rewrite unlines_cons.
    change (S (length (line ++ newline :: unlines ls ++ tail)))
      with (S (length (buf (open_stream (line ++ newline :: unlines ls ++ tail))))).
    rewrite while_getline_step, getline_line by assumption.
    simpl failbit. cbv iota.
    change (M2D.read_body (open_stream (unlines ls ++ tail)) line l)
      with (M2D.read_body (open_stream []) line l).
    simpl read_rows.
    destruct (M2D.read_body (open_stream []) line l) as [l'|l'|e] eqn:Eb.
    + simpl buf. apply IH; assumption.
    + exfalso. unfold M2D.read_body in Eb. simpl in Eb.
      destruct (length line =? 0); [discriminate|].
      destruct (extract_all line) as [ss vec].
      destruct (M2D.i l =? 0); [discriminate|].
      destruct (negb (length vec =? M2D.row_len l)); discriminate.
    + reflexivity.
Qed.

(** What the rows leave in the variables of the loop. *)
Lemma read_rows_ok :
  forall ls l l',
    length (M2D.this_dim l) = 2 ->
    read_rows ls l = Ok l' ->
    length (M2D.this_dim l') = 2 /\
    M2D.i l' = M2D.i l + length ls /\
    vget (M2D.this_dim l') 1 = vget (M2D.this_dim l) 1 + length ls /\
    M2D.this_data l' = M2D.this_data l ++ concat (map tokens ls) /\
    (M2D.i l <> 0 -> M2D.row_len l' = M2D.row_len l) /\
    (M2D.i l = 0 -> ls = [] -> M2D.row_len l' = M2D.row_len l) /\
    Forall (fun x => x <> [] /\ length (tokens x) = M2D.row_len l') ls.
Proof.
  induction ls as [|line ls IH]; intros l l' Hd E.
  - simpl in E. inversion E; subst. rewrite !Nat.add_0_r, app_nil_r.
    repeat split; auto.
  - simpl in E. unfold M2D.read_body in E. simpl eofbit in E. cbv iota in E.
    destruct (length line =? 0) eqn:Elen; [discriminate|].
    simpl failbit in E. cbv iota in E.
    assert (Hne : line <> []) by (intros ->; discriminate).
    unfold tokens at 1. simpl map. simpl concat.
    destruct (extract_all line) as [ss vec] eqn:Ex. simpl snd.
    destruct (M2D.this_dim l) as [|d0 [|d1 [|]]] eqn:Edim; try discriminate.
    destruct (M2D.i l =? 0) eqn:Ei.
    + apply IH in E; [|reflexivity]. simpl in E.
      destruct E as [H1 [H2 [H3 [H4 [H5 [_ H7]]]]]].
      apply Nat.eqb_eq in Ei.
      unfold vget in *. simpl in *.
      split; [assumption|]. split; [lia|]. split; [lia|].
      split; [rewrite H4, <- app_assoc; reflexivity|].
      split; [intros Hi; contradiction|].
      split; [intros _ Hnil; discriminate|].
      constructor; [|assumption]. split; [assumption|].
      unfold tokens. rewrite Ex. simpl. symmetry. apply H5. discriminate.
    + destruct (negb (length vec =? M2D.row_len l)) eqn:Er; [discriminate|].
      apply negb_false_iff, Nat.eqb_eq in Er.
      apply IH in E; [|reflexivity]. simpl in E.
      destruct E as [H1 [H2 [H3 [H4 [H5 [_ H7]]]]]].
      apply Nat.eqb_neq in Ei.
      unfold vget in *. simpl in *.
      split; [assumption|]. split; [lia|]. split; [lia|].
      split; [rewrite H4, <- app_assoc; reflexivity|].
      split; [intros _; apply H5; discriminate|].
      split; [intros Hi; contradiction|].
      constructor; [|assumption]. split; [assumption|].
      unfold tokens. rewrite Ex. simpl. rewrite H5 by discriminate. assumption.
Qed.

(** Rows that are not empty and hold the same number of values all go
    through. *)
Lemma read_rows_succeeds n :
  forall ls l,
    Forall (fun x => x <> [] /\ length (tokens x) = n) ls ->
    (M2D.i l <> 0 -> M2D.row_len l = n) ->
    exists l', read_rows ls l = Ok l'.
Proof.
  induction ls as [|line ls IH]; intros l Hls Hrow.
  - exists l. reflexivity.
  - apply Forall_cons_iff in Hls. destruct Hls as [[Hne Hn] Hrest]. simpl.
    unfold M2D.read_body. simpl eofbit. simpl failbit. cbv iota.
    destruct line as [|c line]; [contradiction|].
    change (length (c :: line) =? 0) with false. cbv iota.
    unfold tokens in Hn. destruct (extract_all (c :: line)) as [ss vec]. simpl in Hn.
    destruct (M2D.i l =? 0) eqn:Ei.
    + apply IH; [assumption|]. simpl. intros _. assumption.
    + apply Nat.eqb_neq in Ei. rewrite (Hrow Ei), Hn, Nat.eqb_refl. simpl.
      apply IH; [assumption|]. simpl. intros _. reflexivity.
Qed.

(** C10: characters after the last line terminator of the file take no
    part in the matrix: the constructor gives the same result as on the
    file cut after that terminator.  A file whose lines all end with a
    terminator is read in full: when the constructor returns, [_dim[1]] is
    the number of lines, every line holds [_dim[0]] values, and [_data] is
    the values of the lines in order; and it does return when no line is
    empty and all lines hold the same number of values.  So a last line
    with no terminator is one line of the file that [_dim[1]] does not
    count and whose values [_data] does not hold. *)
Theorem unterminated_last_line_is_dropped :
  forall (ls : list (list ascii)) (tail : list ascii),
    Forall (fun x => ~ In newline x) ls -> ~ In newline tail ->
    M2D.Matrix2D_from_file base (Some (unlines ls ++ tail))
    = M2D.Matrix2D_from_file base (Some (unlines ls)) /\
    (forall m,
       M2D.Matrix2D_from_file base (Some (unlines ls)) = Ok m ->
       vget (M2D._dim m) 1 = length ls /\
       M2D._data m = concat (map tokens ls) /\
       Forall (fun x => x <> [] /\ length (tokens x) = vget (M2D._dim m) 0) ls) /\
    (forall n,
       Forall (fun x => x <> [] /\ length (tokens x) = n) ls ->
       exists m, M2D.Matrix2D_from_file base (Some (unlines ls)) = Ok m).
Proof.
  intros ls tail Hls Htail.
  assert (Hloop : forall tl, ~ In newline tl ->
            M2D.Matrix2D_from_file base (Some (unlines ls ++ tl))
            = match read_rows ls (M2D.mk_ctor 0 0 [0; 0] [] 0) with
              | Ok l =>
                  Ok (M2D.mk_Matrix2D (vset (M2D.this_dim l) 0 (M2D.row_len l))
                        (M2D.this_data l) 2 (M2D.this_data_size l)
                        (compute_dim_product base
                           (vset (M2D.this_dim l) 0 (M2D.row_len l))))
              | Throw e => Throw e
              | Undefined => Undefined
              end).
  { intros tl Htl. unfold M2D.Matrix2D_from_file.
    rewrite read_loop_on_lines by assumption.
    destruct (read_rows ls _); reflexivity. }
  assert (Hnil : M2D.Matrix2D_from_file base (Some (unlines ls))
                 = M2D.Matrix2D_from_file base (Some (unlines ls ++ []))).
  { rewrite app_nil_r. reflexivity. }
  split; [|split].
  - rewrite Hnil, !Hloop by (assumption || (intros [])). reflexivity.
  - intros m Hm. rewrite Hnil, Hloop in Hm by (intros []).
    destruct (read_rows ls _) as [l| |] eqn:Er; try discriminate.
    inversion Hm; subst m; clear Hm. simpl.
    apply read_rows_ok in Er; [|reflexivity]. simpl in Er.
    destruct Er as [H1 [H2 [H3 [H4 [_ [_ H7]]]]]].
    destruct (M2D.this_dim l) as [|d0 [|d1 [|]]]; try discriminate.
    unfold vget in *. simpl in *. repeat split; assumption.
  - intros n Hn. rewrite Hnil, Hloop by (intros []).
    destruct (@read_rows_succeeds n ls (M2D.mk_ctor 0 0 [0; 0] [] 0) Hn) as [l' ->].
    + simpl. intros Hc. contradiction.
    + eexists. reflexivity.
Qed.

End Matrix2DReader.

(** C10 on the file of the two lines [1 2] and [3 4], the second with no
    terminator: the matrix is the one of the file that holds the line
    [1 2] alone. *)
Lemma unterminated_last_line_is_dropped_witness :
  M2D.Matrix2D_from_file (T := Z) exchanging_base
    (Some (unlines [str "1 2"] ++ str "3 4"))
  = M2D.Matrix2D_from_file exchanging_base (Some (unlines [str "1 2"])) /\
  M2D.Matrix2D_from_file (T := Z) exchanging_base (Some (unlines [str "1 2"]))
  = Ok (M2D.mk_Matrix2D [2; 1] [1; 2]%Z 2 2 [1; 2]).
Proof.
  split; [|reflexivity].
  apply (@unterminated_last_line_is_dropped Z _ exchanging_base
           [str "1 2"] (str "3 4")).
  - repeat constructor. simpl. intros H. repeat (destruct H as [H|H]; [discriminate|]).
    exact H.
  - simpl. intros H. repeat (destruct H as [H|H]; [discriminate|]). exact H.
Defined.

(** ** The invariant of the offset tables *)

Section OffsetInvariant.
Context {T : Type} `{Element T}.
Variable base : MatrixBase.

(** Each table has as many entries as the axis whose indices it maps: the
    loops of [compute_dim1_offsets] ... [compute_dim4_offsets] run over
    [_dim[1]], [_dim[0]], [_dim[2]] and [_dim[3]]. *)
Definition offsets_invariant (m : Matrix4D (T := T)) : Prop :=
  length (_dim1_offsets m) = vget (_dim m) 1 /\
  length (_dim2_offsets m) = vget (_dim m) 0 /\
  length (_dim3_offsets m) = vget (_dim m) 2 /\
  length (_dim4_offsets m) = vget (_dim m) 3.

(** A slice reader that returns [true] has extracted a line. *)
Lemma slice_line_keeps_flag line (l l' : slice_locals (T := T)) :
  slice_line line l = Next l' -> found_4d_header l' = found_4d_header l.
Proof.
  unfold slice_line.
  destruct (length line =? 0); [discriminate|].
  destruct (is_header_4d line); [discriminate|].
  destruct (is_header_3d line).
  - destruct (vget (dim l) 2 =? 1); [intros E; inversion E; reflexivity|].
    destruct (negb (col_len_cur l =? col_len l)); [discriminate|].
    intros E; inversion E; reflexivity.
  - destruct (n_line l =? 0); [discriminate|].
    destruct (extract_all line) as [ss vec].
    destruct (failbit ss && negb (eofbit ss)); [discriminate|].
    destruct (n_line_data l =? 0); [intros E; inversion E; reflexivity|].
    destruct (negb (length vec =? row_len l)); [discriminate|].
    intros E; inversion E; reflexivity.
Qed.

Lemma slice_loop_shrinks :
  forall n f s (l : slice_locals (T := T)) f' line l',
    found_4d_header l = false ->
    while_getline n slice_body f s l = Ok (f', line, l') ->
    found_4d_header l' = true ->
    length (buf f') < length (buf f).
Proof.
  induction n as [|n IH]; intros f s l f' line l' Hl E Hf; [discriminate|].
  rewrite while_getline_S in E.
  destruct (getline f s) as [f1 line1] eqn:Eg.
  destruct (failbit f1) eqn:Ef1.
  - inversion E; subst. congruence.
  - pose proof (getline_shrinks _ _ Eg Ef1) as Hs.
    unfold slice_body in E. rewrite Ef1 in E.
    destruct (slice_line line1 l) as [l1|l1|e] eqn:Es.
    + apply slice_line_keeps_flag in Es.
      specialize (IH _ _ _ _ _ _ (eq_trans Es Hl) E Hf). lia.
    + inversion E; subst. assumption.
    + discriminate.
Qed.

Lemma get_3d_slice_shrinks f (d0 : list T) f' d dims :
  get_3d_slice f d0 = Ok (f', d, dims, true) ->
  length (buf f') < length (buf f).
Proof.
  unfold get_3d_slice.
  destruct (while_getline _ _ _ _ _) as [[[f1 line1] l1]| |] eqn:E; try discriminate.
  destruct (negb (col_len_cur l1 =? vget (dim l1) 1)); [discriminate|].
  intros E1; inversion E1; subst.
  eapply slice_loop_shrinks; [|exact E|assumption]. reflexivity.
Qed.

Lemma get_3d_slice_defined f (d0 : list T) : get_3d_slice f d0 <> Undefined.
Proof.
  unfold get_3d_slice.
  destruct (while_getline _ _ _ _ _) as [[[f1 line1] l1]| |] eqn:E.
  - destruct (negb _); discriminate.
  - discriminate.
  - exfalso. revert E. apply while_getline_defined. lia.
Qed.


Lemma slices_loop_defined :
  forall n f s found (m : ctor_locals (T := T)),
    length (buf f) < n -> slices_loop n f s found m <> Undefined.
Proof.
  induction n as [|n IH]; intros f s found m Hn; [lia|]. simpl.
  destruct (failbit f); [discriminate|].
  destruct (length s =? 0); [discriminate|].
  destruct found.
  - destruct (get_3d_slice f []) as [[[[f' d] dims] found']| |] eqn:Eg.
    + destruct found'.
      * apply get_3d_slice_shrinks in Eg.
        destruct (vget (this_dim m) 3 =? 0); [apply IH; lia|].
        destruct (_ || _); [discriminate|]. apply IH; lia.
      * destruct (vget (this_dim m) 3 =? 0); [discriminate|].
        destruct (_ || _); discriminate.
    + discriminate.
    + exfalso. revert Eg. apply get_3d_slice_defined.
  - destruct (negb false && negb (eofbit f)); discriminate.
Qed.

(** The file constructor never leaves the bounds of a table, and the
    matrix it returns satisfies the invariant. *)
Lemma from_file_offsets content :
  Matrix4D_from_file base content <> Undefined /\
  forall m, Matrix4D_from_file base content = Ok m -> offsets_invariant m.
Proof.
  unfold Matrix4D_from_file. destruct content as [text|]; [|split; discriminate].
  destruct (getline (open_stream text) []) as [file line] eqn:Eg.
  destruct (length line =? 0).
  - destruct (peek file) as [file1 [c|]].
    + split; discriminate.
    + destruct (eofbit file1); split; try discriminate.
      intros m E; inversion E; subst. repeat split.
  - destruct (failbit file); [split; discriminate|].
    destruct (slices_loop _ _ _ _ _) as [[f' l]| |] eqn:Es.
    + rewrite compute_offsets_allocated. split; [discriminate|].
      intros m E; inversion E; subst; clear E.
      unfold offsets_invariant; simpl. rewrite !offsets_table_length. repeat split.
    + split; discriminate.
    + exfalso. revert Es. apply slices_loop_defined. lia.
Qed.

End OffsetInvariant.

(** ** Writing and reading back (claim C1) *)

(** *** The lines [print] writes *)

Lemma uint_text_digits (d : Decimal.uint) :
  Forall (fun c => isdigit c = true)
    (list_ascii_of_string (DecimalString.NilEmpty.string_of_uint d)).
Proof. induction d; simpl; constructor; (reflexivity || assumption). Qed.

Lemma write_size_t_digits n : Forall (fun c => isdigit c = true) (write_size_t n).
Proof.
  unfold write_size_t, DecimalString.NilZero.string_of_uint.
  destruct (Nat.to_uint n) eqn:E; try (rewrite <- E; apply uint_text_digits).
  simpl. constructor; [reflexivity | constructor].
Qed.

Lemma write_size_t_not_empty n : write_size_t n <> [].
Proof.
  unfold write_size_t, DecimalString.NilZero.string_of_uint.
  destruct (Nat.to_uint n); simpl; discriminate.
Qed.

Lemma digit_is_not_comma c : isdigit c = true -> c <> comma.
Proof. intros Hd ->. discriminate. Qed.

Lemma digit_is_not_newline c : isdigit c = true -> c <> newline.
Proof. intros Hd ->. discriminate. Qed.

Lemma digits_not_in (c : ascii) (ds : list ascii) :
  isdigit c = false -> Forall (fun x => isdigit x = true) ds -> ~ In c ds.
Proof.
  intros Hc Hd Hin. rewrite Forall_forall in Hd. apply Hd in Hin. congruence.
Qed.

(** The two header lines [print] writes. *)
Definition header3 (j : nat) : list ascii := str ",," ++ write_size_t j.


Lemma header3_is_header j :
  is_header_3d (header3 j) = true /\ is_header_4d (header3 j) = false.
Proof.
  split.
  - apply is_header_3d_iff. exists (write_size_t j). split; [reflexivity|].
    apply digits_not_in; [reflexivity | apply write_size_t_digits].
  - apply not_true_iff_false. intros E. apply is_header_4d_iff in E.
    destruct E as [rest [E _]]. unfold header3 in E. simpl in E.
    pose proof (write_size_t_digits j) as Hd.
    destruct (write_size_t j) as [|c r] eqn:Ew.
    + discriminate.
    + inversion E; subst c. inversion Hd; subst. discriminate.
Qed.



Lemma header_length_nonzero j : (length (header3 j) =? 0) = false.
Proof. reflexivity. Qed.

(** *** Element types whose text reads back *)

Section TextOfValues.
Context {T : Type} `{Element T}.
Variables precision width : nat.

(** The values of [T] that [operator<<] writes, at [precision], as a text
    that [operator>>] reads back to the same value when white space
    follows.  Integers are such values; a floating-point number with more
    than [precision] decimals is not. *)
Record exact_text (valid : T -> Prop) : Prop := {
  text_starts : forall x, valid x ->
    exists c r, write_value precision x = c :: r /\ isspace c = false /\ c <> comma;
  text_no_newline : forall x, valid x -> ~ In newline (write_value precision x);
  text_reads_back : forall x rest, valid x ->
    read_value (write_value precision x ++ space :: rest) = (Some x, space :: rest, false)
}.

Variable valid : T -> Prop.
Hypothesis codec : exact_text valid.

(** What [print] writes for one element, and for one row. *)
Definition value_text (x : T) : list ascii :=
  setw_left width (write_value precision x) ++ [space].

Definition row_text (vals : list T) : list ascii := concat (map value_text vals).

Lemma value_text_shape x :
  exists k, value_text x = write_value precision x ++ space :: repeat space k.
Proof.
  unfold value_text, setw_left.
  exists (width - length (write_value precision x)).
  rewrite <- app_assoc. f_equal. symmetry. apply repeat_cons.
Qed.

Lemma skipws_spaces ws rest :
  Forall (fun c => c = space) ws -> skipws (ws ++ rest) = skipws rest.
Proof.
  induction 1 as [|c ws Hc _ IH]; [reflexivity|]. subst c. simpl. exact IH.
Qed.

Lemma skipws_text x rest :
  valid x ->
  skipws (write_value precision x ++ rest) = write_value precision x ++ rest.
Proof.
  intros Hx. destruct (text_starts codec x Hx) as [c [r [Hw [Hc _]]]].
  rewrite Hw. simpl. rewrite Hc. reflexivity.
Qed.

Lemma extract_value ws x rest :
  valid x -> Forall (fun c => c = space) ws ->
  extract (open_stream (ws ++ write_value precision x ++ space :: rest))
  = (open_stream (space :: rest), Some x).
Proof.
  intros Hx Hws. unfold extract, open_stream, good. cbn [eofbit failbit buf negb andb].
  rewrite skipws_spaces, skipws_text by assumption.
  destruct (text_starts codec x Hx) as [c [r [Hw _]]].
  destruct (write_value precision x ++ space :: rest) as [|a b] eqn:E.
  - rewrite Hw in E. discriminate.
  - rewrite <- E, (text_reads_back codec) by assumption. reflexivity.
Qed.

Lemma extract_end ws :
  Forall (fun c => c = space) ws ->
  extract (T := T) (open_stream ws) = (mk_istream [] true true, None).
Proof.
  intros Hws. unfold extract, open_stream, good. cbn [eofbit failbit buf negb andb].
  replace (skipws ws) with (skipws (ws ++ [])) by (now rewrite List.app_nil_r).
  rewrite skipws_spaces by assumption. reflexivity.
Qed.

Lemma extract_row :
  forall vals ws fuel acc,
    Forall valid vals -> Forall (fun c => c = space) ws ->
    length vals < fuel ->
    extract_loop fuel (open_stream (ws ++ row_text vals)) acc
    = (mk_istream [] true true, acc ++ vals).
Proof.
  induction vals as [|x vals IH]; intros ws fuel acc Hv Hws Hf.
  - destruct fuel as [|fuel]; [lia|].
    unfold row_text. simpl map. simpl concat. rewrite !List.app_nil_r.
    simpl extract_loop. rewrite extract_end by assumption. reflexivity.
  - destruct fuel as [|fuel]; [simpl in Hf; lia|].
    inversion Hv as [|? ? Hx Hvals]; subst.
    destruct (value_text_shape x) as [k Hk].
    unfold row_text. simpl map. simpl concat. fold (row_text vals).
    rewrite Hk, <- !app_assoc. simpl app.
    simpl extract_loop. rewrite extract_value by assumption.
    change (open_stream (space :: repeat space k ++ row_text vals))
      with (open_stream ((space :: repeat space k) ++ row_text vals)).
    rewrite IH.
    + rewrite <- app_assoc. reflexivity.
    + assumption.
    + constructor; [reflexivity|]. apply Forall_forall. intros y Hy.
      now apply repeat_spec in Hy.
    + simpl in Hf. lia.
Qed.

Lemma row_text_length vals : length vals <= length (row_text vals).
Proof.
  induction vals as [|x vals IH]; simpl; [lia|].
  unfold row_text in *. simpl. rewrite length_app.
  unfold value_text at 1. rewrite length_app. simpl. lia.
Qed.

(** Reading a row that [print] wrote gives its values; the stream ends at
    the end of the line, which is not an error. *)
Lemma extract_all_row vals :
  Forall valid vals ->
  extract_all (row_text vals) = (mk_istream [] true true, vals).
Proof.
  intros Hv. unfold extract_all.
  apply (@extract_row vals [] (S (length (row_text vals))) []);
    [assumption | constructor |].
  pose proof (row_text_length vals). lia.
Qed.

Lemma row_text_starts x vals :
  valid x ->
  exists c r, row_text (x :: vals) = c :: r /\ c <> comma.
Proof.
  intros Hx. destruct (text_starts codec x Hx) as [c [r [Hw [_ Hc]]]].
  unfold row_text, value_text, setw_left. simpl. rewrite Hw. simpl.
  eexists. eexists. split; [reflexivity | assumption].
Qed.


Lemma row_text_no_newline vals : Forall valid vals -> ~ In newline (row_text vals).
Proof.
  induction 1 as [|x vals Hx _ IH]; [intros []|].
  unfold row_text. simpl. fold (row_text vals). intros Hin.
  apply in_app_or in Hin. destruct Hin as [Hin|Hin]; [|contradiction].
  unfold value_text, setw_left in Hin.
  apply in_app_or in Hin. destruct Hin as [Hin|Hin].
  - apply in_app_or in Hin. destruct Hin as [Hin|Hin].
    + revert Hin. apply (text_no_newline codec). assumption.
    + apply repeat_spec in Hin. discriminate.
  - destruct Hin as [Hin|[]]. discriminate.
Qed.

End TextOfValues.

(** *** The slice reader, one line at a time *)

Definition drop_line {St : Type} (r : result (istream * list ascii * St))
  : result (istream * St) :=
  match r with
  | Ok (f, _, st) => Ok (f, st)
  | Throw e => Throw e
  | Undefined => Undefined
  end.

Section SliceRun.
Context {T : Type} `{Element T}.

(** The loop of [get_3d_slice] from a stream and a state of its variables:
    the stream and the variables when the loop ends. *)
Definition slice_run (f : istream) (l : slice_locals (T := T))
  : result (istream * slice_locals) :=
  drop_line (while_getline (S (length (buf f))) slice_body f [] l).

Lemma get_3d_slice_run f (d0 : list T) :
  get_3d_slice f d0
  = match slice_run f (mk_slice false [0; 0; 0] d0 0 0 0 0 0 0) with
    | Ok (f', l) =>
        if negb (col_len_cur l =? vget (dim l) 1) then Throw VariableDimensions333
        else Ok (f', data l, dim l, found_4d_header l)
    | Throw e => Throw e
    | Undefined => Undefined
    end.
Proof.
  unfold get_3d_slice, slice_run.
  destruct (while_getline _ _ _ _ _) as [[[f' line] l]| |]; reflexivity.
Qed.

Lemma slice_run_line line rest l :
  ~ In newline line ->
  slice_run (open_stream (line ++ newline :: rest)) l
  = match slice_line line l with
    | Next l' => slice_run (open_stream rest) l'
    | Break l' => Ok (open_stream rest, l')
    | Raise e => Throw e
    end.
Proof.
  intros Hn. unfold slice_run. rewrite while_getline_step, getline_line by assumption.
  unfold slice_body. simpl failbit. cbv iota.
  destruct (slice_line line l); reflexivity.
Qed.

Lemma slice_run_last line l :
  ~ In newline line -> line <> [] ->
  slice_run (open_stream line) l
  = match slice_line line l with
    | Next l' => Ok (mk_istream [] true true, l')
    | Break l' => Ok (mk_istream [] true false, l')
    | Raise e => Throw e
    end.
Proof.
  intros Hn Hne. unfold slice_run.
  rewrite while_getline_step, getline_last by assumption.
  unfold slice_body. simpl failbit. cbv iota.
  destruct (slice_line line l); reflexivity.
Qed.

Lemma slice_run_end l :
  slice_run (open_stream []) l = Ok (mk_istream [] true true, l).
Proof. reflexivity. Qed.

End SliceRun.

(** *** A slice of blocks of [R] rows of [C] values *)

Section SliceOfBlocks.
Context {T : Type} `{Element T}.
Variables precision width : nat.
Variable valid : T -> Prop.
Hypothesis codec : exact_text precision valid.
Variables C R : nat.
Hypothesis C_positive : 0 < C.
Hypothesis R_positive : 0 < R.

(** The variables of [get_3d_slice] after [j] block headers and [i] rows
    of the current block, with [d] the values read so far. *)
Record slice_inv (j i : nat) (d : list T) (l : slice_locals (T := T)) : Prop := {
  inv_found : found_4d_header l = false;
  inv_data : data l = d;
  inv_dim : exists d0 d1, dim l = [d0; d1; j] /\
                          (n_line_data l <> 0 -> d0 = C) /\
                          d1 = (if i =? 0 then (if j <=? 1 then 0 else R) else i);
  inv_cur : col_len_cur l = i;
  inv_line : n_line l = 0 <-> j = 0;
  inv_rows : n_line_data l = 0 <-> (j <= 1 /\ i = 0);
  inv_row_len : n_line_data l <> 0 -> row_len l = C;
  inv_col_len : col_len l = (if 2 <=? j then R else 0)
}.

Lemma slice_inv_start d0 : slice_inv 0 0 d0 (mk_slice false [0; 0; 0] d0 0 0 0 0 0 0).
Proof.
  constructor; simpl; try reflexivity; try (split; intros; lia); try (intros; lia).
  exists 0, 0. repeat split. intros Hc. contradiction.
Qed.

(** A block header, at the start of the slice or after a full block. *)
Lemma header_step j i d l h :
  slice_inv j i d l ->
  (j = 0 /\ i = 0) \/ (1 <= j /\ i = R) ->
  exists l', slice_line (header3 h) l = Next l' /\ slice_inv (S j) 0 d l'.
Proof.
  intros Hinv Hji.
  destruct Hinv as [Hf Hd [d0 [d1 [Hdim [Hd0 Hd1]]]] Hcur Hline Hrows Hrl Hcl].
  unfold slice_line. rewrite header_length_nonzero.
  destruct (header3_is_header h) as [H3 H4]. rewrite H4, H3.
  rewrite Hdim. unfold vget. simpl nth.
  assert (Hd1' : d1 = if j =? 0 then 0 else R).
  { rewrite Hd1. destruct Hji as [[Hj Hi] | [Hj Hi]]; rewrite Hi.
    - rewrite Hj. reflexivity.
    - destruct (R =? 0) eqn:ER; [apply Nat.eqb_eq in ER; lia|].
      destruct (j =? 0) eqn:E0; [apply Nat.eqb_eq in E0; lia | reflexivity]. }
  assert (Hnd : n_line_data l = 0 <-> j = 0).
  { rewrite Hrows. destruct Hji as [[Hj Hi] | [Hj Hi]]; lia. }
  destruct (j =? 1) eqn:Ej.
  - apply Nat.eqb_eq in Ej. eexists. split; [reflexivity|].
    constructor; simpl.
    + exact Hf.
    + exact Hd.
    + exists d0, d1. split; [reflexivity|]. split; [exact Hd0|].
      rewrite Hd1', Ej. reflexivity.
    + reflexivity.
    + split; intros; lia.
    + rewrite Hnd. split; intros; lia.
    + exact Hrl.
    + rewrite Hcur, Ej. simpl. lia.
  - apply Nat.eqb_neq in Ej.
    assert (Hcc : (col_len_cur l =? col_len l) = true).
    { apply Nat.eqb_eq. rewrite Hcur, Hcl. destruct Hji as [[Hj Hi] | [Hj Hi]]; rewrite Hi.
      - rewrite Hj. reflexivity.
      - destruct (2 <=? j) eqn:E2; [reflexivity | apply Nat.leb_gt in E2; lia]. }
    rewrite Hcc. simpl negb. cbv iota. eexists. split; [reflexivity|].
    constructor; simpl.
    + exact Hf.
    + exact Hd.
    + exists d0, d1. split; [reflexivity|]. split; [exact Hd0|].
      rewrite Hd1'. destruct j as [|[|j]]; reflexivity || lia.
    + reflexivity.
    + split; intros; lia.
    + rewrite Hnd. split; intros; lia.
    + exact Hrl.
    + rewrite Hcl. destruct j as [|[|j]]; reflexivity || lia.
Qed.



End SliceOfBlocks.

(** *** The text of a matrix given by its rows *)




Section TextOfMatrix.
Context {T : Type} `{Element T}.
Variables precision width n_tot : nat.










End TextOfMatrix.

Section ReadSlice.
Context {T : Type} `{Element T}.
Variables precision width n_tot : nat.
Variable valid : T -> Prop.
Hypothesis codec : exact_text precision valid.
Variables C R : nat.
Hypothesis C_positive : 0 < C.
Hypothesis R_positive : 0 < R.








End ReadSlice.

(** *** Reading the slices of a text *)

Section ReadText.
Context {T : Type} `{Element T}.
Variable base : MatrixBase.
Variables precision width n_tot : nat.
Variable valid : T -> Prop.
Hypothesis codec : exact_text precision valid.
Variables C R D3 : nat.
Hypothesis C_positive : 0 < C.
Hypothesis R_positive : 0 < R.
Hypothesis D3_positive : 0 < D3.






Lemma slices_loop_S n f s found (m : ctor_locals (T := T)) :
  slices_loop (S n) f s found m
  = if failbit f then Throw ReadError
    else if length s =? 0 then Throw EmptyLine
    else if found then
      match get_3d_slice f [] with
      | Ok (file', buffer_t, dim, found') =>
          let data' := this_data m ++ buffer_t in
          let size' := this_data_size m + length buffer_t in
          let continue dim' :=
            let m' := mk_ctor (vset dim' 3 (S (vget dim' 3))) data' size' in
            if found' then slices_loop n file' s found' m'
            else Ok (file', m') in
          if vget (this_dim m) 3 =? 0 then
            continue (vset (vset (vset (this_dim m) 0 (vget dim 0)) 1 (vget dim 1))
                        2 (vget dim 2))
          else if negb (vget dim 0 =? vget (this_dim m) 0)
               || negb (vget dim 1 =? vget (this_dim m) 1)
               || negb (vget dim 2 =? vget (this_dim m) 2)
          then Throw VariableDimensions
          else continue (this_dim m)
      | Throw e => Throw e
      | Undefined => Undefined
      end
    else if negb found && negb (eofbit f) then Throw ReadError
    else Ok (f, m).
Proof. reflexivity. Qed.



End ReadText.

(** *** The text of a matrix is read back *)

Section ReadRendered.
Context {T : Type} `{Element T}.
Variable base : MatrixBase.
Variables precision width : nat.
Variable valid : T -> Prop.
Hypothesis codec : exact_text precision valid.
Variables C R D3 : nat.
Hypothesis C_positive : 0 < C.
Hypothesis R_positive : 0 < R.
Hypothesis D3_positive : 0 < D3.


End ReadRendered.

(** *** The text [print] writes *)












Lemma index_in_range a A b B : a < A -> b < B -> a * B + b < A * B.
Proof. intros Ha Hb. nia. Qed.

Section PrintText.
Context {T : Type} `{Element T}.
Variable base : MatrixBase.
Variables precision width : nat.
Variable m : Matrix4D (T := T).
Variables C R D3 D4 : nat.
Hypothesis Hdim : _dim m = [C; R; D3; D4].
Hypothesis Hget : get_dim base [C; R; D3; D4] = [R; C; D3; D4].
Hypothesis Ht1 : _dim1_offsets m = offsets_table R C.
Hypothesis Ht2 : _dim2_offsets m = offsets_table C 1.
Hypothesis Ht3 : _dim3_offsets m = offsets_table D3 (C * R).
Hypothesis Ht4 : _dim4_offsets m = offsets_table D4 (C * R * D3).
Hypothesis Hlen : length (_data m) = C * R * D3 * D4.
Hypothesis C_positive : 0 < C.
Hypothesis R_positive : 0 < R.
Hypothesis D3_positive : 0 < D3.
Hypothesis D4_positive : 0 < D4.
Hypothesis Hint : (Z.of_nat (C * R * D3 * D4) <= IntElement.INT_MAX)%Z.







Let n_tot := C * R * D3 * D4.
Let dim := [R; C; D3; D4].







End PrintText.

(** *** The values of the text are the buffer *)

Lemma seq_from n len : seq n len = map (fun j => n + j) (seq 0 len).
Proof.
  revert n; induction len as [|len IH]; intros n; simpl; [reflexivity|].
  rewrite Nat.add_0_r. f_equal. rewrite (IH (S n)), <- (seq_shift len 0), map_map.
  apply map_ext. intros j. lia.
Qed.

(** Rows of [b] entries one after the other enumerate [a * b] entries. *)
Lemma concat_rows (A : Type) (f : nat -> A) (a b : nat) :
  concat (map (fun i => map (fun j => f (i * b + j)) (seq 0 b)) (seq 0 a))
  = map f (seq 0 (a * b)).
Proof.
  induction a as [|a IH]; [reflexivity|].
  rewrite seq_S, map_app, concat_app, IH. simpl map at 2. simpl concat.
  rewrite List.app_nil_r.
  replace (S a * b) with (a * b + b) by lia.
  rewrite seq_app, map_app. f_equal.
  simpl Nat.add. rewrite (seq_from (a * b) b), map_map. reflexivity.
Qed.

Lemma map_nth_seq (A : Type) (l : list A) (d : A) :
  map (fun i => nth i l d) (seq 0 (length l)) = l.
Proof.
  induction l as [|x l IH]; [reflexivity|]. simpl. f_equal.
  rewrite <- seq_shift, map_map. exact IH.
Qed.

Section ValuesOfText.
Context {T : Type} `{Element T}.
Variable m : Matrix4D (T := T).
Variables C R D3 D4 : nat.
Hypothesis Hlen : length (_data m) = C * R * D3 * D4.
Variable valid : T -> Prop.
Hypothesis Hvalid : Forall valid (_data m).




End ValuesOfText.

(** *** The round trip *)

Section RoundTrip.
Context {T : Type} `{Element T}.
Variable base : MatrixBase.

(** A matrix as the constructors leave it: four dimensions, a buffer of
    as many elements as their product, the strides of the base class, and
    the offset tables [compute_dimK_offsets] fill from them. *)
Definition well_formed (m : Matrix4D (T := T)) : Prop :=
  length (_dim m) = 4 /\
  _dim_size m = 4 /\
  length (_data m) = fold_left Nat.mul (_dim m) 1 /\
  _data_size m = length (_data m) /\
  _dim_prod m = compute_dim_product base (_dim m) /\
  compute_offsets (allocate_offsets m) = Some m.



(** The matrices the constructor with dimensions builds are well formed,
    when the base class stores the sizes with the first two exchanged. *)
Lemma ctor_well_formed dim1 dim2 dim3 dim4 (value : T) m :
  ctor_exchanges base ->
  Matrix4D_ctor base dim1 dim2 dim3 dim4 value = Some m ->
  well_formed m /\ _dim m = [dim2; dim1; dim3; dim4].
Proof.
  intros Hx. unfold Matrix4D_ctor, Matrix_ctor. rewrite (Hx dim1 dim2 dim3 dim4).
  unfold compute_offsets.
  unfold compute_dim1_offsets; simpl. rewrite fill_offsets_fresh.
  unfold compute_dim2_offsets; simpl. rewrite fill_offsets_fresh.
  unfold compute_dim3_offsets; simpl. rewrite fill_offsets_fresh.
  unfold compute_dim4_offsets; simpl. rewrite fill_offsets_fresh.
  intros E; inversion E; subst; clear E.
  split; [|reflexivity].
  unfold well_formed. rewrite compute_offsets_allocated. simpl.
  rewrite repeat_length. repeat split.
Qed.

End RoundTrip.

(** *** Integers are written as a text that reads back *)

Lemma span_digits_app ds rest :
  Forall (fun c => isdigit c = true) ds ->
  IntElement.span_digits (ds ++ space :: rest) = (ds, space :: rest).
Proof.
  induction 1 as [|c ds Hc Hds IH]; simpl.
  - reflexivity.
  - rewrite Hc, IH. reflexivity.
Qed.

Lemma digit_is_not_space c : isdigit c = true -> isspace c = false.
Proof.
  unfold isdigit, isspace. cbv zeta. intros Hd.
  apply andb_true_iff in Hd. destruct Hd as [H1 H2].
  apply Nat.leb_le in H1. apply Nat.leb_le in H2.
  apply orb_false_iff. split.
  - apply Nat.eqb_neq. lia.
  - apply andb_false_iff. right. apply Nat.leb_gt. lia.
Qed.

Lemma digit_is_no_sign c :
  isdigit c = true -> Ascii.eqb c "-" = false /\ Ascii.eqb c "+" = false.
Proof.
  intros Hd. split; apply Ascii.eqb_neq; intros ->; discriminate.
Qed.

Lemma to_int_shape (z : Z) :
  exists u, u <> Decimal.Nil /\
    (Z.to_int z = Decimal.Pos u \/ Z.to_int z = Decimal.Neg u).
Proof.
  destruct z as [|p|p]; simpl.
  - exists (Decimal.D0 Decimal.Nil). split; [discriminate | now left].
  - exists (Pos.to_uint p). split; [apply DecimalPos.Unsigned.to_uint_nonnil | now left].
  - exists (Pos.to_uint p). split; [apply DecimalPos.Unsigned.to_uint_nonnil | now right].
Qed.

Lemma nonnil_text (u : Decimal.uint) :
  u <> Decimal.Nil ->
  DecimalString.NilZero.string_of_uint u = DecimalString.NilEmpty.string_of_uint u /\
  exists c r,
    list_ascii_of_string (DecimalString.NilEmpty.string_of_uint u) = c :: r /\
    isdigit c = true.
Proof.
  intros Hu. split.
  - destruct u; try reflexivity. now elim Hu.
  - pose proof (uint_text_digits u) as Hd.
    destruct u; try (now elim Hu); simpl in *;
      eexists; eexists; (split; [reflexivity|]); reflexivity.
Qed.

(** What [write_int] writes: the digits of the absolute value, after a
    [-] below zero. *)
Lemma write_int_shape precision (z : Z) :
  exists (neg : bool) (u : Decimal.uint) c r,
    let ds := list_ascii_of_string (DecimalString.NilEmpty.string_of_uint u) in
    ds = c :: r /\ Forall (fun c => isdigit c = true) ds /\
    IntElement.write_int precision z = (if neg then ["-"%char] else []) ++ ds /\
    Z.of_int (if neg then Decimal.Neg u else Decimal.Pos u) = z.
Proof.
  destruct (to_int_shape z) as [u [Hu Hz]].
  destruct (@nonnil_text u Hu) as [Et [c [r [Ec Hc]]]].
  pose proof (DecimalZ.of_to z) as Hback.
  destruct Hz as [Hz|Hz]; [exists false | exists true]; exists u, c, r; cbv zeta.
  all: split; [exact Ec|]; split; [apply uint_text_digits|].
  all: unfold IntElement.write_int; rewrite Hz in *; simpl;
       rewrite Et; split; [reflexivity | exact Hback].
Qed.

Lemma read_int_digits (neg : bool) (u : Decimal.uint) c r rest :
  let ds := list_ascii_of_string (DecimalString.NilEmpty.string_of_uint u) in
  let v := Z.of_int (if neg then Decimal.Neg u else Decimal.Pos u) in
  ds = c :: r -> Forall (fun c => isdigit c = true) ds ->
  IntElement.in_range v = true ->
  IntElement.read_int (((if neg then ["-"%char] else []) ++ ds) ++ space :: rest)
  = (Some v, space :: rest, false).
Proof.
  intros ds v Eds Hds Hv.
  assert (Hc : isdigit c = true).
  { rewrite Eds in Hds. now apply Forall_cons_iff in Hds. }
  destruct (@digit_is_no_sign c Hc) as [Hm Hp].
  assert (Hspan : IntElement.span_digits (ds ++ space :: rest) = (ds, space :: rest))
    by now apply span_digits_app.
  assert (Hu : DecimalString.NilEmpty.uint_of_string (string_of_list_ascii ds) = Some u).
  { unfold ds. rewrite string_of_list_ascii_of_string. apply DecimalString.NilEmpty.usu. }
  clearbody ds. unfold IntElement.read_int.
  destruct neg; simpl app.
  - cbv beta iota. rewrite Ascii.eqb_refl. cbv beta iota. rewrite Hspan.
    rewrite Eds at 1. cbv beta iota. rewrite Hu. fold v. rewrite Hv.
    reflexivity.
  - rewrite Eds at 1. simpl app. cbv beta iota. rewrite Hm, Hp. cbv beta iota.
    rewrite Hspan. rewrite Eds at 1. cbv beta iota.
    rewrite Hu. fold v. rewrite Hv. reflexivity.
Qed.

(** The [int]s are written exactly, at any precision. *)
Lemma int_exact_text precision :
  exact_text (T := Z) precision (fun z => IntElement.in_range z = true).
Proof.
  constructor.
  - intros x _. destruct (write_int_shape precision x)
      as [neg [u [c [r [Eds [Hds [Ew _]]]]]]].
    assert (Hc : isdigit c = true).
    { rewrite Eds in Hds. now apply Forall_cons_iff in Hds. }
    simpl write_value. rewrite Ew, Eds. destruct neg; simpl.
    + eexists; eexists; split; [reflexivity|]. split; [reflexivity | discriminate].
    + eexists; eexists; split; [reflexivity|].
      split; [now apply digit_is_not_space | now apply digit_is_not_comma].
  - intros x _. destruct (write_int_shape precision x)
      as [neg [u [c [r [Eds [Hds [Ew _]]]]]]].
    simpl write_value. rewrite Ew. intros Hin. apply in_app_or in Hin.
    destruct Hin as [Hin|Hin].
    + destruct neg; simpl in Hin; [destruct Hin as [E|[]]; discriminate | exact Hin].
    + revert Hin. now apply digits_not_in.
  - intros x rest Hx. destruct (write_int_shape precision x)
      as [neg [u [c [r [Eds [Hds [Ew Hback]]]]]]].
    simpl write_value. simpl read_value. rewrite Ew.
    rewrite (@read_int_digits neg u c r rest Eds Hds) by (rewrite Hback; exact Hx).
    rewrite Hback. reflexivity.
Qed.

(** *** The base class the witnesses use *)

Lemma exchanging_base_ctor : ctor_exchanges exchanging_base.
Proof. intros d1 d2 d3 d4. reflexivity. Qed.


Lemma exchanging_base_strides : strides_from_first_axis exchanging_base.
Proof.
  intros d0 d1 d2 d3. simpl. rewrite Nat.add_0_r. reflexivity.
Qed.

(** The matrix of 2 rows, 3 columns, 2 blocks and 1 slice that holds 1 to
    12. *)
Definition one_to_twelve : Matrix4D (T := Z) :=
  mk_Matrix4D [3; 2; 2; 1] (map Z.of_nat (seq 1 12)) 4 12 [1; 3; 6; 12]
    [0; 3] [0; 1; 2] [0; 6] [0].


(** The separator is part of the format: with a comma in its place the
    text [print] writes is not read back, the reader stops at the first
    comma of a row. *)
Example comma_separated_text_is_rejected :
  exists text,
    print exchanging_base one_to_twelve 4 8 comma = Some text /\
    Matrix4D_from_file (T := Z) exchanging_base (Some text)
    = Throw IncompatibleDataTypes.
Proof.
  eexists. split; [vm_compute; reflexivity|]. vm_compute. reflexivity.
Qed.



(** What [print] and the file constructor need of the base class.  With a
    [get_dim()] that returns [_dim] as it is stored, [print] runs its loop
    over the rows up to the number of columns and reads a table outside its
    bounds.  With strides that make the last axis the fastest, [print]
    writes the values the file constructor stored in another order. *)
Definition stored_order_base : MatrixBase :=
  mk_base swap_coord (fun dim => dim) (cumulative_products 1).

Fixpoint products_of_later_axes (dim : list nat) : list nat :=
  match dim with
  | [] => []
  | _ :: r => fold_left Nat.mul r 1 :: products_of_later_axes r
  end.

Definition last_axis_fastest_base : MatrixBase :=
  mk_base swap_coord swap_coord products_of_later_axes.

Example print_relies_on_the_base_class :
  print stored_order_base one_to_twelve 4 8 space = None /\
  exists m text text' m',
    Matrix4D_from_file (T := Z) last_axis_fastest_base (Some text) = Ok m /\
    well_formed last_axis_fastest_base m /\
    print last_axis_fastest_base m 4 8 space = Some text' /\
    Matrix4D_from_file (T := Z) last_axis_fastest_base (Some text') = Ok m' /\
    _data m' <> _data m.
Proof.
  split; [vm_compute; reflexivity|].
  exists (mk_Matrix4D [3; 2; 2; 1] (map Z.of_nat (seq 1 12)) 4 12 [4; 2; 1; 1]
            [0; 2] [0; 4; 8] [0; 1] [0]).
  exists (unlines [str ",,,0"; str ",,0"; str "1 2 3"; str "4 5 6";
                   str ",,1"; str "7 8 9"; str "10 11 12"]).
  eexists. eexists. split; [vm_compute; reflexivity|]. split; [repeat split|].
  split; [vm_compute; reflexivity|]. split; [vm_compute; reflexivity|].
  discriminate.
Qed.

(** * Further properties of the two classes *)

(** ** Addressing the buffer of a [Matrix4D] *)

Section Addressing.
Context {T : Type} `{Element T}.
Variable base : MatrixBase.

(** The coordinates [operator()] takes when each is inside its axis: the
    first argument runs over [_dim[1]], the second over [_dim[0]]. *)
Definition inside_axes (m : Matrix4D (T := T)) (d1 d2 d3 d4 : nat) : Prop :=
  d1 < vget (_dim m) 1 /\ d2 < vget (_dim m) 0 /\
  d3 < vget (_dim m) 2 /\ d4 < vget (_dim m) 3.

(** What a well-formed matrix holds, under the strides of the base class. *)
Lemma well_formed_layout (m : Matrix4D (T := T)) :
  strides_from_first_axis base -> well_formed base m ->
  exists C R D3 D4,
    _dim m = [C; R; D3; D4] /\
    _dim1_offsets m = offsets_table R C /\
    _dim2_offsets m = offsets_table C 1 /\
    _dim3_offsets m = offsets_table D3 (C * R) /\
    _dim4_offsets m = offsets_table D4 (C * R * D3) /\
    length (_data m) = C * R * D3 * D4.
Proof.
  intros Hstr [Hl4 [_ [Hlen [_ [Hdp Htab]]]]].
  rewrite compute_offsets_allocated in Htab.
  destruct m as [dim data ds dsz dp t1 t2 t3 t4].
  simpl in Hl4, Hlen, Hdp, Htab. simpl.
  destruct dim as [|C [|R [|D3 [|D4 [|]]]]]; try discriminate.
  exists C, R, D3, D4. subst dp.
  rewrite (Hstr C R D3 D4) in Htab. unfold vget in Htab. simpl nth in Htab.
  injection Htab as Et1 Et2 Et3 Et4.
  split; [reflexivity|]. split; [now symmetry|]. split; [now symmetry|].
  split; [now symmetry|]. split; [now symmetry|].
  rewrite Hlen. simpl. lia.
Qed.

Lemma offsets_table_none n stride k :
  n <= k -> nth_error (offsets_table n stride) k = None.
Proof.
  intros Hk. apply nth_error_None. rewrite offsets_table_length. exact Hk.
Qed.

Lemma mixed_radix_bound C R D3 D4 d1 d2 d3 d4 :
  d1 < R -> d2 < C -> d3 < D3 -> d4 < D4 ->
  d2 + C * (d1 + R * (d3 + D3 * d4)) < C * R * D3 * D4.
Proof.
  intros H1 H2 H3 H4.
  pose proof (@index_in_range d4 D4 d3 D3 H4 H3) as Ha.
  pose proof (@index_in_range _ _ d1 R Ha H1) as Hb.
  pose proof (@index_in_range _ _ d2 C Hb H2) as Hc.
  replace (d2 + C * (d1 + R * (d3 + D3 * d4)))
    with (((d4 * D3 + d3) * R + d1) * C + d2) by lia.
  replace (C * R * D3 * D4) with (D4 * D3 * R * C) by lia. exact Hc.
Qed.

Lemma mixed_radix_unique C R D3 a1 a2 a3 a4 b1 b2 b3 b4 :
  a1 < R -> a2 < C -> a3 < D3 -> b1 < R -> b2 < C -> b3 < D3 ->
  a2 + C * (a1 + R * (a3 + D3 * a4)) = b2 + C * (b1 + R * (b3 + D3 * b4)) ->
  a1 = b1 /\ a2 = b2 /\ a3 = b3 /\ a4 = b4.
Proof.
  intros Ha1 Ha2 Ha3 Hb1 Hb2 Hb3 E.
  destruct (Nat.div_mod_unique C (a1 + R * (a3 + D3 * a4)) (b1 + R * (b3 + D3 * b4))
              a2 b2 Ha2 Hb2) as [E1 E2]; [lia|].
  destruct (Nat.div_mod_unique R (a3 + D3 * a4) (b3 + D3 * b4) a1 b1 Ha1 Hb1)
    as [E3 E4]; [lia|].
  destruct (Nat.div_mod_unique D3 a4 b4 a3 b3 Ha3 Hb3) as [E5 E6]; [lia|].
  repeat split; assumption.
Qed.

Lemma layout_offset (m : Matrix4D (T := T)) C R D3 D4 d1 d2 d3 d4 :
  _dim1_offsets m = offsets_table R C ->
  _dim2_offsets m = offsets_table C 1 ->
  _dim3_offsets m = offsets_table D3 (C * R) ->
  _dim4_offsets m = offsets_table D4 (C * R * D3) ->
  d1 < R -> d2 < C -> d3 < D3 -> d4 < D4 ->
  convert_to_offset m d1 d2 d3 d4 = Some (d2 + C * (d1 + R * (d3 + D3 * d4))).
Proof.
  intros E1 E2 E3 E4 H1 H2 H3 H4. unfold convert_to_offset.
  rewrite E1, E2, E3, E4, !offsets_table_nth by assumption.
  f_equal. lia.
Qed.

(** X1: the offset [convert_to_offset] computes: inside the axes it is the
    position [dim2 + _dim[0] * (dim1 + _dim[1] * (dim3 + _dim[2] * dim4))],
    which is inside the buffer; with a coordinate outside its axis a table
    is read past its end. *)
Theorem offset_of_coordinates (m : Matrix4D (T := T)) :
  strides_from_first_axis base -> well_formed base m ->
  forall d1 d2 d3 d4,
    (inside_axes m d1 d2 d3 d4 ->
     convert_to_offset m d1 d2 d3 d4
     = Some (d2 + vget (_dim m) 0 * (d1 + vget (_dim m) 1 * (d3 + vget (_dim m) 2 * d4))) /\
     d2 + vget (_dim m) 0 * (d1 + vget (_dim m) 1 * (d3 + vget (_dim m) 2 * d4))
     < length (_data m)) /\
    (~ inside_axes m d1 d2 d3 d4 -> convert_to_offset m d1 d2 d3 d4 = None).
Proof.
  intros Hstr Hwf d1 d2 d3 d4.
  destruct (well_formed_layout Hstr Hwf)
    as [C [R [D3 [D4 [Hd [E1 [E2 [E3 [E4 Hlen]]]]]]]]].
  unfold inside_axes. rewrite Hd. unfold vget. simpl nth. split.
  - intros [H1 [H2 [H3 H4]]]. split.
    + now apply layout_offset with (D4 := D4).
    + rewrite Hlen. now apply mixed_radix_bound.
  - intros Hout. unfold convert_to_offset. rewrite E1, E2, E3, E4.
    destruct (Nat.lt_ge_cases d1 R) as [H1|H1];
      [|rewrite (offsets_table_none _ H1); reflexivity].
    rewrite (offsets_table_nth _ H1).
    destruct (Nat.lt_ge_cases d2 C) as [H2|H2];
      [|rewrite (offsets_table_none _ H2); reflexivity].
    rewrite (offsets_table_nth _ H2).
    destruct (Nat.lt_ge_cases d3 D3) as [H3|H3];
      [|rewrite (offsets_table_none _ H3); reflexivity].
    rewrite (offsets_table_nth _ H3).
    destruct (Nat.lt_ge_cases d4 D4) as [H4|H4];
      [|rewrite (offsets_table_none _ H4); reflexivity].
    exfalso. apply Hout. repeat split; assumption.
Qed.

(** X2: coordinates and slots of the buffer are in bijection: two quadruples
    inside the axes with the same offset are equal, and every index of the
    buffer is the offset of a quadruple inside the axes. *)
Theorem coordinates_and_offsets (m : Matrix4D (T := T)) :
  strides_from_first_axis base -> well_formed base m ->
  (forall a1 a2 a3 a4 b1 b2 b3 b4,
     inside_axes m a1 a2 a3 a4 -> inside_axes m b1 b2 b3 b4 ->
     convert_to_offset m a1 a2 a3 a4 = convert_to_offset m b1 b2 b3 b4 ->
     a1 = b1 /\ a2 = b2 /\ a3 = b3 /\ a4 = b4) /\
  (forall o, o < length (_data m) ->
     exists d1 d2 d3 d4,
       inside_axes m d1 d2 d3 d4 /\ convert_to_offset m d1 d2 d3 d4 = Some o).
Proof.
  intros Hstr Hwf.
  destruct (well_formed_layout Hstr Hwf)
    as [C [R [D3 [D4 [Hd [E1 [E2 [E3 [E4 Hlen]]]]]]]]].
  unfold inside_axes. rewrite Hd, Hlen. unfold vget. simpl nth. split.
  - intros a1 a2 a3 a4 b1 b2 b3 b4 [Ha1 [Ha2 [Ha3 Ha4]]] [Hb1 [Hb2 [Hb3 Hb4]]].
    rewrite (@layout_offset m C R D3 D4 a1 a2 a3 a4) by assumption.
    rewrite (@layout_offset m C R D3 D4 b1 b2 b3 b4) by assumption.
    intros E. injection E as E. now apply mixed_radix_unique with (C := C) (R := R) (D3 := D3).
  - intros o Ho.
    assert (HC : C <> 0) by (intros ->; simpl in Ho; lia).
    assert (HR : R <> 0) by (intros ->; rewrite Nat.mul_0_r in Ho; simpl in Ho; lia).
    assert (H3 : D3 <> 0) by (intros ->; rewrite Nat.mul_0_r in Ho; simpl in Ho; lia).
    exists ((o / C) mod R), (o mod C), ((o / C / R) mod D3), (o / C / R / D3).
    assert (Hq1 : o / C < R * (D3 * D4)).
    { apply Nat.Div0.div_lt_upper_bound. lia. }
    assert (Hq2 : o / C / R < D3 * D4).
    { apply Nat.Div0.div_lt_upper_bound. lia. }
    assert (Hq3 : o / C / R / D3 < D4).
    { apply Nat.Div0.div_lt_upper_bound. lia. }
    pose proof (Nat.mod_upper_bound o C HC) as Hm1.
    pose proof (Nat.mod_upper_bound (o / C) R HR) as Hm2.
    pose proof (Nat.mod_upper_bound (o / C / R) D3 H3) as Hm3.
    split; [repeat split; assumption|].
    rewrite (@layout_offset m C R D3 D4) by assumption. f_equal.
    pose proof (Nat.div_mod_eq o C) as D1.
    pose proof (Nat.div_mod_eq (o / C) R) as D2.
    pose proof (Nat.div_mod_eq (o / C / R) D3) as D3'.
    replace ((o / C / R) mod D3 + D3 * (o / C / R / D3)) with (o / C / R) by lia.
    replace ((o / C) mod R + R * (o / C / R)) with (o / C) by lia.
    lia.
Qed.

End Addressing.

(** C-style updates of a vector, read back. *)
Lemma nth_error_vset_eq (A : Type) (v : list A) i x :
  i < length v -> nth_error (vset v i x) i = Some x.
Proof.
  revert i; induction v as [|a r IH]; intros [|i] Hi; simpl in *; try lia.
  - reflexivity.
  - apply IH. lia.
Qed.

Lemma nth_error_vset_neq (A : Type) (v : list A) i k x :
  i <> k -> nth_error (vset v i x) k = nth_error v k.
Proof.
  revert i k; induction v as [|a r IH]; intros [|i] [|k] Hik; simpl; try reflexivity.
  - contradiction.
  - apply IH. lia.
Qed.

Section Assignment.
Context {T : Type} `{Element T}.
Variable base : MatrixBase.

(** X3: writing through [operator()] and reading back: inside the axes the
    assignment is defined, the element written is the one read at the same
    coordinates, every element at other coordinates is as before, and the
    dimensions, strides and tables are untouched (the matrix is still well
    formed). *)
Theorem assign_then_read (m : Matrix4D (T := T)) :
  strides_from_first_axis base -> well_formed base m ->
  forall d1 d2 d3 d4 (value : T),
    inside_axes m d1 d2 d3 d4 ->
    exists m',
      assign m d1 d2 d3 d4 value = Some m' /\
      at_ m' d1 d2 d3 d4 = Some value /\
      (forall c1 c2 c3 c4,
         inside_axes m c1 c2 c3 c4 ->
         (c1, c2, c3, c4) <> (d1, d2, d3, d4) ->
         at_ m' c1 c2 c3 c4 = at_ m c1 c2 c3 c4) /\
      _dim m' = _dim m /\ well_formed base m'.
Proof.
  intros Hstr Hwf d1 d2 d3 d4 value Hin.
  destruct (well_formed_layout Hstr Hwf)
    as [C [R [D3 [D4 [Hd [E1 [E2 [E3 [E4 Hlen]]]]]]]]].
  unfold inside_axes in *. rewrite Hd in *. unfold vget in *. simpl nth in *.
  destruct Hin as [H1 [H2 [H3 H4]]].
  pose proof (@layout_offset T m C R D3 D4 d1 d2 d3 d4 E1 E2 E3 E4 H1 H2 H3 H4) as Eo.
  pose proof (@mixed_radix_bound C R D3 D4 d1 d2 d3 d4 H1 H2 H3 H4) as Hb.
  set (o := d2 + C * (d1 + R * (d3 + D3 * d4))) in *.
  unfold assign. rewrite Eo. unfold vset_checked.
  assert (Ho : o < length (_data m)) by (rewrite Hlen; exact Hb).
  apply Nat.ltb_lt in Ho. rewrite Ho. apply Nat.ltb_lt in Ho.
  eexists. split; [reflexivity|]. split; [|split; [|split]].
  - unfold at_, convert_to_offset. simpl.
    unfold convert_to_offset in Eo. rewrite Eo.
    now apply nth_error_vset_eq.
  - intros c1 c2 c3 c4 [G1 [G2 [G3 G4]]] Hne.
    pose proof (@layout_offset T m C R D3 D4 c1 c2 c3 c4 E1 E2 E3 E4 G1 G2 G3 G4) as Ec.
    unfold at_. unfold convert_to_offset in *. simpl. rewrite Ec.
    apply nth_error_vset_neq. unfold o. intros E. apply Hne.
    destruct (@mixed_radix_unique C R D3 d1 d2 d3 d4 c1 c2 c3 c4) as [A1 [A2 [A3 A4]]];
      try assumption.
    congruence.
  - simpl. now rewrite Hd.
  - destruct Hwf as [Hl4 [Hds [Hl [Hdsz [Hdp Htab]]]]].
    unfold well_formed. simpl. rewrite vset_length.
    split; [assumption|]. split; [assumption|]. split; [assumption|].
    split; [assumption|]. split; [assumption|].
    rewrite compute_offsets_allocated in *. simpl.
    destruct m as [dim data ds dsz dp t1 t2 t3 t4]. simpl in *.
    injection Htab as A1 A2 A3 A4. rewrite A1, A2, A3, A4. reflexivity.
Qed.

End Assignment.

(** The three results at [one_to_twelve]. *)
Lemma one_to_twelve_well_formed : well_formed exchanging_base one_to_twelve.
Proof. repeat split. Qed.

Lemma offset_of_coordinates_witness :
  convert_to_offset one_to_twelve 1 2 1 0 = Some 11 /\
  11 < length (_data one_to_twelve).
Proof.
  apply (proj1 (@offset_of_coordinates Z exchanging_base one_to_twelve
                  exchanging_base_strides one_to_twelve_well_formed 1 2 1 0)).
  unfold inside_axes, one_to_twelve, vget. simpl. lia.
Defined.

Lemma coordinates_and_offsets_witness :
  exists d1 d2 d3 d4,
    inside_axes one_to_twelve d1 d2 d3 d4 /\
    convert_to_offset one_to_twelve d1 d2 d3 d4 = Some 7.
Proof.
  apply (proj2 (@coordinates_and_offsets Z exchanging_base one_to_twelve
                  exchanging_base_strides one_to_twelve_well_formed) 7).
  unfold one_to_twelve. simpl. lia.
Defined.

Lemma assign_then_read_witness :
  exists m',
    assign one_to_twelve 1 2 1 0 42%Z = Some m' /\
    at_ m' 1 2 1 0 = Some 42%Z /\
    (forall c1 c2 c3 c4,
       inside_axes one_to_twelve c1 c2 c3 c4 ->
       (c1, c2, c3, c4) <> (1, 2, 1, 0) ->
       at_ m' c1 c2 c3 c4 = at_ one_to_twelve c1 c2 c3 c4) /\
    _dim m' = _dim one_to_twelve /\ well_formed exchanging_base m'.
Proof.
  apply (@assign_then_read Z exchanging_base one_to_twelve
           exchanging_base_strides one_to_twelve_well_formed 1 2 1 0 42%Z).
  unfold inside_axes, one_to_twelve, vget. simpl. lia.
Defined.

(** ** Texts as lines *)

(** Every text is a list of terminated lines followed by characters with
    no terminator. *)
Lemma text_lines (text : list ascii) :
  exists ls tail,
    text = unlines ls ++ tail /\
    Forall (fun x => ~ In newline x) ls /\ ~ In newline tail.
Proof.
  induction text as [|c text [ls [tail [E [Hls Htail]]]]].
  - exists [], []. repeat split; [constructor | intros []].
  - destruct (Ascii.eqb c newline) eqn:Ec.
    + apply Ascii.eqb_eq in Ec. subst c.
      exists ([] :: ls), tail. split; [|split].
      * rewrite unlines_cons, <- E. reflexivity.
      * constructor; [intros [] | assumption].
      * assumption.
    + apply Ascii.eqb_neq in Ec. destruct ls as [|l ls].
      * exists [], (c :: tail). split; [|split].
        -- rewrite E. reflexivity.
        -- constructor.
        -- intros [Hc | Hin]; [now apply Ec | now apply Htail].
      * exists ((c :: l) :: ls), tail. split; [|split].
        -- rewrite E, !unlines_cons. reflexivity.
        -- apply Forall_cons_iff in Hls. destruct Hls as [Hl Hls].
           constructor; [|assumption].
           intros [Hc | Hin]; [now apply Ec | now apply Hl].
        -- assumption.
Qed.

Lemma vget_vset_eq v i x : i < length v -> vget (vset v i x) i = x.
Proof.
  unfold vget. revert i; induction v as [|a r IH]; intros [|i] Hi; simpl in *;
    try lia; try reflexivity.
  apply IH. lia.
Qed.

Lemma vget_vset_neq v i j x : i <> j -> vget (vset v i x) j = vget v j.
Proof.
  unfold vget. revert i j; induction v as [|a r IH]; intros [|i] [|j] Hij; simpl;
    try reflexivity.
  - contradiction.
  - apply IH. lia.
Qed.

(** ** The header recognizers together *)

(** X4: no line is both a 3D and a 4D header, and a header of either kind is
    not empty: the order in which [get_3d_slice] tests a line does not
    change what the line is taken for. *)
Theorem headers_are_disjoint :
  forall s,
    ~ (is_header_3d s = true /\ is_header_4d s = true) /\
    (is_header_3d s = true \/ is_header_4d s = true -> s <> []).
Proof.
  intros s. split.
  - intros [H3 H4]. apply is_header_3d_iff in H3. apply is_header_4d_iff in H4.
    destruct H3 as [r3 [E3 Hn3]]. destruct H4 as [r4 [E4 _]].
    rewrite E3 in E4. injection E4 as E4. subst r3. apply Hn3. now left.
  - intros [Hh | Hh] ->; discriminate.
Qed.

(** ** Lines the reader of [Matrix4D] refuses *)

Section RefusedLines.
Context {T : Type} `{Element T}.
Variable base : MatrixBase.

Lemma slice_line_break line (l l' : slice_locals (T := T)) :
  slice_line line l = Break l' -> found_4d_header l' = true.
Proof.
  unfold slice_line.
  destruct (length line =? 0); [discriminate|].
  destruct (is_header_4d line); [intros E; inversion E; reflexivity|].
  destruct (is_header_3d line).
  - destruct (vget (dim l) 2 =? 1); [discriminate|].
    destruct (negb (col_len_cur l =? col_len l)); discriminate.
  - destruct (n_line l =? 0); [discriminate|].
    destruct (extract_all line) as [ss vec].
    destruct (failbit ss && negb (eofbit ss)); [discriminate|].
    destruct (n_line_data l =? 0); [discriminate|].
    destruct (negb (length vec =? row_len l)); discriminate.
Qed.

(** With an empty line ahead, the loop of [get_3d_slice] throws, or it
    stops at a 4D header that comes before the empty line. *)
Lemma slice_run_empty_line tail :
  forall ls (l : slice_locals (T := T)),
    Forall (fun x => ~ In newline x) ls -> In [] ls ->
    match slice_run (open_stream (unlines ls ++ tail)) l with
    | Ok (f', l') =>
        found_4d_header l' = true /\
        exists ls', f' = open_stream (unlines ls' ++ tail) /\
                    Forall (fun x => ~ In newline x) ls' /\ In [] ls'
    | Throw _ => True
    | Undefined => False
    end.
Proof.
  induction ls as [|line ls IH]; intros l Hls Hin; [destruct Hin|].
  apply Forall_cons_iff in Hls. destruct Hls as [Hl Hls].
  rewrite unlines_cons, slice_run_line by assumption.
  destruct line as [|c line].
  - exact I.
  - destruct Hin as [Hin | Hin]; [discriminate|].
    destruct (slice_line (c :: line) l) as [l1|l1|e] eqn:Es.
    + apply IH; assumption.
    + split; [now apply slice_line_break in Es|].
      exists ls. repeat split; assumption.
    + exact I.
Qed.

Lemma get_3d_slice_empty_line tail ls (d0 : list T) :
  Forall (fun x => ~ In newline x) ls -> In [] ls ->
  match get_3d_slice (open_stream (unlines ls ++ tail)) d0 with
  | Ok (f', _, _, found) =>
      found = true /\
      exists ls', f' = open_stream (unlines ls' ++ tail) /\
                  Forall (fun x => ~ In newline x) ls' /\ In [] ls'
  | Throw _ => True
  | Undefined => False
  end.
Proof.
  intros Hls Hin. rewrite get_3d_slice_run.
  pose proof (@slice_run_empty_line tail ls (mk_slice false [0; 0; 0] d0 0 0 0 0 0 0)
                Hls Hin) as Hr.
  destruct (slice_run _ _) as [[f' l']| |]; [|exact I|exact Hr].
  destruct (negb (col_len_cur l' =? vget (dim l') 1)); [exact I|].
  exact Hr.
Qed.

Lemma slices_loop_empty_line tail :
  forall n ls s (m : ctor_locals (T := T)),
    length (unlines ls ++ tail) < n ->
    Forall (fun x => ~ In newline x) ls -> In [] ls -> s <> [] ->
    exists e, slices_loop n (open_stream (unlines ls ++ tail)) s true m = Throw e.
Proof.
  induction n as [|n IH]; intros ls s m Hn Hls Hin Hs; [lia|].
  rewrite slices_loop_S. simpl failbit. cbv iota.
  destruct s as [|c s]; [contradiction|].
  change (length (c :: s) =? 0) with false. cbv iota.
  pose proof (@get_3d_slice_empty_line tail ls [] Hls Hin) as Hg.
  destruct (get_3d_slice (open_stream (unlines ls ++ tail)) [])
    as [[[[f' d] dims] found']| |] eqn:Eg; [|eexists; reflexivity|destruct Hg].
  destruct Hg as [-> [ls' [-> [Hls' Hin']]]].
  apply get_3d_slice_shrinks in Eg. simpl buf in Eg. cbv zeta.
  destruct (vget (this_dim m) 3 =? 0).
  - apply IH; try assumption; lia.
  - destruct (_ || _); [eexists; reflexivity|].
    apply IH; try assumption; lia.
Qed.

(** X5: no empty line is allowed: a file with an empty line, other than the
    file that is one line terminator, makes the constructor throw. *)
Theorem empty_line_is_rejected :
  forall (ls : list (list ascii)) (tail : list ascii),
    Forall (fun x => ~ In newline x) ls -> ~ In newline tail ->
    In [] ls -> unlines ls ++ tail <> [newline] ->
    exists e, Matrix4D_from_file base (Some (unlines ls ++ tail)) = Throw e.
Proof.
  intros ls tail Hls Htail Hin Hone.
  destruct ls as [|line ls]; [destruct Hin|].
  apply Forall_cons_iff in Hls. destruct Hls as [Hl Hls].
  unfold Matrix4D_from_file. rewrite unlines_cons in *.
  rewrite getline_line by assumption.
  destruct line as [|c line].
  - change (length (@nil ascii) =? 0) with true. cbv iota.
    unfold peek, open_stream, good. simpl.
    destruct (unlines ls ++ tail) as [|c rest]; [now elim Hone|].
    eexists; reflexivity.
  - destruct Hin as [Hin | Hin]; [discriminate|].
    change (length (c :: line) =? 0) with false. cbv iota. simpl failbit. cbv iota.
    simpl buf.
    destruct (is_header_4d (c :: line)).
    + destruct (@slices_loop_empty_line tail (S (length (unlines ls ++ tail))) ls
                  (c :: line) (mk_ctor [0; 0; 0; 0] [] 0)) as [e Ee];
        try assumption; [lia | discriminate|].
      simpl _dim. simpl _data. simpl _data_size. rewrite Ee. eexists; reflexivity.
    + rewrite slices_loop_S. simpl. eexists; reflexivity.
Qed.

(** X6: the line that follows a 4D header must be a 3D header: when it is
    neither a 3D nor a 4D header the constructor throws "first line is not
    a slice header", whether the line ends the file or not. *)
Theorem line_after_4d_header_must_be_a_header :
  forall (h line rest : list ascii),
    ~ In newline h -> is_header_4d h = true ->
    line <> [] -> ~ In newline line ->
    is_header_3d line = false -> is_header_4d line = false ->
    Matrix4D_from_file base (Some (h ++ newline :: line ++ newline :: rest))
    = Throw FirstLineNotHeader /\
    Matrix4D_from_file base (Some (h ++ newline :: line)) = Throw FirstLineNotHeader.
Proof.
  intros h line rest Hh H4 Hne Hl N3 N4.
  assert (Es : forall l0 : slice_locals (T := T),
            n_line l0 = 0 -> slice_line line l0 = Raise FirstLineNotHeader).
  { intros l0 Hn. unfold slice_line. destruct line as [|c line]; [contradiction|].
    change (length (c :: line) =? 0) with false. cbv iota.
    rewrite N4, N3, Hn. reflexivity. }
  assert (Hh0 : h <> []) by (intros ->; discriminate).
  split; unfold Matrix4D_from_file; rewrite getline_line by assumption;
    destruct h as [|c h]; try contradiction;
    change (length (c :: h) =? 0) with false; cbv iota; simpl failbit; cbv iota;
    rewrite H4, slices_loop_S; simpl failbit; cbv iota;
    change (length (c :: h) =? 0) with false; cbv iota;
    rewrite get_3d_slice_run.
  - rewrite slice_run_line by assumption. rewrite Es by reflexivity. reflexivity.
  - rewrite slice_run_last by assumption. rewrite Es by reflexivity. reflexivity.
Qed.

End RefusedLines.

Lemma empty_line_is_rejected_witness :
  exists e,
    Matrix4D_from_file (T := Z) exchanging_base
      (Some (unlines [str ",,,0"; str ",,0"; str "1 2"; []; str "3 4"] ++ []))
    = Throw e.
Proof.
  apply (@empty_line_is_rejected Z _ exchanging_base
           [str ",,,0"; str ",,0"; str "1 2"; []; str "3 4"] []).
  - repeat constructor; simpl; intros Hc;
      repeat (destruct Hc as [Hc|Hc]; [discriminate|]); exact Hc.
  - intros [].
  - simpl. right. right. right. left. reflexivity.
  - discriminate.
Defined.

Lemma line_after_4d_header_must_be_a_header_witness :
  Matrix4D_from_file (T := Z) exchanging_base
    (Some (str ",,,0" ++ newline :: str "1 2 3" ++ newline :: str "4 5 6"))
  = Throw FirstLineNotHeader /\
  Matrix4D_from_file (T := Z) exchanging_base
    (Some (str ",,,0" ++ newline :: str "1 2 3")) = Throw FirstLineNotHeader.
Proof.
  apply (@line_after_4d_header_must_be_a_header Z _ exchanging_base
           (str ",,,0") (str "1 2 3") (str "4 5 6")).
  - simpl. intros Hc. repeat (destruct Hc as [Hc|Hc]; [discriminate|]). exact Hc.
  - reflexivity.
  - discriminate.
  - simpl. intros Hc. repeat (destruct Hc as [Hc|Hc]; [discriminate|]). exact Hc.
  - reflexivity.
  - reflexivity.
Defined.

(** ** What every matrix read from a file satisfies *)

(** A property of the variables that every iteration of the line loop
    keeps holds when the loop ends. *)
Lemma while_getline_invariant (St : Type) (P : St -> Prop)
  (body : istream -> list ascii -> St -> flow St) :
  (forall f line st st', P st -> body f line st = Next st' -> P st') ->
  (forall f line st st', P st -> body f line st = Break st' -> P st') ->
  forall n f s st f' line' st',
    P st -> while_getline n body f s st = Ok (f', line', st') -> P st'.
Proof.
  intros Hnext Hbreak.
  induction n as [|n IH]; intros f s st f' line' st' HP E; [discriminate|].
  rewrite while_getline_S in E.
  destruct (getline f s) as [f1 line1].
  destruct (failbit f1).
  - inversion E; subst. exact HP.
  - destruct (body f1 line1 st) as [st1|st1|e] eqn:Eb.
    + eapply IH; [|exact E]. eapply Hnext; eassumption.
    + inversion E; subst. eapply Hbreak; eassumption.
    + discriminate.
Qed.

Section ReadInvariant.
Context {T : Type} `{Element T}.
Variable base : MatrixBase.

(** The rows [get_3d_slice] has pushed all hold [row_len] values, and
    [dim[0]] is that number once a row was read. *)
Definition rows_invariant (d0 : list T) (l : slice_locals (T := T)) : Prop :=
  length (dim l) = 3 /\
  length (data l) = length d0 + n_line_data l * row_len l /\
  (n_line_data l = 0 -> vget (dim l) 0 = 0) /\
  (n_line_data l <> 0 -> vget (dim l) 0 = row_len l).

Lemma slice_body_rows d0 f line (l l' : slice_locals (T := T)) :
  rows_invariant d0 l ->
  slice_body f line l = Next l' \/ slice_body f line l = Break l' ->
  rows_invariant d0 l'.
Proof.
  intros [Hd [Hlen [H0 H1]]]. unfold slice_body, slice_line.
  destruct (failbit f); [intros [E|E]; discriminate|].
  destruct (length line =? 0); [intros [E|E]; discriminate|].
  destruct (is_header_4d line).
  { intros [E|E]; inversion E; subst; clear E. repeat split; assumption. }
  destruct (is_header_3d line).
  { assert (Hkeep : forall cl cc,
              rows_invariant d0
                (mk_slice (found_4d_header l) (vset (dim l) 2 (S (vget (dim l) 2)))
                   (data l) (S (n_line l)) (n_line_data l) (row_len l) cl
                   (row_len_cur l) cc)).
    { intros cl cc. unfold rows_invariant. simpl.
      rewrite vset_length, vget_vset_neq by lia. repeat split; assumption. }
    destruct (vget (dim l) 2 =? 1).
    - intros [E|E]; inversion E; subst; clear E. apply Hkeep.
    - destruct (negb (col_len_cur l =? col_len l)); [intros [E|E]; discriminate|].
      intros [E|E]; inversion E; subst; clear E. apply Hkeep. }
  destruct (n_line l =? 0); [intros [E|E]; discriminate|].
  destruct (extract_all line) as [ss vec].
  destruct (failbit ss && negb (eofbit ss)); [intros [E|E]; discriminate|].
  assert (Hdim0 : forall x y, vget (vset (vset (dim l) 0 x) 1 y) 0 = x).
  { intros x y. rewrite vget_vset_neq by lia. apply vget_vset_eq. lia. }
  destruct (n_line_data l =? 0) eqn:En.
  - apply Nat.eqb_eq in En.
    intros [E|E]; inversion E; subst; clear E.
    unfold rows_invariant. simpl. rewrite !vset_length, Hdim0, length_app.
    split; [assumption|]. split; [lia|]. split; [discriminate | reflexivity].
  - apply Nat.eqb_neq in En.
    destruct (negb (length vec =? row_len l)) eqn:Er; [intros [E|E]; discriminate|].
    apply negb_false_iff, Nat.eqb_eq in Er.
    intros [E|E]; inversion E; subst; clear E.
    unfold rows_invariant. simpl. rewrite !vset_length, Hdim0, length_app.
    split; [assumption|]. split; [lia|]. split; [discriminate | intros _; exact Er].
Qed.

(** A slice that was read: three dimensions, and as many values as a
    number of rows times [dim[0]]. *)
Lemma get_3d_slice_rows f (d0 : list T) f' d dims found :
  get_3d_slice f d0 = Ok (f', d, dims, found) ->
  length dims = 3 /\
  exists rows, length d = length d0 + rows * vget dims 0.
Proof.
  unfold get_3d_slice.
  destruct (while_getline _ _ _ _ _) as [[[f1 line1] l1]| |] eqn:E; try discriminate.
  destruct (negb (col_len_cur l1 =? vget (dim l1) 1)); [discriminate|].
  intros E1; inversion E1; subst; clear E1.
  assert (Hinv : rows_invariant d0 l1).
  { eapply (@while_getline_invariant _ (rows_invariant d0)); [| | |exact E].
    - intros f0 line st st' HP Eb. eapply slice_body_rows; [exact HP | left; exact Eb].
    - intros f0 line st st' HP Eb. eapply slice_body_rows; [exact HP | right; exact Eb].
    - unfold rows_invariant. simpl. repeat split; lia. }
  destruct Hinv as [Hd [Hlen [H0 H1]]]. split; [assumption|].
  destruct (Nat.eq_dec (n_line_data l1) 0) as [En|En].
  - exists 0. rewrite Hlen, En. lia.
  - exists (n_line_data l1). rewrite Hlen, (H1 En). reflexivity.
Qed.

(** The fields the loop over the slices keeps consistent. *)
Definition slices_invariant (m : ctor_locals (T := T)) : Prop :=
  length (this_dim m) = 4 /\
  this_data_size m = length (this_data m) /\
  (vget (this_dim m) 3 = 0 -> this_data m = []) /\
  exists rows, length (this_data m) = rows * vget (this_dim m) 0.

Lemma slices_loop_invariant :
  forall n f s found (m : ctor_locals (T := T)) f' m',
    slices_invariant m ->
    slices_loop n f s found m = Ok (f', m') -> slices_invariant m'.
Proof.
  induction n as [|n IH]; intros f s found m f' m' Hm E; [discriminate|].
  rewrite slices_loop_S in E.
  destruct (failbit f); [discriminate|].
  destruct (length s =? 0); [discriminate|].
  destruct found.
  2:{ destruct (negb false && negb (eofbit f)); [discriminate|].
      inversion E; subst. exact Hm. }
  destruct (get_3d_slice f []) as [[[[f1 d] dims] found']| |] eqn:Eg; try discriminate.
  apply get_3d_slice_rows in Eg. destruct Eg as [Hd3 [rows Hrows]]. simpl in Hrows.
  destruct Hm as [Hd4 [Hsize [Hnull [k Hk]]]].
  cbv zeta in E.
  assert (Hstep : forall dim',
            length dim' = 4 -> vget dim' 0 = vget dims 0 ->
            (exists k', length (this_data m) = k' * vget dims 0) ->
            slices_invariant
              (mk_ctor (vset dim' 3 (S (vget dim' 3))) (this_data m ++ d)
                 (this_data_size m + length d))).
  { intros dim' Hl H0 [k' Hk']. unfold slices_invariant. simpl.
    rewrite vset_length, length_app, vget_vset_eq, vget_vset_neq, H0 by lia.
    split; [assumption|]. split; [lia|]. split; [discriminate|].
    exists (k' + rows). lia. }
  destruct (vget (this_dim m) 3 =? 0) eqn:E3.
  - apply Nat.eqb_eq in E3.
    assert (Hnew : slices_invariant
              (mk_ctor
                 (vset (vset (vset (vset (this_dim m) 0 (vget dims 0)) 1 (vget dims 1))
                          2 (vget dims 2)) 3
                    (S (vget (vset (vset (vset (this_dim m) 0 (vget dims 0)) 1
                                      (vget dims 1)) 2 (vget dims 2)) 3)))
                 (this_data m ++ d) (this_data_size m + length d))).
    { apply Hstep.
      - rewrite !vset_length. assumption.
      - rewrite !vget_vset_neq by lia. apply vget_vset_eq. lia.
      - exists 0. rewrite (Hnull E3). reflexivity. }
    destruct found'; [eapply IH; [exact Hnew | exact E]|].
    inversion E; subst. exact Hnew.
  - destruct (_ || _) eqn:Eneq; [discriminate|].
    apply orb_false_iff in Eneq. destruct Eneq as [Eneq _].
    apply orb_false_iff in Eneq. destruct Eneq as [Eneq _].
    apply negb_false_iff, Nat.eqb_eq in Eneq.
    assert (Hnew : slices_invariant
              (mk_ctor (vset (this_dim m) 3 (S (vget (this_dim m) 3)))
                 (this_data m ++ d) (this_data_size m + length d))).
    { apply Hstep; [assumption | now symmetry |].
      exists k. rewrite Eneq. exact Hk. }
    destruct found'; [eapply IH; [exact Hnew | exact E]|].
    inversion E; subst. exact Hnew.
Qed.

(** X7: whatever the file, a matrix the constructor returns has four
    dimensions, a counter [_data_size] equal to the size of the buffer, no
    element when it has no slice, and a buffer of a whole number of rows of
    [_dim[0]] values. *)
Theorem file_matrix_is_made_of_rows :
  forall content (m : Matrix4D (T := T)),
    Matrix4D_from_file base content = Ok m ->
    length (_dim m) = 4 /\ _dim_size m = 4 /\
    _data_size m = length (_data m) /\
    (vget (_dim m) 3 = 0 -> _data m = []) /\
    exists rows, length (_data m) = rows * vget (_dim m) 0.
Proof.
  intros content m. unfold Matrix4D_from_file.
  destruct content as [text|]; [|discriminate].
  destruct (getline (open_stream text) []) as [file line].
  destruct (length line =? 0).
  - destruct (peek file) as [file1 [c|]]; [discriminate|].
    destruct (eofbit file1); [|discriminate].
    intros E; inversion E; subst; clear E. simpl.
    repeat split. exists 0. reflexivity.
  - destruct (failbit file); [discriminate|].
    destruct (slices_loop _ _ _ _ _) as [[f' l]| |] eqn:Es; try discriminate.
    apply slices_loop_invariant in Es.
    + rewrite compute_offsets_allocated.
      intros E; inversion E; subst; clear E. simpl.
      destruct Es as [Hd [Hs [Hn Hr]]]. repeat split; assumption.
    + unfold slices_invariant. simpl. repeat split. exists 0. reflexivity.
Qed.

End ReadInvariant.

Lemma file_matrix_is_made_of_rows_witness :
  length (_dim one_to_twelve) = 4 /\ _dim_size one_to_twelve = 4 /\
  _data_size one_to_twelve = length (_data one_to_twelve) /\
  (vget (_dim one_to_twelve) 3 = 0 -> _data one_to_twelve = []) /\
  exists rows, length (_data one_to_twelve) = rows * vget (_dim one_to_twelve) 0.
Proof.
  apply (@file_matrix_is_made_of_rows Z _ exchanging_base (Some spec_example)).
  vm_compute. reflexivity.
Defined.

(** ** What every [Matrix2D] read from a file satisfies *)

Lemma length_concat_rows (A : Type) (rows : list (list A)) n :
  Forall (fun r => length r = n) rows -> length (concat rows) = n * length rows.
Proof.
  induction 1 as [|r rows Hr Hrows IH]; simpl; [lia|].
  rewrite length_app, IH, Hr. lia.
Qed.

Section Matrix2DInvariant.
Context {T : Type} `{Element T}.
Variable base : MatrixBase.

Lemma read_rows_size :
  forall ls (l l' : M2D.ctor_locals (T := T)),
    M2D.this_data_size l = length (M2D.this_data l) ->
    read_rows ls l = Ok l' ->
    M2D.this_data_size l' = length (M2D.this_data l').
Proof.
  induction ls as [|line ls IH]; intros l l' Hs E.
  - simpl in E. inversion E; subst. exact Hs.
  - simpl in E. unfold M2D.read_body in E. simpl eofbit in E. cbv iota in E.
    destruct (length line =? 0); [discriminate|].
    simpl failbit in E. cbv iota in E.
    destruct (extract_all line) as [ss vec].
    destruct (M2D.i l =? 0).
    + eapply IH; [|exact E]. simpl. rewrite length_app. lia.
    + destruct (negb (length vec =? M2D.row_len l)); [discriminate|].
      eapply IH; [|exact E]. simpl. rewrite length_app. lia.
Qed.

(** X8: whatever the file, a matrix the constructor returns is rectangular:
    two dimensions, the strides of the base class for them, and a buffer
    of [_dim[0] * _dim[1]] elements, which the counter [_data_size]
    equals. *)
Theorem file_matrix2d_is_rectangular :
  forall content (m : M2D.Matrix2D (T := T)),
    M2D.Matrix2D_from_file base content = Ok m ->
    length (M2D._dim m) = 2 /\ M2D._dim_size m = 2 /\
    M2D._dim_prod m = compute_dim_product base (M2D._dim m) /\
    M2D._data_size m = length (M2D._data m) /\
    length (M2D._data m) = vget (M2D._dim m) 0 * vget (M2D._dim m) 1.
Proof.
  intros content m. unfold M2D.Matrix2D_from_file.
  destruct content as [text|]; [|discriminate].
  destruct (text_lines text) as [ls [tail [-> [Hls Htail]]]].
  rewrite read_loop_on_lines by assumption.
  destruct (read_rows ls _) as [l| |] eqn:Er; try discriminate.
  intros E; inversion E; subst; clear E. simpl.
  assert (Hsize : M2D.this_data_size l = length (M2D.this_data l))
    by (eapply read_rows_size; [|exact Er]; reflexivity).
  apply read_rows_ok in Er; [|reflexivity]. simpl in Er.
  destruct Er as [Hd [_ [H1 [Hdata [_ [_ Hrows]]]]]].
  rewrite vset_length, vget_vset_eq, vget_vset_neq by lia.
  split; [assumption|]. split; [reflexivity|]. split; [reflexivity|].
  split; [assumption|].
  rewrite Hdata, H1.
  rewrite (@length_concat_rows T (map tokens ls) (M2D.row_len l)).
  - rewrite length_map. reflexivity.
  - apply Forall_map. revert Hrows. apply Forall_impl. intros x [_ Hx]. exact Hx.
Qed.

End Matrix2DInvariant.

Lemma file_matrix2d_is_rectangular_witness :
  let m := M2D.mk_Matrix2D [3; 2] [1; 2; 3; 4; 5; 6]%Z 2 6 [1; 3] in
  length (M2D._dim m) = 2 /\ M2D._dim_size m = 2 /\
  M2D._dim_prod m = compute_dim_product exchanging_base (M2D._dim m) /\
  M2D._data_size m = length (M2D._data m) /\
  length (M2D._data m) = vget (M2D._dim m) 0 * vget (M2D._dim m) 1.
Proof.
  apply (@file_matrix2d_is_rectangular Z _ exchanging_base
           (Some (unlines [str "1 2 3"; str "4 5 6"]))).
  vm_compute. reflexivity.
Defined.

(** ** The terminator of the last line of a [Matrix4D] file *)

Section FinalTerminator.
Context {T : Type} `{Element T}.
Variable base : MatrixBase.
Variable tail : list ascii.
Hypothesis tail_not_empty : tail <> [].
Hypothesis tail_is_a_line : ~ In newline tail.

(** Two streams over the same lines, the last of which is [tail], followed
    by a terminator in the first stream only; or what the two are once
    [tail] was read and was a 4D header; or the same stream. *)
Definition same_lines (fa fb : istream) : Prop :=
  (exists ls, Forall (fun x => ~ In newline x) ls /\
              fa = open_stream (unlines ls ++ tail ++ [newline]) /\
              fb = open_stream (unlines ls ++ tail)) \/
  (fa = open_stream [] /\ fb = mk_istream [] true false) \/
  fa = fb.

Lemma same_lines_failbit fa fb : same_lines fa fb -> failbit fa = failbit fb.
Proof.
  intros [[ls [_ [-> ->]]] | [[-> ->] | ->]]; reflexivity.
Qed.

Lemma slice_run_same_lines :
  forall fa fb (l : slice_locals (T := T)),
    same_lines fa fb ->
    match slice_run fa l, slice_run fb l with
    | Ok (fa', la), Ok (fb', lb) => la = lb /\ same_lines fa' fb'
    | Throw ea, Throw eb => ea = eb
    | _, _ => False
    end.
Proof.
  intros fa fb l [[ls [Hls [-> ->]]] | [[-> ->] | ->]].
  - revert l. induction ls as [|line ls IH]; intros l.
    + simpl app. rewrite slice_run_line, slice_run_last by assumption.
      destruct (slice_line tail l) as [l1|l1|e].
      * rewrite slice_run_end. split; [reflexivity | right; right; reflexivity].
      * split; [reflexivity | right; left; split; reflexivity].
      * reflexivity.
    + apply Forall_cons_iff in Hls. destruct Hls as [Hl Hls].
      rewrite !unlines_cons, !slice_run_line by assumption.
      destruct (slice_line line l) as [l1|l1|e].
      * apply IH. assumption.
      * split; [reflexivity|]. left. exists ls. repeat split. assumption.
      * reflexivity.
  - split; [reflexivity | right; right; reflexivity].
  - pose proof (@while_getline_defined _ (slice_body (T := T))
                  (S (length (buf fb))) fb [] l (Nat.lt_succ_diag_r _)) as Hdef.
    unfold slice_run.
    destruct (while_getline _ _ _ _ _) as [[[f' line'] l']| |]; simpl.
    + split; [reflexivity | right; right; reflexivity].
    + reflexivity.
    + now apply Hdef.
Qed.

Lemma get_3d_slice_same_lines fa fb (d0 : list T) :
  same_lines fa fb ->
  match get_3d_slice fa d0, get_3d_slice fb d0 with
  | Ok (fa', da, dima, founda), Ok (fb', db, dimb, foundb) =>
      da = db /\ dima = dimb /\ founda = foundb /\ same_lines fa' fb'
  | Throw ea, Throw eb => ea = eb
  | _, _ => False
  end.
Proof.
  intros Hs. rewrite !get_3d_slice_run.
  set (l0 := mk_slice false [0; 0; 0] d0 0 0 0 0 0 0).
  pose proof (@slice_run_same_lines fa fb l0 Hs) as Hr.
  destruct (slice_run fa l0) as [[fa' la]| |];
    destruct (slice_run fb l0) as [[fb' lb]| |];
    try contradiction; try exact Hr.
  destruct Hr as [-> Hr].
  destruct (negb (col_len_cur lb =? vget (dim lb) 1)); [reflexivity|].
  repeat split. exact Hr.
Qed.

Lemma slices_loop_same_lines :
  forall na nb fa fb s (m : ctor_locals (T := T)),
    same_lines fa fb -> length (buf fa) < na -> length (buf fb) < nb ->
    match slices_loop na fa s true m, slices_loop nb fb s true m with
    | Ok (_, ma), Ok (_, mb) => ma = mb
    | Throw ea, Throw eb => ea = eb
    | _, _ => False
    end.
Proof.
  induction na as [|na IH]; intros nb fa fb s m Hs Ha Hb; [lia|].
  destruct nb as [|nb]; [lia|].
  rewrite !slices_loop_S, (same_lines_failbit Hs).
  destruct (failbit fb); [reflexivity|].
  destruct (length s =? 0); [reflexivity|].
  pose proof (@get_3d_slice_same_lines fa fb [] Hs) as Hg.
  destruct (get_3d_slice fa []) as [[[[fa' da] dima] founda]| |] eqn:Ea;
    destruct (get_3d_slice fb []) as [[[[fb' db] dimb] foundb]| |] eqn:Eb;
    try contradiction; try exact Hg.
  destruct Hg as [-> [-> [-> Hs']]]. cbv zeta.
  destruct foundb.
  - apply get_3d_slice_shrinks in Ea. apply get_3d_slice_shrinks in Eb.
    destruct (vget (this_dim m) 3 =? 0); [apply IH; [assumption | lia | lia]|].
    destruct (_ || _); [reflexivity|]. apply IH; [assumption | lia | lia].
  - destruct (vget (this_dim m) 3 =? 0); [reflexivity|].
    destruct (_ || _); reflexivity.
Qed.

(** X9: a file of two lines or more is read the same with and without a
    terminator after its last line. *)
Theorem final_terminator_is_optional :
  forall ls : list (list ascii),
    ls <> [] -> Forall (fun x => ~ In newline x) ls ->
    Matrix4D_from_file base (Some (unlines ls ++ tail ++ [newline]))
    = Matrix4D_from_file base (Some (unlines ls ++ tail)).
Proof.
  intros ls Hne Hls. destruct ls as [|line ls]; [contradiction|].
  apply Forall_cons_iff in Hls. destruct Hls as [Hl Hls].
  unfold Matrix4D_from_file. rewrite !unlines_cons, !getline_line by assumption.
  destruct line as [|c line].
  - change (length (@nil ascii) =? 0) with true. cbv iota.
    unfold peek, open_stream, good. simpl.
    destruct (unlines ls ++ tail) as [|c0 r0] eqn:Eb.
    + apply app_eq_nil in Eb. destruct Eb as [_ Eb]. contradiction.
    + destruct (unlines ls ++ tail ++ [newline]) as [|c1 r1] eqn:Ea.
      * apply app_eq_nil in Ea. destruct Ea as [_ Ea].
        apply app_eq_nil in Ea. destruct Ea as [Ea _]. contradiction.
      * reflexivity.
  - change (length (c :: line) =? 0) with false. cbv iota. simpl failbit. cbv iota.
    destruct (is_header_4d (c :: line)).
    + pose proof (@slices_loop_same_lines
                    (S (length (buf (open_stream (unlines ls ++ tail ++ [newline])))))
                    (S (length (buf (open_stream (unlines ls ++ tail)))))
                    (open_stream (unlines ls ++ tail ++ [newline]))
                    (open_stream (unlines ls ++ tail))
                    (c :: line) (mk_ctor [0; 0; 0; 0] [] 0)) as Hsame.
      simpl _dim. simpl _data. simpl _data_size.
      destruct (slices_loop _ (open_stream (unlines ls ++ tail ++ [newline])) _ _ _)
        as [[fa ma]| |];
        destruct (slices_loop _ (open_stream (unlines ls ++ tail)) _ _ _)
          as [[fb mb]| |];
        try (exfalso; apply Hsame; [left; exists ls; repeat split; assumption | lia | lia]).
      * rewrite (Hsame (or_introl (ex_intro _ ls (conj Hls (conj eq_refl eq_refl))))
                   (Nat.lt_succ_diag_r _) (Nat.lt_succ_diag_r _)).
        reflexivity.
      * rewrite (Hsame (or_introl (ex_intro _ ls (conj Hls (conj eq_refl eq_refl))))
                   (Nat.lt_succ_diag_r _) (Nat.lt_succ_diag_r _)).
        reflexivity.
    + rewrite !slices_loop_S. reflexivity.
Qed.

End FinalTerminator.

Lemma final_terminator_is_optional_witness :
  Matrix4D_from_file (T := Z) exchanging_base
    (Some (unlines [str ",,,0"; str ",,0"; str "1 2"] ++ str "3 4" ++ [newline]))
  = Matrix4D_from_file (T := Z) exchanging_base
      (Some (unlines [str ",,,0"; str ",,0"; str "1 2"] ++ str "3 4")).
Proof.
  apply (@final_terminator_is_optional Z _ exchanging_base (str "3 4")).
  - discriminate.
  - simpl. intros Hc. repeat (destruct Hc as [Hc|Hc]; [discriminate|]). exact Hc.
  - discriminate.
  - repeat constructor; simpl; intros Hc;
      repeat (destruct Hc as [Hc|Hc]; [discriminate|]); exact Hc.
Defined.

(** ** Writing a [Matrix2D] and reading it back *)

Section Matrix2DText.
Context {T : Type} `{Element T}.
Variable base : MatrixBase.
Variable precision : nat.
Variable valid : T -> Prop.
Hypothesis codec : exact_text precision valid.

(** What [stream << x << ' '] writes for the elements [ys], the first of
    which has offset [i], in a matrix of [C] columns. *)
Fixpoint elements_text (C i : nat) (ys : list T) : list ascii :=
  match ys with
  | [] => []
  | y :: r =>
      write_value precision y ++ [space]
      ++ (if negb (i =? 0) && ((i + 1) mod C =? 0) then [newline] else [])
      ++ elements_text C (S i) r
  end.

(** The line of a row: each value followed by a space. *)
Definition row_line (row : list T) : list ascii :=
  concat (map (fun x => write_value precision x ++ [space]) row).

Lemma row_line_text row : row_line row = row_text precision 0 row.
Proof.
  unfold row_line, row_text. apply f_equal. apply map_ext. intros x.
  unfold value_text, setw_left. simpl. rewrite List.app_nil_r. reflexivity.
Qed.

Lemma write_loop_elements (gat : M2D.Matrix2D (T := T) -> nat -> option T) m dim C :
  vget dim 1 = C -> C <> 0 ->
  forall ys i out,
    (forall k, k < length ys -> gat m (i + k) = nth_error ys k) ->
    M2D.write_loop gat m precision dim (length ys) i out
    = Some (M2D.Returns (out ++ elements_text C i ys)).
Proof.
  intros Hd HC. induction ys as [|y ys IH]; intros i out Hat.
  - simpl. rewrite List.app_nil_r. reflexivity.
  - simpl length. simpl M2D.write_loop. unfold M2D.write_element.
    rewrite <- (Nat.add_0_r i) at 1. rewrite (Hat 0) by (simpl; lia).
    simpl nth_error. cbv zeta. rewrite Hd.
    apply Nat.eqb_neq in HC. rewrite HC.
    assert (Hnext : forall k, k < length ys -> gat m (S i + k) = nth_error ys k).
    { intros k Hk. replace (S i + k) with (i + S k) by lia.
      rewrite Hat by (simpl; lia). reflexivity. }
    simpl elements_text.
    destruct (negb (i =? 0)); simpl andb; cbv iota.
    + destruct ((i + 1) mod C =? 0); rewrite (IH _ _ Hnext); f_equal; f_equal;
        rewrite <- !app_assoc; reflexivity.
    + rewrite (IH _ _ Hnext). f_equal. f_equal. rewrite <- !app_assoc. reflexivity.
Qed.

(** With two columns or more, a line ends after each row of [C] values. *)
Lemma elements_row C r rest :
  2 <= C ->
  forall ys y c,
    c + S (length ys) = C ->
    elements_text C (r * C + c) ((y :: ys) ++ rest)
    = row_line (y :: ys) ++ newline :: elements_text C (S r * C) rest.
Proof.
  intros HC. induction ys as [|y' ys IH]; intros y c Hc.
  - simpl in Hc. simpl app. simpl elements_text. unfold row_line. simpl.
    replace (r * C + c + 1) with (S r * C) by lia.
    rewrite Nat.Div0.mod_mul. simpl "=?".
    replace (r * C + c =? 0) with false by (symmetry; apply Nat.eqb_neq; lia).
    simpl. replace (S (r * C + c)) with (C + r * C) by lia.
    rewrite <- !app_assoc. reflexivity.
  - simpl length in Hc. change ((y :: y' :: ys) ++ rest) with (y :: (y' :: ys) ++ rest).
    cbn [elements_text].
    replace (r * C + c + 1) with (S c + r * C) by lia.
    rewrite Nat.Div0.mod_add, Nat.mod_small by lia.
    rewrite andb_false_r.
    replace (S (r * C + c)) with (r * C + S c) by lia.
    rewrite (IH y' (S c)) by lia.
    unfold row_line. simpl. rewrite <- !app_assoc. reflexivity.
Qed.

Lemma elements_rows C :
  2 <= C ->
  forall rows r,
    Forall (fun row => length row = C) rows ->
    elements_text C (r * C) (concat rows) = unlines (map row_line rows).
Proof.
  intros HC. induction rows as [|row rows IH]; intros r Hrows; [reflexivity|].
  apply Forall_cons_iff in Hrows. destruct Hrows as [Hrow Hrows].
  destruct row as [|y ys]; [simpl in Hrow; lia|].
  change (concat ((y :: ys) :: rows)) with ((y :: ys) ++ concat rows).
  replace (r * C) with (r * C + 0) by lia.
  rewrite elements_row by (simpl in Hrow; lia).
  rewrite (IH (S r) Hrows). unfold unlines. simpl map. simpl concat.
  rewrite <- !app_assoc. reflexivity.
Qed.


End Matrix2DText.

Section Matrix2DRoundTrip.
Context {T : Type} `{Element T}.
Variable base : MatrixBase.
Variable precision : nat.
Variable valid : T -> Prop.
Hypothesis codec : exact_text precision valid.

Lemma tokens_row_line row :
  Forall valid row -> tokens (row_line precision row) = row.
Proof.
  intros Hrow. unfold tokens.
  rewrite row_line_text, (extract_all_row 0 codec Hrow). reflexivity.
Qed.

Lemma row_line_no_newline row :
  Forall valid row -> ~ In newline (row_line precision row).
Proof. intros Hrow. rewrite row_line_text. now apply (row_text_no_newline 0 codec). Qed.

Lemma row_line_not_empty row :
  Forall valid row -> row <> [] -> row_line precision row <> [].
Proof.
  intros Hrow Hne. destruct row as [|x row]; [contradiction|].
  apply Forall_cons_iff in Hrow. destruct Hrow as [Hx _].
  destruct (row_text_starts 0 codec x row Hx) as [c [r [E _]]].
  rewrite row_line_text, E. discriminate.
Qed.

Lemma row_lines_are_lines rows :
  Forall (Forall valid) rows ->
  Forall (fun x => ~ In newline x) (map (row_line precision) rows).
Proof.
  intros Hrows. apply Forall_map. revert Hrows. apply Forall_impl.
  intros row. apply row_line_no_newline.
Qed.

(** The file constructor on the lines of rows of [C] values. *)
Lemma read_row_lines rows C :
  rows <> [] -> C <> 0 ->
  Forall (fun row => length row = C) rows -> Forall (Forall valid) rows ->
  M2D.Matrix2D_from_file base (Some (unlines (map (row_line precision) rows)))
  = Ok (M2D.mk_Matrix2D [C; length rows] (concat rows) 2 (length (concat rows))
          (compute_dim_product base [C; length rows])).
Proof.
  intros Hne HC Hlen Hval.
  assert (Htok : map tokens (map (row_line precision) rows) = rows).
  { rewrite map_map. rewrite <- (map_id rows) at 2. apply map_ext_Forall.
    revert Hval. apply Forall_impl. intros row. apply tokens_row_line. }
  assert (Hls : Forall (fun x => x <> [] /\ length (tokens x) = C)
                  (map (row_line precision) rows)).
  { apply Forall_map. apply Forall_forall. intros row Hin.
    rewrite Forall_forall in Hlen, Hval. split.
    - apply row_line_not_empty; [now apply Hval|].
      intros ->. specialize (Hlen _ Hin). simpl in Hlen. lia.
    - rewrite tokens_row_line by now apply Hval. now apply Hlen. }
  unfold M2D.Matrix2D_from_file.
  rewrite <- (List.app_nil_r (unlines (map (row_line precision) rows))).
  rewrite read_loop_on_lines; [|now apply row_lines_are_lines | intros []].
  destruct (@read_rows_succeeds T _ C (map (row_line precision) rows)
              (M2D.mk_ctor 0 0 [0; 0] [] 0) Hls) as [l' E].
  { simpl. intros Hi. now elim Hi. }
  rewrite E.
  assert (Hsize : M2D.this_data_size l' = length (M2D.this_data l'))
    by (eapply read_rows_size; [|exact E]; reflexivity).
  apply read_rows_ok in E; [|reflexivity]. simpl in E.
  destruct E as [Hd [_ [H1 [Hdata [_ [_ Hrows]]]]]].
  rewrite Htok in Hdata. rewrite length_map in H1.
  assert (Hrl : M2D.row_len l' = C).
  { destruct rows as [|row rows]; [contradiction|].
    simpl in Hrows, Hls. apply Forall_cons_iff in Hrows. destruct Hrows as [[_ Hr] _].
    apply Forall_cons_iff in Hls. destruct Hls as [[_ Hc] _]. congruence. }
  destruct (M2D.this_dim l') as [|d0 [|d1 [|]]]; try discriminate.
  unfold vget in H1. simpl in H1. subst d1.
  rewrite Hsize, Hdata, Hrl. reflexivity.
Qed.

End Matrix2DRoundTrip.

(** What [operator<<] and [transpose] rely on in the base class: the
    accessors by offset read the buffer and its counter, and [get_dim()]
    returns the two sizes exchanged, rows first. *)
Definition flat_accessors {T : Type}
  (gsize : M2D.Matrix2D (T := T) -> nat)
  (gat : M2D.Matrix2D (T := T) -> nat -> option T) : Prop :=
  (forall m, gsize m = M2D._data_size m) /\
  (forall m i, gat m i = nth_error (M2D._data m) i).

Definition get_dim_exchanges_2d (base : MatrixBase) : Prop :=
  forall d0 d1, get_dim base [d0; d1] = [d1; d0].

(** A matrix of [R] rows of [C] values as the constructors leave it. *)
Definition well_formed_2d {T : Type} (base : MatrixBase) (m : M2D.Matrix2D (T := T))
  (C R : nat) : Prop :=
  M2D._dim m = [C; R] /\ M2D._dim_size m = 2 /\
  length (M2D._data m) = R * C /\
  M2D._data_size m = length (M2D._data m) /\
  M2D._dim_prod m = compute_dim_product base [C; R].

Section Matrix2DWritten.
Context {T : Type} `{Element T}.
Variable base : MatrixBase.
Variable gsize : M2D.Matrix2D (T := T) -> nat.
Variable gat : M2D.Matrix2D (T := T) -> nat -> option T.
Variable precision : nat.
Variable valid : T -> Prop.

(** What [operator<<] writes for a well-formed matrix with a column at
    least. *)
Lemma operator_lshift_elements m C R :
  flat_accessors gsize gat -> get_dim_exchanges_2d base ->
  well_formed_2d base m C R -> C <> 0 ->
  M2D.operator_lshift base gsize gat m precision
  = Some (M2D.Returns (elements_text precision C 0 (M2D._data m))).
Proof.
  intros [Hsize Hat] Hget [Hd [_ [_ [Hds _]]]] HC.
  unfold M2D.operator_lshift. rewrite Hsize, Hds, Hd, Hget.
  rewrite (@write_loop_elements T _ precision gat m [R; C] C eq_refl HC).
  - reflexivity.
  - intros k _. apply Hat.
Qed.

(** X11: a matrix with two columns or more is read back from the text
    [operator<<] writes for it. *)
Theorem written_matrix2d_is_read_back :
  flat_accessors gsize gat -> get_dim_exchanges_2d base ->
  exact_text precision valid ->
  forall m C R,
    well_formed_2d base m C R -> 2 <= C -> R <> 0 ->
    Forall valid (M2D._data m) ->
    exists text,
      M2D.operator_lshift base gsize gat m precision = Some (M2D.Returns text) /\
      M2D.Matrix2D_from_file base (Some text) = Ok m.
Proof.
  intros Hacc Hget codec m C R Hwf HC HR Hvalid.
  rewrite (operator_lshift_elements Hacc Hget Hwf) by lia.
  eexists. split; [reflexivity|].
  destruct Hwf as [Hd [Hn [Hlen [Hds Hdp]]]].
  set (rows := map (fun r => map (fun c => nth (r * C + c) (M2D._data m) zero) (seq 0 C))
                 (seq 0 R)).
  assert (Hrows : concat rows = M2D._data m).
  { unfold rows.
    rewrite (concat_rows (fun k => nth k (M2D._data m) zero) R C), <- Hlen.
    apply map_nth_seq. }
  assert (Hlens : Forall (fun row => length row = C) rows).
  { unfold rows. apply Forall_map. apply Forall_forall. intros r _.
    now rewrite length_map, length_seq. }
  assert (Hvals : Forall (Forall valid) rows).
  { apply Forall_concat. rewrite Hrows. exact Hvalid. }
  assert (HnR : length rows = R) by (unfold rows; now rewrite length_map, length_seq).
  rewrite <- Hrows at 1.
  change (elements_text precision C 0 (concat rows))
    with (elements_text precision C (0 * C) (concat rows)).
  rewrite elements_rows by assumption.
  rewrite (@read_row_lines T _ base precision valid codec rows C);
    try assumption; try lia.
  - rewrite HnR, Hrows. destruct m as [dim data ds dsz dp].
    simpl in Hd, Hn, Hds, Hdp. simpl M2D._data.
    rewrite Hd, Hn, Hds, Hdp. reflexivity.
  - intros E. rewrite E in HnR. simpl in HnR. lia.
Qed.


End Matrix2DWritten.

(** The accessors of a base class that keeps the elements in [_data]. *)
Lemma buffer_accessors (T : Type) :
  flat_accessors (T := T) (@M2D._data_size T) (fun m i => nth_error (M2D._data m) i).
Proof. split; reflexivity. Qed.

Lemma exchanging_base_get_dim_2d : get_dim_exchanges_2d exchanging_base.
Proof. intros d0 d1. reflexivity. Qed.

(** The matrix of 2 rows and 3 columns that holds 1 to 6, and the column
    7, 8, 9. *)
Definition one_to_six : M2D.Matrix2D (T := Z) :=
  M2D.mk_Matrix2D [3; 2] [1; 2; 3; 4; 5; 6]%Z 2 6 [1; 3].


Lemma written_matrix2d_is_read_back_witness :
  exists text,
    M2D.operator_lshift exchanging_base (@M2D._data_size Z)
      (fun m i => nth_error (M2D._data m) i) one_to_six 6
    = Some (M2D.Returns text) /\
    M2D.Matrix2D_from_file exchanging_base (Some text) = Ok one_to_six.
Proof.
  apply (@written_matrix2d_is_read_back Z _ exchanging_base _ _ 6
           (fun z => IntElement.in_range z = true)
           (buffer_accessors Z) exchanging_base_get_dim_2d (int_exact_text 6)
           one_to_six 3 2).
  - repeat split.
  - lia.
  - discriminate.
  - repeat constructor.
Defined.


(** ** [transpose] *)

(** What [transpose] relies on in the base class, besides [get_dim()]: the
    constructor stores the two sizes exchanged, the strides start from the
    first axis, and [convert_to_offset(coord)] is the sum of the
    coordinates times the strides. *)
Definition ctor_exchanges_2d (base : MatrixBase) : Prop :=
  forall d1 d2, Matrix_dim base [d1; d2] = [d2; d1].

Definition strides_from_first_axis_2d (base : MatrixBase) : Prop :=
  forall d0 d1, compute_dim_product base [d0; d1] = [1; d0].

Definition offset_by_strides {T : Type}
  (cto : M2D.Matrix2D (T := T) -> list nat -> nat) : Prop :=
  forall m c0 c1,
    cto m [c0; c1] = c0 * vget (M2D._dim_prod m) 0 + c1 * vget (M2D._dim_prod m) 1.

Section Transpose.
Context {T : Type} `{Element T}.
Variable base : MatrixBase.
Variable cto : M2D.Matrix2D (T := T) -> list nat -> nat.
Hypothesis Hstr : strides_from_first_axis_2d base.
Hypothesis Hcto : offset_by_strides cto.

Lemma offset_2d m C R c0 c1 :
  well_formed_2d base m C R -> cto m [c0; c1] = c0 + c1 * C.
Proof.
  intros [_ [_ [_ [_ Hdp]]]]. rewrite Hcto, Hdp, Hstr. unfold vget. simpl. lia.
Qed.

Lemma at_2d m C R row col :
  well_formed_2d base m C R -> row < R -> col < C ->
  M2D.at_ cto m row col = Some (nth (col + row * C) (M2D._data m) zero).
Proof.
  intros Hwf Hr Hc. unfold M2D.at_. rewrite (offset_2d col row Hwf).
  apply nth_error_nth'. destruct Hwf as [_ [_ [Hlen _]]]. rewrite Hlen.
  pose proof (@index_in_range row R col C Hr Hc). lia.
Qed.

Variable m : M2D.Matrix2D (T := T).
Variables C R : nat.
Hypothesis Hm : well_formed_2d base m C R.

(** The entries of [m2] that hold the element of [m] they are to hold:
    those of the rows before [i], and of row [i] before column [j]. *)
Definition filled (m2 : M2D.Matrix2D (T := T)) (i j : nat) : Prop :=
  forall i' j', j' < R -> i' < i \/ (i' = i /\ j' < j) ->
    nth_error (M2D._data m2) (j' + i' * R) = nth_error (M2D._data m) (i' + j' * C).

Lemma transpose_row_fills i :
  i < C ->
  forall n j m2,
    j + n = R -> well_formed_2d base m2 R C -> filled m2 i j ->
    exists m2',
      M2D.transpose_row cto m i n j m2 = Some m2' /\
      well_formed_2d base m2' R C /\ filled m2' (S i) 0.
Proof.
  intros Hi. induction n as [|n IH]; intros j m2 Hj Hwf Hf.
  - exists m2. split; [reflexivity|]. split; [assumption|].
    intros i' j' Hj' [Hlt | [_ Hlt]]; [|lia].
    apply Hf; [assumption|]. destruct (Nat.eq_dec i' i); [right; lia | left; lia].
  - assert (HjR : j < R) by lia.
    simpl M2D.transpose_row. rewrite (at_2d Hm HjR Hi).
    unfold M2D.assign, vset_checked. rewrite (offset_2d j i Hwf).
    destruct Hwf as [Hd [Hn [Hlen [Hds Hdp]]]].
    assert (Ho : j + i * R < length (M2D._data m2)).
    { rewrite Hlen. pose proof (@index_in_range i C j R Hi HjR). lia. }
    pose proof Ho as Ho'. apply Nat.ltb_lt in Ho'. rewrite Ho'.
    apply IH; [lia | |].
    + unfold well_formed_2d. simpl. rewrite vset_length. repeat split; assumption.
    + intros i' j' Hj' Hcase. simpl M2D._data.
      destruct (Nat.eq_dec (j' + i' * R) (j + i * R)) as [E | Hne].
      * destruct (Nat.div_mod_unique R i' i j' j Hj' HjR) as [-> ->]; [lia|].
        rewrite nth_error_vset_eq by assumption.
        symmetry. apply nth_error_nth'.
        destruct Hm as [_ [_ [Hl _]]]. rewrite Hl.
        pose proof (@index_in_range j R i C HjR Hi). lia.
      * rewrite nth_error_vset_neq by lia.
        apply Hf; [assumption|].
        destruct Hcase as [Hlt | [-> Hlt]]; [left; assumption|].
        right. split; [reflexivity|].
        destruct (Nat.eq_dec j' j) as [-> | Hjj]; [now elim Hne | lia].
Qed.

Lemma transpose_rows_fill :
  forall n i m2,
    i + n = C -> well_formed_2d base m2 R C -> filled m2 i 0 ->
    exists m2',
      M2D.transpose_rows cto m R n i m2 = Some m2' /\
      well_formed_2d base m2' R C /\ filled m2' C 0.
Proof.
  induction n as [|n IH]; intros i m2 Hi Hwf Hf.
  - exists m2. split; [reflexivity|]. split; [assumption|].
    replace C with i by lia. assumption.
  - simpl M2D.transpose_rows.
    destruct (@transpose_row_fills i ltac:(lia) R 0 m2 eq_refl Hwf Hf)
      as [m2' [E [Hwf' Hf']]].
    rewrite E. apply IH; [lia | assumption | assumption].
Qed.

End Transpose.

Section TransposeTwice.
Context {T : Type} `{Element T}.
Variable base : MatrixBase.
Variable cto : M2D.Matrix2D (T := T) -> list nat -> nat.
Hypothesis Hctor : ctor_exchanges_2d base.
Hypothesis Hstr : strides_from_first_axis_2d base.
Hypothesis Hget : get_dim_exchanges_2d base.
Hypothesis Hcto : offset_by_strides cto.

Lemma transpose_elements m C R :
  well_formed_2d base m C R ->
  exists m',
    M2D.transpose base cto m = Some m' /\ well_formed_2d base m' R C /\
    forall i j, i < C -> j < R ->
      nth_error (M2D._data m') (j + i * R) = nth_error (M2D._data m) (i + j * C).
Proof.
  intros Hm. unfold M2D.transpose.
  destruct Hm as [Hd Hrest]. rewrite Hd, Hget. unfold vget at 1 2 3. simpl nth.
  pose proof (conj Hd Hrest) as Hm.
  destruct (@transpose_rows_fill T _ base cto Hstr Hcto m C R Hm C 0
              (M2D.Matrix2D_ctor base C R zero)) as [m' [E [Hwf Hf]]].
  - reflexivity.
  - unfold M2D.Matrix2D_ctor, well_formed_2d. rewrite Hctor. simpl.
    rewrite repeat_length. repeat split. lia.
  - intros i' j' _ [Hlt | [_ Hlt]]; lia.
  - exists m'. split; [exact E|]. split; [exact Hwf|].
    intros i j Hi Hj. apply Hf; [assumption | left; assumption].
Qed.

(** X13: [transpose(m)] has the rows of [m] for columns: it has [_dim[0]] rows
    of [_dim[1]] values, the element in its row [i] and column [j] is the
    element of [m] in row [j] and column [i], and its transpose is [m]. *)
Theorem transpose_exchanges_rows_and_columns :
  forall m C R,
    well_formed_2d base m C R ->
    exists m',
      M2D.transpose base cto m = Some m' /\
      well_formed_2d base m' R C /\
      (forall i j, i < C -> j < R -> M2D.at_ cto m' i j = M2D.at_ cto m j i) /\
      M2D.transpose base cto m' = Some m.
Proof.
  intros m C R Hm.
  destruct (transpose_elements Hm) as [m' [E [Hwf Hel]]].
  exists m'. split; [exact E|]. split; [exact Hwf|]. split.
  - intros i j Hi Hj. unfold M2D.at_.
    rewrite (@offset_2d T base cto Hstr Hcto m' R C j i Hwf).
    rewrite (@offset_2d T base cto Hstr Hcto m C R i j Hm).
    now apply Hel.
  - destruct (transpose_elements Hwf) as [m'' [E' [Hwf' Hel']]].
    rewrite E'. f_equal.
    destruct Hm as [Hd [Hn [Hlen [Hds Hdp]]]].
    destruct Hwf' as [Hd' [Hn' [Hlen' [Hds' Hdp']]]].
    assert (Hdata : M2D._data m'' = M2D._data m).
    { apply nth_error_ext. intros k.
      destruct (Nat.lt_ge_cases k (R * C)) as [Hk | Hk].
      - assert (HC : C <> 0) by (intros ->; lia).
        pose proof (Nat.div_mod_eq k C) as Ek.
        pose proof (Nat.mod_upper_bound k C HC) as Hj.
        assert (Hi : k / C < R) by (apply Nat.Div0.div_lt_upper_bound; lia).
        replace k with (k mod C + k / C * C) by lia.
        rewrite (Hel' (k / C) (k mod C) Hi Hj).
        apply Hel; assumption.
      - rewrite (proj2 (nth_error_None _ _)) by lia.
        rewrite (proj2 (nth_error_None _ _)) by lia. reflexivity. }
    destruct m as [dim data ds dsz dp]. destruct m'' as [dim' data' ds' dsz' dp'].
    simpl in *. congruence.
Qed.

End TransposeTwice.

Lemma exchanging_base_ctor_2d : ctor_exchanges_2d exchanging_base.
Proof. intros d1 d2. reflexivity. Qed.

Lemma exchanging_base_strides_2d : strides_from_first_axis_2d exchanging_base.
Proof. intros d0 d1. simpl. rewrite Nat.add_0_r. reflexivity. Qed.

(** [Matrix<T>::convert_to_offset(coord)] is not among the sources; the
    loop left in a comment in [Matrix4D<T>::convert_to_offset] has it as
    the sum of the coordinates times the strides, which this is. *)
Definition offset_of_coord {T : Type} (m : M2D.Matrix2D (T := T)) (coord : list nat)
  : nat :=
  fold_left Nat.add (map (fun p => fst p * snd p) (combine coord (M2D._dim_prod m))) 0.

Lemma offset_of_coord_by_strides (T : Type) : offset_by_strides (@offset_of_coord T).
Proof.
  intros m c0 c1. unfold offset_of_coord, vget.
  destruct (M2D._dim_prod m) as [|p0 [|p1 r]]; simpl; lia.
Qed.

Lemma transpose_exchanges_rows_and_columns_witness :
  exists m',
    M2D.transpose exchanging_base offset_of_coord one_to_six = Some m' /\
    well_formed_2d exchanging_base m' 2 3 /\
    (forall i j, i < 3 -> j < 2 ->
       M2D.at_ offset_of_coord m' i j = M2D.at_ offset_of_coord one_to_six j i) /\
    M2D.transpose exchanging_base offset_of_coord m' = Some one_to_six.
Proof.
  apply (@transpose_exchanges_rows_and_columns Z _ exchanging_base offset_of_coord
           exchanging_base_ctor_2d exchanging_base_strides_2d
           exchanging_base_get_dim_2d (@offset_of_coord_by_strides Z) one_to_six 3 2).
  repeat split.
Defined.

(** ** The numbers in the headers *)

(** Two lines the reader cannot tell apart: the same line, two 4D headers
    or two 3D headers. *)
Definition same_kind (a b : list ascii) : Prop :=
  a = b \/
  (is_header_4d a = true /\ is_header_4d b = true) \/
  (is_header_3d a = true /\ is_header_3d b = true).

Lemma header_3d_is_not_4d s : is_header_3d s = true -> is_header_4d s = false.
Proof.
  intros H3. apply not_true_iff_false. intros H4.
  apply is_header_3d_iff in H3. apply is_header_4d_iff in H4.
  destruct H3 as [r3 [E3 Hn3]]. destruct H4 as [r4 [E4 _]].
  rewrite E3 in E4. injection E4 as E4. subst r3. apply Hn3. now left.
Qed.

Lemma same_kind_tests a b :
  same_kind a b ->
  (length a =? 0) = (length b =? 0) /\
  is_header_4d a = is_header_4d b /\ is_header_3d a = is_header_3d b.
Proof.
  intros [-> | [[Ha Hb] | [Ha Hb]]].
  - repeat split.
  - rewrite Ha, Hb.
    assert (H3a : is_header_3d a = false).
    { apply not_true_iff_false. intros H3. apply header_3d_is_not_4d in H3. congruence. }
    assert (H3b : is_header_3d b = false).
    { apply not_true_iff_false. intros H3. apply header_3d_is_not_4d in H3. congruence. }
    rewrite H3a, H3b. destruct a; [discriminate|]. destruct b; [discriminate|].
    repeat split.
  - rewrite Ha, Hb, (header_3d_is_not_4d _ Ha), (header_3d_is_not_4d _ Hb).
    destruct a; [discriminate|]. destruct b; [discriminate|]. repeat split.
Qed.

Section HeaderNumbers.
Context {T : Type} `{Element T}.
Variable base : MatrixBase.
Variable tail : list ascii.

Lemma slice_line_same_kind a b (l : slice_locals (T := T)) :
  same_kind a b -> slice_line a l = slice_line b l.
Proof.
  intros Hk. destruct (same_kind_tests Hk) as [E0 [E4 E3]].
  destruct Hk as [-> | Hk]; [reflexivity|].
  unfold slice_line. rewrite E0, E4, E3.
  destruct (length b =? 0); [reflexivity|].
  destruct (is_header_4d b); [reflexivity|].
  destruct (is_header_3d b) eqn:Eb; [reflexivity|].
  destruct Hk as [[_ Hb] | [_ Hb]]; congruence.
Qed.

(** Two streams over lines of the same kinds, or the same stream. *)
Definition same_kinds (fa fb : istream) : Prop :=
  (exists la lb,
     Forall2 same_kind la lb /\
     Forall (fun x => ~ In newline x) la /\ Forall (fun x => ~ In newline x) lb /\
     fa = open_stream (unlines la ++ tail) /\ fb = open_stream (unlines lb ++ tail)) \/
  fa = fb.

Lemma same_kinds_failbit fa fb : same_kinds fa fb -> failbit fa = failbit fb.
Proof. intros [[la [lb [_ [_ [_ [-> ->]]]]]] | ->]; reflexivity. Qed.

Lemma slice_run_same_kinds :
  forall fa fb (l : slice_locals (T := T)),
    same_kinds fa fb ->
    match slice_run fa l, slice_run fb l with
    | Ok (fa', la), Ok (fb', lb) => la = lb /\ same_kinds fa' fb'
    | Throw ea, Throw eb => ea = eb
    | _, _ => False
    end.
Proof.
  assert (Hsame : forall f (l : slice_locals (T := T)),
            match slice_run f l, slice_run f l with
            | Ok (fa', la), Ok (fb', lb) => la = lb /\ same_kinds fa' fb'
            | Throw ea, Throw eb => ea = eb
            | _, _ => False
            end).
  { intros f l.
    pose proof (@while_getline_defined _ (slice_body (T := T))
                  (S (length (buf f))) f [] l (Nat.lt_succ_diag_r _)) as Hdef.
    unfold slice_run.
    destruct (while_getline _ _ _ _ _) as [[[f' line'] l']| |]; simpl.
    - split; [reflexivity | right; reflexivity].
    - reflexivity.
    - now apply Hdef. }
  intros fa fb l [[la [lb [Hk [Ha [Hb [-> ->]]]]]] | ->]; [|apply Hsame].
  revert l Ha Hb. induction Hk as [|a b la lb Hab Hk IH]; intros l Ha Hb.
  - apply Hsame.
  - apply Forall_cons_iff in Ha. destruct Ha as [Ha Hla].
    apply Forall_cons_iff in Hb. destruct Hb as [Hb Hlb].
    rewrite !unlines_cons, !slice_run_line by assumption.
    rewrite (slice_line_same_kind l Hab).
    destruct (slice_line b l) as [l1|l1|e].
    + apply IH; assumption.
    + split; [reflexivity|]. left. exists la, lb. repeat split; assumption.
    + reflexivity.
Qed.

Lemma get_3d_slice_same_kinds fa fb (d0 : list T) :
  same_kinds fa fb ->
  match get_3d_slice fa d0, get_3d_slice fb d0 with
  | Ok (fa', da, dima, founda), Ok (fb', db, dimb, foundb) =>
      da = db /\ dima = dimb /\ founda = foundb /\ same_kinds fa' fb'
  | Throw ea, Throw eb => ea = eb
  | _, _ => False
  end.
Proof.
  intros Hs. rewrite !get_3d_slice_run.
  set (l0 := mk_slice false [0; 0; 0] d0 0 0 0 0 0 0).
  pose proof (@slice_run_same_kinds fa fb l0 Hs) as Hr.
  destruct (slice_run fa l0) as [[fa' la]| |];
    destruct (slice_run fb l0) as [[fb' lb]| |];
    try contradiction; try exact Hr.
  destruct Hr as [-> Hr].
  destruct (negb (col_len_cur lb =? vget (dim lb) 1)); [reflexivity|].
  repeat split. exact Hr.
Qed.

Lemma slices_loop_same_kinds :
  forall na nb fa fb sa sb (m : ctor_locals (T := T)),
    same_kinds fa fb -> length (buf fa) < na -> length (buf fb) < nb ->
    (length sa =? 0) = (length sb =? 0) ->
    match slices_loop na fa sa true m, slices_loop nb fb sb true m with
    | Ok (_, ma), Ok (_, mb) => ma = mb
    | Throw ea, Throw eb => ea = eb
    | _, _ => False
    end.
Proof.
  induction na as [|na IH]; intros nb fa fb sa sb m Hs Ha Hb Hlen; [lia|].
  destruct nb as [|nb]; [lia|].
  rewrite !slices_loop_S, (same_kinds_failbit Hs), Hlen.
  destruct (failbit fb); [reflexivity|].
  destruct (length sb =? 0) eqn:Esb; [reflexivity|].
  pose proof (@get_3d_slice_same_kinds fa fb [] Hs) as Hg.
  destruct (get_3d_slice fa []) as [[[[fa' da] dima] founda]| |] eqn:Ea;
    destruct (get_3d_slice fb []) as [[[[fb' db] dimb] foundb]| |] eqn:Eb;
    try contradiction; try exact Hg.
  destruct Hg as [-> [-> [-> Hs']]]. cbv zeta.
  destruct foundb.
  - apply get_3d_slice_shrinks in Ea. apply get_3d_slice_shrinks in Eb.
    destruct (vget (this_dim m) 3 =? 0); [apply IH; [assumption | lia | lia | congruence]|].
    destruct (_ || _); [reflexivity|]. apply IH; [assumption | lia | lia | congruence].
  - destruct (vget (this_dim m) 3 =? 0); [reflexivity|].
    destruct (_ || _); reflexivity.
Qed.

(** X14: the numbers that follow the commas of the headers are never read: two
    files whose lines are the same, but for headers replaced by headers of
    the same kind, are read the same. *)
Theorem header_numbers_are_not_read :
  forall la lb : list (list ascii),
    Forall2 same_kind la lb ->
    Forall (fun x => ~ In newline x) la -> Forall (fun x => ~ In newline x) lb ->
    Matrix4D_from_file base (Some (unlines la ++ tail))
    = Matrix4D_from_file base (Some (unlines lb ++ tail)).
Proof.
  intros la lb Hk Ha Hb. destruct Hk as [|a b la lb Hab Hk]; [reflexivity|].
  apply Forall_cons_iff in Ha. destruct Ha as [Ha Hla].
  apply Forall_cons_iff in Hb. destruct Hb as [Hb Hlb].
  unfold Matrix4D_from_file. rewrite !unlines_cons, !getline_line by assumption.
  destruct (same_kind_tests Hab) as [E0 [E4 _]]. rewrite E0, E4.
  destruct (length b =? 0) eqn:Eb.
  - unfold peek, open_stream, good. simpl.
    destruct Hk as [|a' b' la lb _ _].
    + reflexivity.
    + rewrite !unlines_cons.
      destruct a' as [|ca a']; destruct b' as [|cb b']; reflexivity.
  - simpl failbit. cbv iota.
    destruct (is_header_4d b).
    + pose proof (@slices_loop_same_kinds
                    (S (length (buf (open_stream (unlines la ++ tail)))))
                    (S (length (buf (open_stream (unlines lb ++ tail)))))
                    (open_stream (unlines la ++ tail))
                    (open_stream (unlines lb ++ tail))
                    a b (mk_ctor [0; 0; 0; 0] [] 0)) as Hsame.
      assert (Hs : same_kinds (open_stream (unlines la ++ tail))
                     (open_stream (unlines lb ++ tail))).
      { left. exists la, lb. repeat split; assumption. }
      specialize (Hsame Hs (Nat.lt_succ_diag_r _) (Nat.lt_succ_diag_r _)
                   (eq_trans E0 (eq_sym Eb))).
      simpl _dim. simpl _data. simpl _data_size.
      destruct (slices_loop _ (open_stream (unlines la ++ tail)) _ _ _) as [[fa ma]| |];
        destruct (slices_loop _ (open_stream (unlines lb ++ tail)) _ _ _) as [[fb mb]| |];
        try contradiction; rewrite Hsame; reflexivity.
    + rewrite !slices_loop_S. simpl failbit. cbv iota. rewrite E0, Eb. reflexivity.
Qed.

End HeaderNumbers.

Lemma header_numbers_are_not_read_witness :
  Matrix4D_from_file (T := Z) exchanging_base
    (Some (unlines [str ",,,0"; str ",,0"; str "1 2"; str ",,1"] ++ str "3 4"))
  = Matrix4D_from_file (T := Z) exchanging_base
      (Some (unlines [str ",,,7"; str ",,x"; str "1 2"; str ",,"] ++ str "3 4")).
Proof.
  apply (@header_numbers_are_not_read Z _ exchanging_base (str "3 4")).
  - constructor; [right; left; split; reflexivity|].
    constructor; [right; right; split; reflexivity|].
    constructor; [left; reflexivity|].
    constructor; [right; right; split; reflexivity|]. constructor.
  - repeat constructor; simpl; intros Hc;
      repeat (destruct Hc as [Hc|Hc]; [discriminate|]); exact Hc.
  - repeat constructor; simpl; intros Hc;
      repeat (destruct Hc as [Hc|Hc]; [discriminate|]); exact Hc.
Defined.

(** ** A block of another height inside a slice *)

Lemma unlines_app la lb : unlines (la ++ lb) = unlines la ++ unlines lb.
Proof. unfold unlines. now rewrite map_app, concat_app. Qed.

Section LinesOfASlice.
Context {T : Type} `{Element T}.
Variable base : MatrixBase.
Variables C R : nat.
Hypothesis C_positive : 0 < C.
Hypothesis R_positive : 0 < R.

(** A row of [C] values: a line, neither empty nor a header, from which
    [operator>>] extracts [C] values and fails only at its end. *)
Definition data_row (line : list ascii) : Prop :=
  line <> [] /\ ~ In newline line /\
  is_header_3d line = false /\ is_header_4d line = false /\
  failbit (fst (extract_all (T := T) line))
  && negb (eofbit (fst (extract_all (T := T) line))) = false /\
  length (tokens (T := T) line) = C.

(** The header of a block, and a block of [R] rows: its header and its
    rows. *)
Definition block_header (line : list ascii) : Prop :=
  is_header_3d line = true /\ ~ In newline line.

Definition block (b : list ascii * list (list ascii)) : Prop :=
  block_header (fst b) /\ length (snd b) = R /\ Forall data_row (snd b).

Definition block_lines (b : list ascii * list (list ascii)) : list (list ascii) :=
  fst b :: snd b.

Lemma header_line_step j i d (l : slice_locals (T := T)) hd :
  slice_inv C R j i d l ->
  (j = 0 /\ i = 0) \/ (1 <= j /\ i = R) ->
  is_header_3d hd = true ->
  exists l', slice_line hd l = Next l' /\ slice_inv C R (S j) 0 d l'.
Proof.
  intros Hinv Hji Hhd.
  assert (Hk : same_kind hd (header3 0)).
  { right; right. split; [exact Hhd | apply header3_is_header]. }
  rewrite (slice_line_same_kind l Hk).
  exact (header_step C_positive R_positive 0 Hinv Hji).
Qed.

Lemma row_line_step j i d (l : slice_locals (T := T)) line :
  slice_inv C R j i d l -> 1 <= j -> data_row line ->
  exists l', slice_line line l = Next l' /\
             slice_inv C R j (S i) (d ++ tokens line) l'.
Proof.
  intros Hinv Hj [Hne [_ [E3 [E4 [Hok Hlen]]]]].
  destruct Hinv as [Hf Hd [d0 [d1 [Hdim [Hd0 Hd1]]]] Hcur Hline Hrows Hrl Hcl].
  unfold slice_line.
  destruct line as [|c line]; [contradiction|].
  change (length (c :: line) =? 0) with false. cbv iota.
  rewrite E4, E3.
  assert (En : (n_line l =? 0) = false).
  { apply Nat.eqb_neq. intros E. apply Hline in E. lia. }
  rewrite En. unfold tokens in *.
  destruct (extract_all (c :: line)) as [ss vec]. simpl fst in Hok. simpl snd in *.
  rewrite Hok. rewrite Hdim.
  destruct (n_line_data l =? 0) eqn:End.
  - eexists. split; [reflexivity|].
    constructor; simpl.
    + exact Hf.
    + rewrite Hd. reflexivity.
    + exists C, (S i). split; [rewrite <- Hlen, Hcur; reflexivity|].
      split; [reflexivity|reflexivity].
    + rewrite Hcur. reflexivity.
    + split; intros; lia.
    + split; intros; lia.
    + intros _. exact Hlen.
    + exact Hcl.
  - apply Nat.eqb_neq in End. rewrite (Hrl End), Hlen, Nat.eqb_refl. simpl negb. cbv iota.
    eexists. split; [reflexivity|].
    constructor; simpl.
    + exact Hf.
    + rewrite Hd. reflexivity.
    + exists C, (S i). split; [rewrite Hcur; reflexivity|].
      split; [reflexivity|reflexivity].
    + rewrite Hcur. reflexivity.
    + split; intros; lia.
    + split; intros; lia.
    + intros _. reflexivity.
    + exact Hcl.
Qed.

Lemma rows_run :
  forall rows (l : slice_locals (T := T)) d i j rest,
    Forall data_row rows -> 1 <= j -> slice_inv C R j i d l ->
    exists l' d',
      slice_inv C R j (i + length rows) d' l' /\
      slice_run (open_stream (unlines rows ++ rest)) l = slice_run (open_stream rest) l'.
Proof.
  induction rows as [|v rows IH]; intros l d i j rest Hrows Hj Hinv.
  - exists l, d. simpl. rewrite Nat.add_0_r. split; [assumption | reflexivity].
  - apply Forall_cons_iff in Hrows. destruct Hrows as [Hrow Hrows].
    destruct (@row_line_step _ _ _ _ v Hinv Hj Hrow) as [l1 [Es Hinv1]].
    destruct (IH l1 (d ++ tokens v) (S i) j rest Hrows Hj Hinv1) as [l' [d' [Hinv' Erun]]].
    exists l', d'. split.
    + simpl length. replace (i + S (length rows)) with (S i + length rows) by lia.
      exact Hinv'.
    + rewrite unlines_cons.
      rewrite slice_run_line, Es by (apply Hrow).
      exact Erun.
Qed.

Lemma blocks_run :
  forall blocks (l : slice_locals (T := T)) d j rest,
    Forall block blocks ->
    slice_inv C R j (if j =? 0 then 0 else R) d l ->
    exists l' d',
      slice_inv C R (j + length blocks) (if j + length blocks =? 0 then 0 else R) d' l' /\
      slice_run (open_stream (unlines (concat (map block_lines blocks)) ++ rest)) l
      = slice_run (open_stream rest) l'.
Proof.
  induction blocks as [|b blocks IH]; intros l d j rest Hb Hinv.
  - exists l, d. simpl. rewrite Nat.add_0_r. split; [assumption | reflexivity].
  - apply Forall_cons_iff in Hb. destruct Hb as [[[Hhd Hnl] [HlenR Hrows]] Hb].
    assert (Hji : (j = 0 /\ (if j =? 0 then 0 else R) = 0) \/
                  (1 <= j /\ (if j =? 0 then 0 else R) = R)).
    { destruct (j =? 0) eqn:E0; [apply Nat.eqb_eq in E0|apply Nat.eqb_neq in E0]; lia. }
    destruct (@header_line_step _ _ _ _ (fst b) Hinv Hji Hhd) as [l1 [Eh Hinv1]].
    destruct (@rows_run (snd b) l1 d 0 (S j)
                (unlines (concat (map block_lines blocks)) ++ rest) Hrows
                (le_n_S _ _ (Nat.le_0_l j)) Hinv1) as [l2 [d2 [Hinv2 Erun2]]].
    rewrite HlenR in Hinv2. simpl in Hinv2.
    destruct (IH l2 d2 (S j) rest Hb Hinv2) as [l' [d' [Hinv' Erun]]].
    exists l', d'. split.
    + simpl length. replace (j + S (length blocks)) with (S j + length blocks) by lia.
      exact Hinv'.
    + change (concat (map block_lines (b :: blocks)))
        with (fst b :: (snd b ++ concat (map block_lines blocks))).
      rewrite unlines_cons.
      rewrite slice_run_line, Eh by exact Hnl.
      rewrite unlines_app, <- app_assoc, Erun2. exact Erun.
Qed.

Lemma header_of_other_height j i d (l : slice_locals (T := T)) hd :
  slice_inv C R j i d l -> 2 <= j -> i <> R ->
  is_header_3d hd = true ->
  slice_line hd l = Raise VariableDimensions.
Proof.
  intros [Hf Hd [d0 [d1 [Hdim _]]] Hcur _ _ _ Hcl] Hj Hi Hhd.
  unfold slice_line.
  destruct hd as [|c hd]; [discriminate|].
  change (length (c :: hd) =? 0) with false. cbv iota.
  rewrite (header_3d_is_not_4d _ Hhd), Hhd.
  rewrite Hdim. unfold vget. simpl nth.
  replace (j =? 1) with false by (symmetry; apply Nat.eqb_neq; lia).
  rewrite Hcur, Hcl.
  replace (2 <=? j) with true by (symmetry; apply Nat.leb_le; lia).
  replace (i =? R) with false by (symmetry; apply Nat.eqb_neq; lia).
  reflexivity.
Qed.

(** The constructor on a file that starts with a 4D header: the loop of
    [get_3d_slice] is entered on the lines that follow, and what it throws
    the constructor throws. *)
Lemma first_slice_throws h4 text e :
  is_header_4d h4 = true -> ~ In newline h4 ->
  slice_run (open_stream text) (mk_slice (T := T) false [0; 0; 0] [] 0 0 0 0 0 0)
  = Throw e ->
  Matrix4D_from_file base (Some (h4 ++ newline :: text)) = Throw e.
Proof.
  intros H4 Hnl Er.
  unfold Matrix4D_from_file.
  rewrite getline_line by exact Hnl.
  destruct h4 as [|c h4]; [discriminate|].
  change (length (c :: h4) =? 0) with false. cbv iota. simpl failbit. cbv iota.
  rewrite H4, slices_loop_S. simpl failbit. cbv iota.
  change (length (c :: h4) =? 0) with false. cbv iota.
  rewrite get_3d_slice_run. simpl buf. rewrite Er. reflexivity.
Qed.

(** X15: a file that starts with a 4D header and one or more blocks, each
    a 3D header and [R] rows of [C] values.  A further 3D header, followed
    by a number of such rows other than [R] and then by another 3D header,
    makes the constructor throw "variable dimensions", whatever comes
    after that header.  The headers are any lines [is_header_4d] and
    [is_header_3d] accept, the rows any lines [data_row] describes. *)
Theorem inner_block_of_other_height_is_rejected :
  forall (h4 : list ascii) blocks (hb : list ascii) rows (h3 rest : list ascii),
    is_header_4d h4 = true -> ~ In newline h4 ->
    blocks <> [] -> Forall block blocks ->
    block_header hb -> Forall data_row rows -> length rows <> R ->
    block_header h3 ->
    Matrix4D_from_file base
      (Some (unlines (h4 :: concat (map block_lines blocks) ++ hb :: rows ++ [h3])
             ++ rest))
    = Throw VariableDimensions.
Proof.
  intros h4 blocks hb rows h3 rest H4 Hnl4 Hne Hblocks [Hhb Hnlb] Hrows Hlen [Hh3 Hnl3].
  rewrite unlines_cons. apply first_slice_throws; [assumption | assumption|].
  rewrite unlines_app, <- app_assoc.
  destruct (@blocks_run blocks (mk_slice false [0; 0; 0] [] 0 0 0 0 0 0) [] 0
              (unlines (hb :: rows ++ [h3]) ++ rest) Hblocks
              (slice_inv_start C_positive R_positive []))
    as [l1 [d1 [Hinv1 Erun1]]].
  rewrite Erun1. simpl Nat.add in Hinv1.
  assert (Hnb : 1 <= length blocks) by (destruct blocks; [contradiction | simpl; lia]).
  replace (length blocks =? 0) with false in Hinv1
    by (symmetry; apply Nat.eqb_neq; lia).
  destruct (@header_line_step _ _ _ _ hb Hinv1 (or_intror (conj Hnb eq_refl)) Hhb)
    as [l2 [Eh Hinv2]].
  rewrite unlines_cons.
  rewrite slice_run_line, Eh by exact Hnlb.
  rewrite unlines_app, <- app_assoc.
  destruct (@rows_run rows l2 d1 0 (S (length blocks))
              (unlines [h3] ++ rest) Hrows (le_n_S _ _ (Nat.le_0_l _)) Hinv2)
    as [l3 [d3 [Hinv3 Erun3]]].
  rewrite Erun3. simpl Nat.add in Hinv3.
  rewrite unlines_cons, slice_run_line by exact Hnl3.
  rewrite (@header_of_other_height _ _ _ _ h3 Hinv3) by (lia || assumption).
  reflexivity.
Qed.

(** A line with a token that is no value: neither empty nor a header, and
    the extraction fails on it before its end, after the values [vec]. *)
Definition unreadable_row (line : list ascii) (vec : list T) : Prop :=
  ~ In newline line /\
  is_header_3d line = false /\ is_header_4d line = false /\
  exists ss, extract_all line = (ss, vec) /\ failbit ss = true /\ eofbit ss = false.

Lemma unreadable_row_not_empty line vec : unreadable_row line vec -> line <> [].
Proof.
  intros [_ [_ [_ [ss [Ex [_ He]]]]]] ->.
  vm_compute in Ex. inversion Ex; subst. discriminate.
Qed.

Lemma unreadable_row_in_a_slice j i d (l : slice_locals (T := T)) line vec :
  slice_inv C R j i d l -> 1 <= j -> unreadable_row line vec ->
  slice_line line l = Raise IncompatibleDataTypes.
Proof.
  intros Hinv Hj Hrow. pose proof (unreadable_row_not_empty Hrow) as Hne.
  destruct Hrow as [_ [E3 [E4 [ss [Ex [Hf He]]]]]].
  destruct Hinv as [_ _ _ _ Hline _ _ _].
  unfold slice_line.
  destruct line as [|c line]; [contradiction|].
  change (length (c :: line) =? 0) with false. cbv iota.
  rewrite E4, E3.
  replace (n_line l =? 0) with false
    by (symmetry; apply Nat.eqb_neq; intros E; apply Hline in E; lia).
  rewrite Ex, Hf, He. reflexivity.
Qed.

(** The reader of [Matrix2D]: after rows of [n] values, a row of another
    number of values makes it throw. *)
Lemma read_rows_other_length n line :
  line <> [] -> length (tokens (T := T) line) <> n ->
  forall ls (l : M2D.ctor_locals (T := T)),
    Forall (fun x => x <> [] /\ length (tokens (T := T) x) = n) ls ->
    (M2D.i l <> 0 -> M2D.row_len l = n) ->
    M2D.i l <> 0 \/ ls <> [] ->
    read_rows (ls ++ [line]) l = Throw VariableColumns.
Proof.
  intros Hne Hlen. induction ls as [|x ls IH]; intros l Hls Hrow Hpos.
  - destruct Hpos as [Hi|Hc]; [|contradiction].
    simpl. unfold M2D.read_body. simpl eofbit. simpl failbit. cbv iota.
    destruct line as [|c line]; [contradiction|].
    change (length (c :: line) =? 0) with false. cbv iota.
    unfold tokens in Hlen. destruct (extract_all (c :: line)) as [ss vec]. simpl in Hlen.
    replace (M2D.i l =? 0) with false by (symmetry; apply Nat.eqb_neq; exact Hi).
    rewrite (Hrow Hi).
    replace (length vec =? n) with false by (symmetry; apply Nat.eqb_neq; exact Hlen).
    reflexivity.
  - apply Forall_cons_iff in Hls. destruct Hls as [[Hx Hn] Hls].
    simpl. unfold M2D.read_body at 1. simpl eofbit. simpl failbit. cbv iota.
    destruct x as [|c x]; [contradiction|].
    change (length (c :: x) =? 0) with false. cbv iota.
    unfold tokens in Hn. destruct (extract_all (c :: x)) as [ss vec]. simpl in Hn.
    destruct (M2D.i l =? 0) eqn:Ei.
    + apply IH; [assumption | simpl; intros _; assumption | left; simpl; lia].
    + apply Nat.eqb_neq in Ei. rewrite (Hrow Ei), Hn, Nat.eqb_refl. simpl negb. cbv iota.
      apply IH; [assumption | simpl; intros _; reflexivity | left; simpl; lia].
Qed.

(** X10: a line that is neither empty nor a header and on which an
    extraction fails before the end of the line, after the values [vec].
    The reader of [Matrix2D], after lines that each hold [C] values, takes
    [vec] as the row and reports nothing of the failure: as the first line,
    or with [C] values in [vec], the row is stored, and with another
    number of values the constructor throws "variable number of columns".
    The reader of [Matrix4D] throws "incompatible data types" on the line
    as a row of the first slice, after any blocks of [R] rows of [C]
    values, a block header and any rows of [C] values, whatever follows
    the line. *)
Theorem unreadable_token_in_a_row :
  forall (line : list ascii) (vec : list T),
    unreadable_row line vec ->
    (forall (ls : list (list ascii)) (tail : list ascii),
       Forall (fun x => ~ In newline x) ls -> ~ In newline tail ->
       Forall (fun x => x <> [] /\ length (tokens (T := T) x) = C) ls ->
       (ls = [] \/ length vec = C ->
        exists m,
          M2D.Matrix2D_from_file base (Some (unlines (ls ++ [line]) ++ tail)) = Ok m /\
          M2D._dim m = [length vec; S (length ls)] /\
          M2D._data m = concat (map tokens ls) ++ vec) /\
       (ls <> [] -> length vec <> C ->
        M2D.Matrix2D_from_file base (Some (unlines (ls ++ [line]) ++ tail))
        = Throw VariableColumns)) /\
    (forall (h4 : list ascii) blocks (hb : list ascii) rows (rest : list ascii),
       is_header_4d h4 = true -> ~ In newline h4 ->
       Forall block blocks -> block_header hb -> Forall data_row rows ->
       Matrix4D_from_file base
         (Some (unlines (h4 :: concat (map block_lines blocks) ++ hb :: rows ++ [line])
                ++ rest))
       = Throw IncompatibleDataTypes).
Proof.
  intros line vec Hline.
  pose proof (unreadable_row_not_empty Hline) as Hne.
  assert (Htok : tokens line = vec).
  { destruct Hline as [_ [_ [_ [ss [Ex _]]]]]. unfold tokens. rewrite Ex. reflexivity. }
  split.
  - intros ls tail Hls Htail Hrows.
    assert (Hall : Forall (fun x => ~ In newline x) (ls ++ [line])).
    { apply Forall_app. split; [assumption|]. constructor; [apply Hline | constructor]. }
    split.
    + intros Hcase.
      assert (Hgood : Forall (fun x => x <> [] /\ length (tokens (T := T) x) = length vec)
                        (ls ++ [line])).
      { apply Forall_app. split.
        - destruct Hcase as [-> | Hc]; [constructor | rewrite Hc; assumption].
        - constructor; [|constructor]. split; [assumption | now rewrite Htok]. }
      unfold M2D.Matrix2D_from_file.
      rewrite read_loop_on_lines by assumption.
      destruct (@read_rows_succeeds T _ (length vec) (ls ++ [line])
                  (M2D.mk_ctor 0 0 [0; 0] [] 0) Hgood) as [l' E].
      { simpl. intros Hc. contradiction. }
      rewrite E. eexists. split; [reflexivity|].
      apply read_rows_ok in E; [|reflexivity]. simpl in E.
      destruct E as [H1 [_ [H3 [H4 [_ [_ H7]]]]]].
      apply Forall_app in H7. destruct H7 as [_ H7].
      apply Forall_cons_iff in H7. destruct H7 as [[_ H7] _].
      rewrite Htok in H7. rewrite length_app in H3. simpl in H3.
      destruct (M2D.this_dim l') as [|d0 [|d1 [|]]]; try discriminate.
      unfold vget in H3. simpl in H3. simpl.
      split.
      * rewrite <- H7, H3. f_equal. f_equal. lia.
      * rewrite H4, map_app, concat_app. simpl. rewrite Htok, app_nil_r. reflexivity.
    + intros Hnil Hlen.
      unfold M2D.Matrix2D_from_file.
      rewrite read_loop_on_lines by assumption.
      rewrite (@read_rows_other_length C line Hne) ; try assumption.
      * reflexivity.
      * rewrite Htok. exact Hlen.
      * simpl. intros Hc. contradiction.
      * right. exact Hnil.
  - intros h4 blocks hb rows rest H4 Hnl4 Hblocks [Hhb Hnlb] Hrows.
    rewrite unlines_cons. apply first_slice_throws; [assumption | assumption|].
    rewrite unlines_app, <- app_assoc.
    destruct (@blocks_run blocks (mk_slice false [0; 0; 0] [] 0 0 0 0 0 0) [] 0
                (unlines (hb :: rows ++ [line]) ++ rest) Hblocks
                (slice_inv_start C_positive R_positive []))
      as [l1 [d1 [Hinv1 Erun1]]].
    rewrite Erun1. simpl Nat.add in Hinv1.
    assert (Hji : (length blocks = 0 /\ (if length blocks =? 0 then 0 else R) = 0) \/
                  (1 <= length blocks /\ (if length blocks =? 0 then 0 else R) = R)).
    { destruct (length blocks =? 0) eqn:E0;
        [apply Nat.eqb_eq in E0 | apply Nat.eqb_neq in E0]; lia. }
    destruct (@header_line_step _ _ _ _ hb Hinv1 Hji Hhb) as [l2 [Eh Hinv2]].
    rewrite unlines_cons.
    rewrite slice_run_line, Eh by exact Hnlb.
    rewrite unlines_app, <- app_assoc.
    destruct (@rows_run rows l2 d1 0 (S (length blocks))
                (unlines [line] ++ rest) Hrows (le_n_S _ _ (Nat.le_0_l _)) Hinv2)
      as [l3 [d3 [Hinv3 Erun3]]].
    rewrite Erun3.
    rewrite unlines_cons, slice_run_line by apply Hline.
    rewrite (@unreadable_row_in_a_slice _ _ _ _ line vec Hinv3) by (lia || assumption).
    reflexivity.
Qed.

End LinesOfASlice.

(** The side conditions on the lines of the examples: no line terminator
    inside a line, and rows of [int]s. *)
Ltac no_newline :=
  simpl; intros Hc; repeat (destruct Hc as [Hc|Hc]; [discriminate|]); exact Hc.

Ltac row_of_ints :=
  split; [discriminate|]; split; [no_newline|];
  split; [reflexivity|]; split; [reflexivity|];
  split; vm_compute; reflexivity.

Lemma inner_block_of_other_height_is_rejected_witness :
  Matrix4D_from_file (T := Z) exchanging_base
    (Some (unlines (str ",,,0"
                    :: concat (map block_lines [(str ",,0", [str "1 2"; str "3 4"])])
                    ++ str ",,1" :: [str "5 6"] ++ [str ",,2"]) ++ str "7 8"))
  = Throw VariableDimensions.
Proof.
  apply (@inner_block_of_other_height_is_rejected Z _ exchanging_base 2 2).
  - lia.
  - lia.
  - reflexivity.
  - no_newline.
  - discriminate.
  - constructor; [|constructor]. split; [split; [reflexivity | no_newline]|].
    split; [reflexivity|]. constructor; [row_of_ints|]. constructor; [row_of_ints|].
    constructor.
  - split; [reflexivity | no_newline].
  - constructor; [row_of_ints | constructor].
  - simpl. lia.
  - split; [reflexivity | no_newline].
Defined.

Lemma unreadable_token_in_a_row_witness :
  (exists m,
     M2D.Matrix2D_from_file (T := Z) exchanging_base
       (Some (unlines ([str "4 5"] ++ [str "1 2 x 3"]) ++ []))
     = Ok m /\
     M2D._dim m = [2; 2] /\ M2D._data m = [4; 5; 1; 2]%Z) /\
  M2D.Matrix2D_from_file (T := Z) exchanging_base
    (Some (unlines ([str "4 5 6"] ++ [str "1 2 x 3"]) ++ []))
  = Throw VariableColumns /\
  Matrix4D_from_file (T := Z) exchanging_base
    (Some (unlines (str ",,,0"
                    :: concat (map block_lines [(str ",,0", [str "4 5"; str "6 7"])])
                    ++ str ",,1" :: [str "8 9"] ++ [str "1 2 x 3"]) ++ str "7 8"))
  = Throw IncompatibleDataTypes.
Proof.
  assert (Hline : unreadable_row (T := Z) (str "1 2 x 3") [1; 2]%Z).
  { split; [no_newline|]. split; [reflexivity|]. split; [reflexivity|].
    exists (mk_istream (str "x 3") false true).
    split; [vm_compute; reflexivity|]. split; reflexivity. }
  split; [|split].
  - apply (proj1 (proj1 (@unreadable_token_in_a_row Z _ exchanging_base 2 2
                          (Nat.lt_0_succ 1) (Nat.lt_0_succ 1) _ _ Hline)
                   [str "4 5"] [] ltac:(constructor; [no_newline | constructor])
                   ltac:(intros []) 
                   ltac:(constructor; [split; [discriminate | vm_compute; reflexivity]
                                      | constructor]))).
    right. reflexivity.
  - apply (proj2 (proj1 (@unreadable_token_in_a_row Z _ exchanging_base 3 2
                          (Nat.lt_0_succ 2) (Nat.lt_0_succ 1) _ _ Hline)
                   [str "4 5 6"] [] ltac:(constructor; [no_newline | constructor])
                   ltac:(intros [])
                   ltac:(constructor; [split; [discriminate | vm_compute; reflexivity]
                                      | constructor]))).
    + discriminate.
    + simpl. lia.
  - apply (proj2 (@unreadable_token_in_a_row Z _ exchanging_base 2 2
                    (Nat.lt_0_succ 1) (Nat.lt_0_succ 1) _ _ Hline)).
    + reflexivity.
    + no_newline.
    + constructor; [|constructor]. split; [split; [reflexivity | no_newline]|].
      split; [reflexivity|]. constructor; [row_of_ints|]. constructor; [row_of_ints|].
      constructor.
    + split; [reflexivity | no_newline].
    + constructor; [row_of_ints | constructor].
Defined.

(** ** The offset tables the constructors leave *)

Section TablesOfTheConstructors.
Context {T : Type} `{Element T}.
Variable base : MatrixBase.

(** The four tables as [compute_dimK_offsets] fills them over the whole
    of their axes: entry [k] is [k] times the stride of the axis. *)
Definition tables_from_strides (m : Matrix4D (T := T)) : Prop :=
  _dim1_offsets m = offsets_table (vget (_dim m) 1) (vget (_dim_prod m) 1) /\
  _dim2_offsets m = offsets_table (vget (_dim m) 0) (vget (_dim_prod m) 0) /\
  _dim3_offsets m = offsets_table (vget (_dim m) 2) (vget (_dim_prod m) 2) /\
  _dim4_offsets m = offsets_table (vget (_dim m) 3) (vget (_dim_prod m) 3).

Lemma tables_from_strides_fit (m : Matrix4D (T := T)) :
  tables_from_strides m -> offsets_invariant m.
Proof.
  intros [E1 [E2 [E3 E4]]]. unfold offsets_invariant.
  rewrite E1, E2, E3, E4, !offsets_table_length. repeat split.
Qed.

Lemma from_file_tables content (m : Matrix4D (T := T)) :
  Matrix4D_from_file base content = Ok m -> tables_from_strides m.
Proof.
  unfold Matrix4D_from_file. destruct content as [text|]; [|discriminate].
  destruct (getline (open_stream text) []) as [file line].
  destruct (length line =? 0).
  - destruct (peek file) as [file1 [c|]]; [discriminate|].
    destruct (eofbit file1); [|discriminate].
    intros E; inversion E; subst. repeat split.
  - destruct (failbit file); [discriminate|].
    destruct (slices_loop _ _ _ _ _) as [[f' l]| |]; try discriminate.
    rewrite compute_offsets_allocated.
    intros E; inversion E; subst. repeat split.
Qed.

(** X16: the file constructor and [load] allocate the four tables from
    [_dim] and fill them: on every file content the constructor stays
    inside the tables, and in the matrix it returns, as in the object
    [load] leaves, [_dim1_offsets] has [_dim[1]] entries, [_dim2_offsets]
    has [_dim[0]], [_dim3_offsets] has [_dim[2]] and [_dim4_offsets] has
    [_dim[3]], entry [k] being [k] times the stride [_dim_prod] gives for
    the axis.  [load] changes nothing else of the object the base class
    loaded. *)
Theorem file_constructor_and_load_fit_the_tables :
  (forall content,
     Matrix4D_from_file base content <> Undefined /\
     forall m : Matrix4D (T := T),
       Matrix4D_from_file base content = Ok m ->
       offsets_invariant m /\ tables_from_strides m) /\
  (forall loaded : Matrix4D (T := T),
     exists m,
       Matrix4D_load loaded = Some m /\
       _dim m = _dim loaded /\ _data m = _data loaded /\
       _dim_size m = _dim_size loaded /\ _data_size m = _data_size loaded /\
       _dim_prod m = _dim_prod loaded /\
       offsets_invariant m /\ tables_from_strides m).
Proof.
  split.
  - intros content. split; [apply from_file_offsets|].
    intros m E. apply from_file_tables in E.
    split; [apply tables_from_strides_fit|]; exact E.
  - intros loaded. unfold Matrix4D_load. rewrite compute_offsets_allocated.
    eexists. split; [reflexivity|]. simpl. repeat split.
    all: apply offsets_table_length.
Qed.

(** Filling [n] entries of a fresh table of [k]. *)
Lemma fill_fresh_table stride n k :
  (n <= k ->
   exists t, fill_offsets n 0 stride (vector_of_size k) = Some t /\ length t = k) /\
  (k < n -> fill_offsets n 0 stride (vector_of_size k) = None).
Proof.
  split; intros Hnk.
  - destruct (@fill_offsets_within stride n 0 (vector_of_size k)) as [t [Et Hl]].
    + unfold vector_of_size. rewrite repeat_length. lia.
    + exists t. split; [exact Et|]. rewrite Hl. apply repeat_length.
  - apply fill_offsets_overrun; unfold vector_of_size; rewrite repeat_length; lia.
Qed.

(** What the constructor with dimensions returns, by the sizes the base
    class stored. *)
Lemma ctor_cases dim1 dim2 dim3 dim4 (value : T) :
  let stored := Matrix_dim base [dim1; dim2; dim3; dim4] in
  (vget stored 1 <= dim1 /\ vget stored 0 <= dim2 /\
   vget stored 2 <= dim3 /\ vget stored 3 <= dim4 /\
   exists m,
     Matrix4D_ctor base dim1 dim2 dim3 dim4 value = Some m /\
     _dim m = stored /\
     _data m = repeat value (fold_left Nat.mul stored 1) /\
     length (_dim1_offsets m) = dim1 /\ length (_dim2_offsets m) = dim2 /\
     length (_dim3_offsets m) = dim3 /\ length (_dim4_offsets m) = dim4) \/
  ((dim1 < vget stored 1 \/ dim2 < vget stored 0 \/
    dim3 < vget stored 2 \/ dim4 < vget stored 3) /\
   Matrix4D_ctor base dim1 dim2 dim3 dim4 value = None).
Proof.
  intros stored. unfold Matrix4D_ctor, Matrix_ctor. fold stored.
  unfold compute_offsets.
  unfold compute_dim1_offsets. simpl.
  destruct (le_lt_dec (vget stored 1) dim1) as [H1|H1];
    [|right; split; [now left|];
      rewrite (proj2 (fill_fresh_table _ _ _) H1); reflexivity].
  destruct (proj1 (fill_fresh_table (vget (compute_dim_product base stored) 1) _ _) H1)
    as [t1 [E1 L1]].
  rewrite E1. unfold compute_dim2_offsets. simpl.
  destruct (le_lt_dec (vget stored 0) dim2) as [H2|H2];
    [|right; split; [now right; left|];
      rewrite (proj2 (fill_fresh_table _ _ _) H2); reflexivity].
  destruct (proj1 (fill_fresh_table (vget (compute_dim_product base stored) 0) _ _) H2)
    as [t2 [E2 L2]].
  rewrite E2. unfold compute_dim3_offsets. simpl.
  destruct (le_lt_dec (vget stored 2) dim3) as [H3|H3];
    [|right; split; [now right; right; left|];
      rewrite (proj2 (fill_fresh_table _ _ _) H3); reflexivity].
  destruct (proj1 (fill_fresh_table (vget (compute_dim_product base stored) 2) _ _) H3)
    as [t3 [E3 L3]].
  rewrite E3. unfold compute_dim4_offsets. simpl.
  destruct (le_lt_dec (vget stored 3) dim4) as [H4|H4];
    [|right; split; [now right; right; right|];
      rewrite (proj2 (fill_fresh_table _ _ _) H4); reflexivity].
  destruct (proj1 (fill_fresh_table (vget (compute_dim_product base stored) 3) _ _) H4)
    as [t4 [E4 L4]].
  rewrite E4. left. repeat (split; [assumption|]).
  eexists. split; [reflexivity|]. simpl. repeat split; assumption.
Qed.

(** X17: the constructor [Matrix4D(dim1, dim2, dim3, dim4, value)],
    whatever the base class.  It allocates the tables with [dim1], [dim2],
    [dim3] and [dim4] entries and fills them over [_dim[1]], [_dim[0]],
    [_dim[2]] and [_dim[3]] of what the base constructor stored.  So it
    returns a matrix whose tables each have the length of their axis
    exactly when the base constructor stored [dim2], [dim1], [dim3] and
    [dim4] in this order; a call of [compute_dimK_offsets] writes past the
    end of its table exactly when one of the sizes stored is larger than
    the argument its table was allocated with; and when the constructor
    returns, [_dim] is what the base class stored, the buffer holds
    [value] and the tables have the lengths of the arguments. *)
Theorem dimension_constructor_fits_iff_exchanged :
  forall dim1 dim2 dim3 dim4 (value : T),
    let stored := Matrix_dim base [dim1; dim2; dim3; dim4] in
    ((exists m, Matrix4D_ctor base dim1 dim2 dim3 dim4 value = Some m /\
                offsets_invariant m)
     <-> (vget stored 0 = dim2 /\ vget stored 1 = dim1 /\
          vget stored 2 = dim3 /\ vget stored 3 = dim4)) /\
    (Matrix4D_ctor base dim1 dim2 dim3 dim4 value = None
     <-> (dim1 < vget stored 1 \/ dim2 < vget stored 0 \/
          dim3 < vget stored 2 \/ dim4 < vget stored 3)) /\
    (forall m, Matrix4D_ctor base dim1 dim2 dim3 dim4 value = Some m ->
       _dim m = stored /\
       _data m = repeat value (fold_left Nat.mul stored 1) /\
       length (_dim1_offsets m) = dim1 /\ length (_dim2_offsets m) = dim2 /\
       length (_dim3_offsets m) = dim3 /\ length (_dim4_offsets m) = dim4).
Proof.
  intros dim1 dim2 dim3 dim4 value stored.
  destruct (ctor_cases dim1 dim2 dim3 dim4 value)
    as [[H1 [H2 [H3 [H4 [m [E [Hd [Hv [L1 [L2 [L3 L4]]]]]]]]]]] | [Hlt E]];
    fold stored in H1, H2, H3, H4, Hd, Hv || fold stored in Hlt.
  - split; [|split].
    + split.
      * intros [m' [E' [I1 [I2 [I3 I4]]]]]. rewrite E in E'. inversion E'; subst m'.
        rewrite Hd in I1, I2, I3, I4. repeat split; congruence.
      * intros [S0 [S1 [S2 S3]]]. exists m. split; [exact E|].
        unfold offsets_invariant. rewrite Hd. repeat split; congruence.
    + split; [intros E'; rewrite E in E'; discriminate | intros Hlt; lia].
    + intros m' E'. rewrite E in E'. inversion E'; subst m'. repeat split; assumption.
  - split; [|split].
    + split.
      * intros [m' [E' _]]. rewrite E in E'. discriminate.
      * intros [S0 [S1 [S2 S3]]]. lia.
    + split; [intros _; exact Hlt | intros _; exact E].
    + intros m' E'. rewrite E in E'. discriminate.
Qed.

End TablesOfTheConstructors.

(** X17 at [Matrix4D(2, 3, 1, 1, 7)]: with the base class that exchanges
    the first two sizes the tables fit, with one that stores the sizes in
    the order given [compute_dim1_offsets] writes three entries into a
    table of two. *)
Lemma dimension_constructor_fits_iff_exchanged_witness :
  (exists m, Matrix4D_ctor (T := Z) exchanging_base 2 3 1 1 7%Z = Some m /\
             offsets_invariant m) /\
  Matrix4D_ctor (T := Z) (mk_base (fun dim => dim) swap_coord (cumulative_products 1))
    2 3 1 1 7%Z = None.
Proof.
  split.
  - apply (proj1 (@dimension_constructor_fits_iff_exchanged Z exchanging_base
                    2 3 1 1 7%Z)).
    repeat split.
  - apply (proj1 (proj2 (@dimension_constructor_fits_iff_exchanged Z
                           (mk_base (fun dim => dim) swap_coord (cumulative_products 1))
                           2 3 1 1 7%Z))).
    left. unfold vget. simpl. lia.
Defined.
